(** * SuperSDR webhook normalizer: adapters and registry

    A shallow embedding of the normalization engine of the repository
    (src/adapters/MetaAdapter.ts, EvolutionAdapter.ts, ZApiAdapter.ts,
    src/core/WebhookAdapter.ts, src/core/AdapterRegistry.ts,
    src/utils/helpers.ts), of the handler and the message service that
    use it (src/handlers/WebhookHandler.ts,
    src/services/MessageService.ts), and the properties its
    specification states.

    The adapters receive an untyped value ([payload: unknown]) and walk it
    with JavaScript's dynamic operations, so the embedding has two layers:

    - [Js]: the fragment of JavaScript the adapters use, over the values
      [JSON.parse] can produce plus [undefined]: property reads (which
      throw on [null]/[undefined]), optional chaining, truthiness,
      [typeof], the conversions behind [<], [*], template literals and
      [parseInt], and the three regular-expression replacements of the
      phone canonicalization;
    - the classes of the repository, one module per class, every method
      written in a small completion monad (normal result or thrown value)
      in the order the source evaluates it.

    Modelling conventions, fixed here once:
    - numbers are IEEE 754 binary64 values, written as the integer or
      the dyadic fraction they are; products, comparisons and the
      conversions from and to strings round as the language does;
    - strings are the UTF-8 bytes of the JavaScript string; every pattern
      the code applies to strings is ASCII, so it acts on bytes as it does
      on UTF-16 code units;
    - an object is the list of its own properties in enumeration order,
      without duplicate keys (what [JSON.parse] builds);
    - [Date.now()] and [Math.random()] are read from an explicit [Env]. *)

From Stdlib Require Import ZArith List String Ascii Bool Lia.
From Stdlib Require Import DecimalString DecimalPos.
Import ListNotations.

Set Warnings "-register-all".

Local Open Scope string_scope.
Local Open Scope Z_scope.

(* ================================================================== *)
(** * The JavaScript fragment *)
(* ================================================================== *)

Module Js.

(** ** Values *)

(** A Number is an IEEE 754 binary64 value, written as the real number
    it is: [Num z] is the integer [z] (and [Num 0] is +0), [Frac m k] is
    [m / 2^k] for an odd [m], a number that is not an integer.  What
    [JSON.parse] reads is such a value, [NaN] apart, which only
    arithmetic and conversions yield. *)
Inductive number : Type :=
| NaN
| Num (z : Z)
| NegZero
| Infinity (negative : bool)
| Frac (m : Z) (k : positive).

(** ** Binary64 arithmetic

    A finite double is [a * 2^e] for an integer [a] of at most 53 bits
    and an exponent [e] from -1074, below [2^1024].  The operations
    round to such a number, to the nearest one with ties to the even
    one, and return it in the form above. *)

Definition precision : Z := 53.

Definition least_exponent : Z := -1074.

Definition exponent_bound : Z := 1024.

(** Number of binary digits of a positive integer. *)
Definition bits (a : Z) : Z := Z.log2 a + 1.

Definition signed (negative : bool) (a : Z) : Z := if negative then - a else a.

Definition zero (negative : bool) : number := if negative then NegZero else Num 0.

(** [a / 2^k], with the sign given, in lowest terms. *)
Fixpoint dyadic (negative : bool) (a k : positive) : number :=
  match a with
  | xO half =>
      if (k =? 1)%positive then Num (signed negative (Zpos half))
      else dyadic negative half (Pos.pred k)
  | _ => Frac (signed negative (Zpos a)) k
  end.

(** The number [a * 2^e] with the sign given, for [a >= 0]; infinite
    from [2^1024]. *)
Definition finite (negative : bool) (a e : Z) : number :=
  match a with
  | Zpos p =>
      if exponent_bound <? bits a + e then Infinity negative
      else match e with
           | Zneg k => dyadic negative p k
           | _ => Num (signed negative (Z.shiftl a e))
           end
  | _ => zero negative
  end.

(** [a / 2^s] rounded to the nearest integer, ties to the even one. *)
Definition round_half_even (a s : Z) : Z :=
  let hi := Z.shiftr a s in
  let lo := Z.land a (Z.ones s) in
  let half := Z.shiftl 1 (s - 1) in
  if lo <? half then hi
  else if half <? lo then hi + 1
  else if Z.even hi then hi else hi + 1.

(** The double nearest to [a * 2^e] (for [a >= 0], with the sign
    given), ties to even: at most 53 bits are kept, none below
    [2^-1074]. *)
Definition nearest (negative : bool) (a e : Z) : number :=
  if a =? 0 then zero negative
  else
    let q := Z.max (bits a + e - precision) least_exponent in
    if q <=? e then finite negative a e
    else finite negative (round_half_even a (q - e)) q.

Definition is_negative (n : number) : bool :=
  match n with
  | NaN => false
  | Num z => z <? 0
  | NegZero => true
  | Infinity negative => negative
  | Frac m _ => m <? 0
  end.

(** A finite number as [(a, e)], its absolute value being [a * 2^e]. *)
Definition parts (n : number) : option (Z * Z) :=
  match n with
  | Num z => Some (Z.abs z, 0)
  | NegZero => Some (0, 0)
  | Frac m k => Some (Z.abs m, Zneg k)
  | _ => None
  end.

(** [x * y] *)
Definition mul (x y : number) : number :=
  match x, y with
  | NaN, _ => NaN
  | _, NaN => NaN
  | _, _ =>
      let negative := xorb (is_negative x) (is_negative y) in
      match parts x, parts y with
      | Some (a, e), Some (b, f) => nearest negative (a * b) (e + f)
      | Some (a, _), None => if a =? 0 then NaN else Infinity negative
      | None, Some (b, _) => if b =? 0 then NaN else Infinity negative
      | None, None => Infinity negative
      end
  end.

(** A finite number as [(m, k)], its value being [m / 2^k]. *)
Definition ratio (n : number) : Z * Z :=
  match n with
  | Num z => (z, 0)
  | Frac m k => (m, Zpos k)
  | _ => (0, 0)
  end.

(** [x < y] and [x === y] on numbers: false when one is NaN; the two
    zeros are equal. *)
Definition ltb (x y : number) : bool :=
  match x, y with
  | NaN, _ => false
  | _, NaN => false
  | Infinity a, Infinity b => a && negb b
  | Infinity a, _ => a
  | _, Infinity b => negb b
  | _, _ =>
      let '(m, j) := ratio x in
      let '(n, k) := ratio y in
      Z.shiftl m k <? Z.shiftl n j
  end.

Definition eqb (x y : number) : bool :=
  match x, y with
  | NaN, _ => false
  | _, NaN => false
  | Infinity a, Infinity b => Bool.eqb a b
  | Infinity _, _ => false
  | _, Infinity _ => false
  | _, _ =>
      let '(m, j) := ratio x in
      let '(n, k) := ratio y in
      Z.shiftl m k =? Z.shiftl n j
  end.

(** The same number, the two zeros being different and NaN one. *)
Definition same (x y : number) : bool :=
  match x, y with
  | NaN, NaN => true
  | Num a, Num b => a =? b
  | NegZero, NegZero => true
  | Infinity a, Infinity b => Bool.eqb a b
  | Frac m j, Frac n k => (m =? n) && (j =? k)%positive
  | _, _ => false
  end.

Inductive value : Type :=
| Undefined
| Null
| Bool (b : bool)
| Number (n : number)
| Str (s : string)
| Arr (items : list value)
| Obj (fields : list (string * value)).

(** ** Thrown values.  The engine's [TypeError]s are [Error] instances
    whose message text is engine-defined; the message is kept symbolic. *)

Inductive ErrorMessage : Type :=
| CannotReadProperty (base : value) (key : string)
| NotAFunction (base : value) (method : string)
| CannotConvertToPrimitive (v : value)
| Message (text : string).

Inductive Thrown : Type :=
| ErrorInstance (message : ErrorMessage)
| ThrownValue (v : value).

(** ** Completions: the result of evaluating an expression or a call. *)

Inductive Completion (A : Type) : Type :=
| Normal (a : A)
| Throw (e : Thrown).

Arguments Normal {A} a.
Arguments Throw {A} e.

Definition ret {A} (a : A) : Completion A := Normal a.

Definition bind {A B} (c : Completion A) (k : A -> Completion B) : Completion B :=
  match c with
  | Normal a => k a
  | Throw e => Throw e
  end.

(** [try { body } catch (e) { handler e }] *)
Definition try_catch {A} (body : Completion A) (handler : Thrown -> Completion A)
  : Completion A :=
  match body with
  | Normal a => Normal a
  | Throw e => handler e
  end.

Declare Scope js_scope.
Delimit Scope js_scope with js.

Notation "x <- c ;; k" := (bind c (fun x => k))
  (at level 61, c at next level, right associativity) : js_scope.

Local Open Scope js_scope.

(** The completion of [c] with [f] applied to a normal result. *)
Definition cmap {A B} (f : A -> B) (c : Completion A) : Completion B :=
  match c with
  | Normal a => Normal (f a)
  | Throw e => Throw e
  end.

(** [a && b] and [a || b] on booleans, with the right operand evaluated
    only when needed. *)
Definition andM (a b : Completion bool) : Completion bool :=
  x <- a ;; if x then b else ret false.

Definition orM (a b : Completion bool) : Completion bool :=
  x <- a ;; if x then ret true else b.

(** ** Type tests *)

Definition typeof (v : value) : string :=
  match v with
  | Undefined => "undefined"
  | Null => "object"
  | Bool _ => "boolean"
  | Number _ => "number"
  | Str _ => "string"
  | Arr _ => "object"
  | Obj _ => "object"
  end.

Definition isArray (v : value) : bool :=
  match v with Arr _ => true | _ => false end.

Definition isNull (v : value) : bool :=
  match v with Null => true | _ => false end.

Definition isUndefined (v : value) : bool :=
  match v with Undefined => true | _ => false end.

(** [v === null || v === undefined], the test of [?.] *)
Definition isNullish (v : value) : bool := isNull v || isUndefined v.

(** ToBoolean *)
Definition truthy (v : value) : bool :=
  match v with
  | Undefined => false
  | Null => false
  | Bool b => b
  | Number NaN => false
  | Number (Num z) => negb (z =? 0)
  | Number NegZero => false
  | Number _ => true
  | Str s => negb (s =? "")%string
  | Arr _ => true
  | Obj _ => true
  end.

(** [v === lit] for a primitive literal [lit].  The adapters compare only
    against string, boolean and [undefined] literals; an object or array
    is never strictly equal to one. *)
Definition strictEq (v lit : value) : bool :=
  match v, lit with
  | Undefined, Undefined => true
  | Null, Null => true
  | Bool a, Bool b => Bool.eqb a b
  | Number a, Number b => eqb a b
  | Str a, Str b => (a =? b)%string
  | _, _ => false
  end.

(** ** Strings as UTF-8 bytes *)

Definition byte_of (c : ascii) : N := N_of_ascii c.

Definition is_continuation (c : ascii) : bool :=
  ((128 <=? byte_of c) && (byte_of c <? 192))%N.

(** Number of UTF-16 code units of the string: one per code point, two
    for a code point outside the basic plane (lead byte F0..F7). *)
Fixpoint code_units (s : string) : Z :=
  match s with
  | EmptyString => 0
  | String c rest =>
      (if is_continuation c then 0
       else if (240 <=? byte_of c)%N then 2 else 1) + code_units rest
  end.

Fixpoint take_continuation (s : string) : string :=
  match s with
  | EmptyString => EmptyString
  | String c rest =>
      if is_continuation c then String c (take_continuation rest) else EmptyString
  end.

Fixpoint drop_continuation (s : string) : string :=
  match s with
  | EmptyString => EmptyString
  | String c rest => if is_continuation c then drop_continuation rest else s
  end.

(** The character at index [i], as the bytes of the code point that
    starts at that index ([None] past the end).  The adapters only read
    index 0 of a string and then look up named properties on the result,
    which no one-character string has. *)
Fixpoint char_at (s : string) (i : nat) : option string :=
  match s with
  | EmptyString => None
  | String c rest =>
      match i with
      | O => Some (String c (take_continuation rest))
      | S j => char_at (drop_continuation rest) j
      end
  end.

Definition is_digit (c : ascii) : bool :=
  ((48 <=? byte_of c) && (byte_of c <=? 57))%N.

Definition is_ascii_letter (c : ascii) : bool :=
  (((65 <=? byte_of c) && (byte_of c <=? 90)) ||
   ((97 <=? byte_of c) && (byte_of c <=? 122)))%N.

Fixpoint string_forall (f : ascii -> bool) (s : string) : bool :=
  match s with
  | EmptyString => true
  | String c rest => f c && string_forall f rest
  end.

Fixpoint string_filter (f : ascii -> bool) (s : string) : string :=
  match s with
  | EmptyString => EmptyString
  | String c rest =>
      if f c then String c (string_filter f rest) else string_filter f rest
  end.

Definition startsWith (s p : string) : bool := String.prefix p s.

(** Decimal digits of an integer, with a leading [-] when negative. *)
Definition decimal (z : Z) : string := NilZero.string_of_int (Z.to_int z).

(** ** Conversions *)

Definition has_own (k : string) (fields : list (string * value)) : bool :=
  existsb (fun kv => (fst kv =? k)%string) fields.

(** The double nearest to [d * 10^p] (for [d >= 0], with the sign
    given).  A literal of 310 digits or more before the point is
    infinite and one below [10^-330] is zero; a quotient is computed to
    64 bits and a sticky bit, more than rounding to 53 bits needs. *)
Definition decimal_length (d : Z) : Z := Z.of_nat (String.length (decimal d)).

Definition nearest_decimal (negative : bool) (d p : Z) : number :=
  if d =? 0 then zero negative
  else
    let len := decimal_length d in
    if 310 <? len + p then Infinity negative
    else if len + p <? -330 then zero negative
    else if 0 <=? p then nearest negative (d * 10 ^ p) 0
    else
      let den := 10 ^ (- p) in
      let s := Z.max 0 (bits den - bits d + 64) in
      let '(q, r) := Z.div_eucl (Z.shiftl d s) den in
      nearest negative (2 * q + (if r =? 0 then 0 else 1)) (- s - 1).

(** Number::toString.  For a positive finite [x] it takes the integers
    [n], [k] and [s] with [k] as small as possible such that [s] has
    [k] digits and [s * 10^(n-k)] converts to [x], the [s] closest to
    [x] if there are two, and writes the digits of [s] with [n] before
    the point, or in exponent notation when [n] is above 21 or below
    -5.  Here [x] is [num / den]. *)
Definition below_power (num den n : Z) : bool :=
  if 0 <=? n then num <? 10 ^ n * den else num * 10 ^ (- n) <? den.

Fixpoint first_power (fuel : nat) (num den n : Z) : Z :=
  match fuel with
  | O => n
  | S fuel => if below_power num den n then n else first_power fuel num den (n + 1)
  end.

(** The [n] with [10^(n-1) <= num / den < 10^n], searched upwards from
    an estimate below it. *)
Definition magnitude (num den : Z) : Z :=
  let l := Z.log2 num - Z.log2 den in
  first_power 8 num den ((30103 * (l - 1)) / 100000 - 1).

(** The [s] of [k] digits, if there is one: only the two integers
    around [x / 10^(n-k)] can convert to [x]. *)
Definition candidate (x : number) (num den n k : Z) : option (Z * Z) :=
  let p := n - k in
  let '(num', den') :=
    if 0 <=? p then (num, den * 10 ^ p) else (num * 10 ^ (- p), den) in
  let '(lo, r) := Z.div_eucl num' den' in
  let hi := lo + 1 in
  let fits s := same (nearest_decimal false s p) x in
  let chosen :=
    match fits lo, fits hi with
    | true, true =>
        if 2 * r <? den' then Some lo
        else if den' <? 2 * r then Some hi
        else Some (if Z.even lo then lo else hi)
    | true, false => Some lo
    | false, true => Some hi
    | false, false => None
    end in
  match chosen with
  | Some s => if s =? 10 ^ k then Some (1, n + 1) else Some (s, n)
  | None => None
  end.

Fixpoint shortest_from (fuel : nat) (x : number) (num den n k : Z) : Z * Z :=
  match fuel with
  | O => (0, n)
  | S fuel =>
      match candidate x num den n k with
      | Some sn => sn
      | None => shortest_from fuel x num den n (k + 1)
      end
  end.

(** [(s, n)] for the positive [x = a * 2^e]; 17 digits always suffice. *)
Definition shortest (x : number) (a e : Z) : Z * Z :=
  let '(num, den) :=
    if 0 <=? e then (Z.shiftl a e, 1) else (a, Z.shiftl 1 (- e)) in
  shortest_from 17 x num den (magnitude num den) 1.

Fixpoint zeros (n : nat) : string :=
  match n with
  | O => ""
  | S n => String "0" (zeros n)
  end.

Definition render (s n : Z) : string :=
  let digits := decimal s in
  let k := Z.of_nat (String.length digits) in
  if (k <=? n) && (n <=? 21) then digits ++ zeros (Z.to_nat (n - k))
  else if (0 <? n) && (n <=? 21) then
    substring 0 (Z.to_nat n) digits ++ "."
    ++ substring (Z.to_nat n) (Z.to_nat (k - n)) digits
  else if (-6 <? n) && (n <=? 0) then "0." ++ zeros (Z.to_nat (- n)) ++ digits
  else
    let e := n - 1 in
    let exponent := (if e <? 0 then "-" else "+") ++ decimal (Z.abs e) in
    if k =? 1 then digits ++ "e" ++ exponent
    else substring 0 1 digits ++ "." ++ substring 1 (Z.to_nat (k - 1)) digits
         ++ "e" ++ exponent.

Definition absolute (n : number) : number :=
  match n with
  | Num z => Num (Z.abs z)
  | NegZero => Num 0
  | Infinity _ => Infinity false
  | Frac m k => Frac (Z.abs m) k
  | NaN => NaN
  end.

Definition NumberToString (n : number) : string :=
  match n with
  | NaN => "NaN"
  | NegZero => "0"
  | Infinity negative => if negative then "-Infinity" else "Infinity"
  | Num 0 => "0"
  | _ =>
      match parts n with
      | Some (a, e) =>
          let '(s, p) := shortest (absolute n) a e in
          (if is_negative n then "-" else "") ++ render s p
      | None => "NaN"
      end
  end.

(** ToString.  A plain object converts through the inherited
    [Object.prototype.toString] unless an own property named [toString]
    (never callable in parsed JSON) hides it, in which case the conversion
    throws.  An array converts through [join], which renders [null] and
    [undefined] elements as empty strings. *)
Fixpoint ToString (v : value) : Completion string :=
  match v with
  | Undefined => ret "undefined"
  | Null => ret "null"
  | Bool true => ret "true"
  | Bool false => ret "false"
  | Number n => ret (NumberToString n)
  | Str s => ret s
  | Arr items =>
      (fix join (l : list value) : Completion string :=
         match l with
         | [] => ret ""
         | x :: rest =>
             sx <- (match x with
                    | Undefined => ret ""
                    | Null => ret ""
                    | _ => ToString x
                    end) ;;
             match rest with
             | [] => ret sx
             | _ :: _ => srest <- join rest ;; ret (sx ++ "," ++ srest)
             end
         end) items
  | Obj fields =>
      if has_own "toString" fields
      then Throw (ErrorInstance (CannotConvertToPrimitive v))
      else ret "[object Object]"
  end.

(** White space and line terminators of the language, as UTF-8. *)
Definition is_ascii_space (c : ascii) : bool :=
  (((9 <=? byte_of c) && (byte_of c <=? 13)) || (byte_of c =? 32))%N.

Definition is_space2 (c d : ascii) : bool :=
  ((byte_of c =? 194) && (byte_of d =? 160))%N.

Definition is_space3 (c d e : ascii) : bool :=
  let '(x, y, z) := (byte_of c, byte_of d, byte_of e) in
  (((x =? 225) && (y =? 154) && (z =? 128)) ||
   ((x =? 226) && (y =? 128) &&
      (((128 <=? z) && (z <=? 138)) || (z =? 168) || (z =? 169) || (z =? 175))) ||
   ((x =? 226) && (y =? 129) && (z =? 159)) ||
   ((x =? 227) && (y =? 128) && (z =? 128)) ||
   ((x =? 239) && (y =? 187) && (z =? 191)))%N.

Fixpoint skip_whitespace (s : string) : string :=
  match s with
  | EmptyString => s
  | String c r1 =>
      if is_ascii_space c then skip_whitespace r1
      else match r1 with
           | EmptyString => s
           | String d r2 =>
               if is_space2 c d then skip_whitespace r2
               else match r2 with
                    | EmptyString => s
                    | String e r3 =>
                        if is_space3 c d e then skip_whitespace r3 else s
                    end
           end
  end.

Definition digit_value (c : ascii) : option Z :=
  let b := Z.of_N (byte_of c) in
  if (48 <=? b) && (b <=? 57) then Some (b - 48)
  else if (97 <=? b) && (b <=? 122) then Some (b - 87)
  else if (65 <=? b) && (b <=? 90) then Some (b - 55)
  else None.

Definition radix_digit (radix : Z) (c : ascii) : option Z :=
  match digit_value c with
  | Some d => if d <? radix then Some d else None
  | None => None
  end.

(** Longest prefix of digits of the radix (as digit values) and the rest. *)
Fixpoint span_digits (radix : Z) (s : string) : list Z * string :=
  match s with
  | EmptyString => ([], s)
  | String c rest =>
      match radix_digit radix c with
      | Some d => let '(ds, tl) := span_digits radix rest in (d :: ds, tl)
      | None => ([], s)
      end
  end.

Definition digits_value (radix : Z) (ds : list Z) : Z :=
  fold_left (fun acc d => acc * radix + d) ds 0.

(** Sign prefix: the sign and the string after it. *)
Definition split_sign (s : string) : Z * string :=
  match s with
  | String "-" rest => (-1, rest)
  | String "+" rest => (1, rest)
  | _ => (1, s)
  end.

(** [0x]/[0X] (and for [Number], [0o], [0b]) prefix of a literal. *)
Definition split_prefix (marks : list (ascii * Z)) (s : string) : option (Z * string) :=
  match s with
  | String "0" (String m rest) =>
      match find (fun p => Ascii.eqb (fst p) m) marks with
      | Some (_, radix) => Some (radix, rest)
      | None => None
      end
  | _ => None
  end.

(** [parseInt(s)] on a string, radix omitted: the integer that the
    longest prefix of digits spells, after white space, a sign and
    [0x], as the nearest double (every digit counts, as in V8); NaN
    without a digit, and -0 for a negative zero. *)
Definition parseInt_string (s : string) : number :=
  let '(sign, body) := split_sign (skip_whitespace s) in
  let '(radix, body) :=
    match split_prefix [("x"%char, 16); ("X"%char, 16)] body with
    | Some rb => rb
    | None => (10, body)
    end in
  match span_digits radix body with
  | ([], _) => NaN
  | (ds, _) => nearest (sign <? 0) (digits_value radix ds) 0
  end.

(** The exponent part of a decimal literal, [e] or [E] with an optional
    sign and digits: its value and the rest of the string. *)
Definition exponent_part (s : string) : option (Z * string) :=
  match s with
  | String c rest =>
      if Ascii.eqb c "e"%char || Ascii.eqb c "E"%char then
        let '(sign, digits) := split_sign rest in
        match span_digits 10 digits with
        | ([], _) => None
        | (ds, tl) => Some (sign * digits_value 10 ds, tl)
        end
      else None
  | EmptyString => None
  end.

(** An unsigned decimal literal at the start of the string (digits, a
    point, digits, an exponent part; a digit is required before or
    after the point): its digits as an integer [d], the power [p] of
    ten that scales them, and the rest of the string. *)
Definition decimal_literal (s : string) : option (Z * Z * string) :=
  let '(whole, rest) := span_digits 10 s in
  let '(fraction, rest) :=
    match rest with
    | String "." after => span_digits 10 after
    | _ => ([], rest)
    end in
  match whole, fraction with
  | [], [] => None
  | _, _ =>
      let d := digits_value 10 (whole ++ fraction) in
      let p := - Z.of_nat (List.length fraction) in
      match exponent_part rest with
      | Some (e, rest) => Some (d, p + e, rest)
      | None => Some (d, p, rest)
      end
  end.

Definition blank (s : string) : bool :=
  match skip_whitespace s with
  | EmptyString => true
  | _ => false
  end.

(** StringToNumber: the empty or all-blank string is 0; an unsigned
    hexadecimal, octal or binary integer literal, [Infinity] or a
    decimal literal with an optional sign, between white space, is the
    double nearest to the value it spells; anything else is NaN. *)
Definition StringToNumber (s : string) : number :=
  let body := skip_whitespace s in
  match body with
  | EmptyString => Num 0
  | _ =>
      match split_prefix [("x"%char, 16); ("X"%char, 16); ("o"%char, 8);
                          ("O"%char, 8); ("b"%char, 2); ("B"%char, 2)] body with
      | Some (radix, digits) =>
          match span_digits radix digits with
          | (d :: ds, tl) =>
              if blank tl then nearest false (digits_value radix (d :: ds)) 0
              else NaN
          | ([], _) => NaN
          end
      | None =>
          let '(sign, literal) := split_sign body in
          if String.prefix "Infinity" literal then
            if blank (substring 8 (String.length literal - 8)%nat literal)
            then Infinity (sign <? 0) else NaN
          else
            match decimal_literal literal with
            | Some (d, p, tl) =>
                if blank tl then nearest_decimal (sign <? 0) d p else NaN
            | None => NaN
            end
      end
  end.

(** ToNumber: through ToPrimitive for arrays and objects. *)
Definition ToNumber (v : value) : Completion number :=
  match v with
  | Undefined => ret NaN
  | Null => ret (Num 0)
  | Bool b => ret (Num (if b then 1 else 0))
  | Number n => ret n
  | Str s => ret (StringToNumber s)
  | Arr _ => s <- ToString v ;; ret (StringToNumber s)
  | Obj fields =>
      if has_own "toString" fields
      then Throw (ErrorInstance (CannotConvertToPrimitive v))
      else ret NaN
  end.

(** [parseInt(v)] *)
Definition parseInt (v : value) : Completion number :=
  s <- ToString v ;; ret (parseInt_string s).

(** [v < k], [v > k], [v * k] with an integer literal on the right. *)
Definition lt_lit (v : value) (k : Z) : Completion bool :=
  n <- ToNumber v ;; ret (ltb n (Num k)).

Definition gt_lit (v : value) (k : Z) : Completion bool :=
  n <- ToNumber v ;; ret (ltb (Num k) n).

Definition mul_lit (v : value) (k : Z) : Completion value :=
  n <- ToNumber v ;; ret (Number (mul n (Num k))).

(** ** Property reads.

    [member v k] is [v.k] on a value that is neither [null] nor
    [undefined], for the identifier-named properties the adapters read
    ([object], [entry], [length], ...): an own property of an object, the
    [length] of an array or string, and [undefined] otherwise.  None of
    the names the adapters read is a member of a built-in prototype. *)

Fixpoint lookup (k : string) (fields : list (string * value)) : option value :=
  match fields with
  | [] => None
  | (k', v) :: rest => if (k' =? k)%string then Some v else lookup k rest
  end.

Definition index_key (i : nat) : string := decimal (Z.of_nat i).

Definition member (v : value) (k : string) : value :=
  match v with
  | Obj fields =>
      match lookup k fields with Some x => x | None => Undefined end
  | Arr items =>
      if (k =? "length")%string then Number (Num (Z.of_nat (List.length items)))
      else Undefined
  | Str s =>
      if (k =? "length")%string then Number (Num (code_units s)) else Undefined
  | _ => Undefined
  end.

(** [v[i]] for a numeric literal [i] *)
Definition element (v : value) (i : nat) : value :=
  match v with
  | Obj fields =>
      match lookup (index_key i) fields with Some x => x | None => Undefined end
  | Arr items => nth i items Undefined
  | Str s => match char_at s i with Some c => Str c | None => Undefined end
  | _ => Undefined
  end.

(** [v.k]: throws a [TypeError] on [null] and [undefined]. *)
Definition get (v : value) (k : string) : Completion value :=
  if isNullish v then Throw (ErrorInstance (CannotReadProperty v k))
  else ret (member v k).

(** [v[i]] *)
Definition get_index (v : value) (i : nat) : Completion value :=
  if isNullish v then Throw (ErrorInstance (CannotReadProperty v (index_key i)))
  else ret (element v i).

(** [v?.k] and [v?.[i]] *)
Definition get_opt (v : value) (k : string) : Completion value :=
  if isNullish v then ret Undefined else get v k.

Definition get_index_opt (v : value) (i : nat) : Completion value :=
  if isNullish v then ret Undefined else get_index v i.

(** [a || b] on values, with a literal or an already evaluated right
    operand, and with one that is still to be evaluated *)
Definition or_else (a b : value) : value := if truthy a then a else b.

Definition or_elseM (a b : Completion value) : Completion value :=
  x <- a ;; if truthy x then ret x else b.

(** [Object.keys(v)] for an object or an array *)
Definition Object_keys (v : value) : list string :=
  match v with
  | Obj fields => map fst fields
  | Arr items => map index_key (seq 0 (List.length items))
  | _ => []
  end.

(** [list.includes(v)] for a list of string literals *)
Definition includes (l : list string) (v : value) : bool :=
  match v with
  | Str s => existsb (fun x => (x =? s)%string) l
  | _ => false
  end.

(** ** Object literals used as lookup tables: [table[key]].
    The key is converted with ToString; a key naming a member of
    [Object.prototype] finds that inherited member (a function or, for
    [__proto__], the prototype object: all truthy). *)

Definition Object_prototype_members : list string :=
  [ "constructor"; "hasOwnProperty"; "isPrototypeOf"; "propertyIsEnumerable";
    "toLocaleString"; "toString"; "valueOf"; "__proto__";
    "__defineGetter__"; "__defineSetter__"; "__lookupGetter__";
    "__lookupSetter__" ].

Inductive Looked (A : Type) : Type :=
| Own (a : A)
| Inherited (name : string)
| Missing.

Arguments Own {A} a.
Arguments Inherited {A} name.
Arguments Missing {A}.

Fixpoint assoc {A} (k : string) (table : list (string * A)) : option A :=
  match table with
  | [] => None
  | (k', a) :: rest => if (k' =? k)%string then Some a else assoc k rest
  end.

Definition table_lookup {A} (table : list (string * A)) (k : string) : Looked A :=
  match assoc k table with
  | Some a => Own a
  | None =>
      if existsb (fun m => (m =? k)%string) Object_prototype_members
      then Inherited k else Missing
  end.

(** [table[key] || dflt] *)
Definition lookup_or {A} (table : list (string * A)) (inherited : string -> A)
    (dflt : A) (key : value) : Completion A :=
  k <- ToString key ;;
  ret (match table_lookup table k with
       | Own a => a
       | Inherited name => inherited name
       | Missing => dflt
       end).

(** ** The string methods the adapters call *)

(** [s.replace(/@[a-z.]+$/i, '')]: the leftmost [@] followed, up to the
    end of the string, by one or more ASCII letters or dots is cut with
    what follows it.  (Without the [u] flag, case folding never maps a
    non-ASCII character to an ASCII one.) *)
Definition is_suffix_char (c : ascii) : bool :=
  is_ascii_letter c || Ascii.eqb c "."%char.

Fixpoint strip_whatsapp_suffix (s : string) : string :=
  match s with
  | EmptyString => EmptyString
  | String c rest =>
      if Ascii.eqb c "@"%char && negb (rest =? "")%string
         && string_forall is_suffix_char rest
      then EmptyString
      else String c (strip_whatsapp_suffix rest)
  end.

(** [s.replace(/[^\d+]/g, '')] *)
Definition keep_digits_and_plus (s : string) : string :=
  string_filter (fun c => is_digit c || Ascii.eqb c "+"%char) s.

(** [s.replace(/[^\d]/g, '')] *)
Definition keep_digits (s : string) : string := string_filter is_digit s.

(** [s.replace(/^\+/, '')] *)
Definition strip_leading_plus (s : string) : string :=
  match s with
  | String "+" rest => rest
  | _ => s
  end.

(** [s.toUpperCase()], exact on ASCII and on the two non-ASCII letters
    whose upper case is an ASCII letter (U+017F, long s, and U+0131,
    dotless i); other non-ASCII characters are left in place, which
    agrees with the method on whether the result equals an ASCII word
    without the letter pairs SS, ST, FF, FI or FL. *)
Definition upper_ascii (c : ascii) : ascii :=
  if ((97 <=? byte_of c) && (byte_of c <=? 122))%N
  then ascii_of_N (byte_of c - 32) else c.

Fixpoint toUpperCase (s : string) : string :=
  match s with
  | EmptyString => EmptyString
  | String c r1 =>
      match r1 with
      | String d r2 =>
          if ((byte_of c =? 197) && (byte_of d =? 191))%N
          then String "S" (toUpperCase r2)
          else if ((byte_of c =? 196) && (byte_of d =? 177))%N
          then String "I" (toUpperCase r2)
          else String (upper_ascii c) (toUpperCase r1)
      | EmptyString => String (upper_ascii c) EmptyString
      end
  end.

End Js.

(* ================================================================== *)
(** * src/types: the normalized model *)
(* ================================================================== *)

Module MessageType.
  (** ['text' | 'image' | ... | 'unknown'].  [inherited] is what a lookup
      in a [typeMap] object literal yields for a key that names a member
      of [Object.prototype]: a value outside the declared union. *)
Inductive t : Type :=
  | text | image | audio | video | document | location
  | contact | sticker | reaction | unknown
  | inherited (name : string).
End MessageType.

Module MessageStatus.
Inductive t : Type :=
  | received | sent | delivered | read | failed | pending
  | inherited (name : string).
End MessageStatus.

Module WebhookProvider.
  (** ['meta' | 'evolution' | 'z-api' | 'unknown']; [other] stands for a
      tag a custom adapter supplies through a cast (as the tests do). *)
Inductive t : Type :=
  | meta | evolution | z_api | unknown
  | other (tag : string).

Definition name (p : t) : string :=
    match p with
    | meta => "meta"
    | evolution => "evolution"
    | z_api => "z-api"
    | unknown => "unknown"
    | other tag => tag
    end.

  (** Map keys are compared as the strings they are. *)
Definition eqb (p q : t) : bool := (name p =? name q)%string.
End WebhookProvider.

Module Types.
Import Js.

Inductive MessageDirection : Type := inbound | outbound.

Inductive ErrorCode : Type :=
| INVALID_PAYLOAD
| UNKNOWN_PROVIDER
| MISSING_REQUIRED_FIELD
| PARSE_ERROR
| UNSUPPORTED_MESSAGE_TYPE
| PROCESSING_ERROR.

(** Fields the source declares as strings or numbers hold whatever the
    payload held there: nothing checks their type at run time.  An absent
    optional field is [Undefined]. *)

Record NormalizedContact : Type := {
  phoneNumber : string;
  name : value;
  profilePicUrl : value
}.

Record Location : Type := {
  latitude : value;
  longitude : value;
  location_name : value;
  address : value
}.

Record NormalizedMessageContent : Type := {
  type : MessageType.t;
  text : value;
  caption : value;
  mediaUrl : value;
  mimeType : value;
  fileName : value;
  location : option Location
}.

Record NormalizedMessage : Type := {
  id : string;
  externalId : value;
  provider : WebhookProvider.t;
  instanceId : value;
  timestamp : value;
  direction : MessageDirection;
  status : MessageStatus.t;
  from : NormalizedContact;
  to : NormalizedContact;
  content : NormalizedMessageContent;
  rawPayload : value;
  metadata : list (string * value)
}.

Record ProviderIdentification : Type := {
  identified : WebhookProvider.t;
  confidence : Z
}.

(** [details?: unknown]: the shapes the code puts there. *)
Inductive Details : Type :=
| NoDetails
| ErrorMessageOf (m : ErrorMessage)
| Value (v : value)
| UnknownProviderDetails (registeredProviders : list WebhookProvider.t)
                         (payloadType : string)
                         (payloadKeys : list string).

Record NormalizationError : Type := {
  code : ErrorCode;
  error_message : string;
  details : Details
}.

Record NormalizationResult : Type := {
  success : bool;
  message : option NormalizedMessage;
  error : option NormalizationError
}.

(** A content record with only its [type] set. *)
Definition content_of (t : MessageType.t) : NormalizedMessageContent :=
  {| type := t; text := Undefined; caption := Undefined; mediaUrl := Undefined;
     mimeType := Undefined; fileName := Undefined; location := None |}.

End Types.

(* ================================================================== *)
(** * src/core/WebhookAdapter.ts *)
(* ================================================================== *)

(** The two ambient readings of [generateId]. *)
Record Env : Type := {
  Date_now : Z;                 (* Date.now() *)
  Math_random_36 : string       (* Math.random().toString(36) *)
}.

(** [interface WebhookAdapter] *)
Module WebhookAdapter.
Record t : Type := {
    provider : WebhookProvider.t;
    canHandle : Js.value -> Js.Completion bool;
    identify : Js.value -> Js.Completion Types.ProviderIdentification;
    normalize : Js.value -> Js.Completion Types.NormalizationResult;
    validate : Js.value -> Js.Completion bool
  }.
End WebhookAdapter.

Module BaseWebhookAdapter.
Import Js Types.
Local Open Scope js_scope.

(** [identify]: [canHandle] is called once per field. *)
Definition identify (provider : WebhookProvider.t)
    (canHandle : value -> Completion bool) (payload : value)
  : Completion ProviderIdentification :=
  h1 <- canHandle payload ;;
  h2 <- canHandle payload ;;
  ret {| identified := if h1 then provider else WebhookProvider.unknown;
         confidence := if h2 then 1 else 0 |}.

Definition generateId (env : Env) : string :=
  "msg_" ++ decimal (Date_now env) ++ "_" ++ substring 2 7 (Math_random_36 env).

(** [error instanceof Error ? error.message : error] *)
Definition cause (e : Thrown) : Details :=
  match e with
  | ErrorInstance m => ErrorMessageOf m
  | ThrownValue v => Value v
  end.

Definition normalizePhoneNumber (phone : value) : Completion string :=
  if negb (truthy phone) then ret ""
  else match phone with
       | Str s =>
           let normalized := strip_whatsapp_suffix s in
           let normalized := keep_digits_and_plus normalized in
           let normalized := strip_leading_plus normalized in
           ret normalized
       | _ => Throw (ErrorInstance (NotAFunction phone "replace"))
       end.

Definition createError (code : ErrorCode) (message : string) (details : Details)
  : NormalizationResult :=
  {| success := false;
     message := None;
     error := Some {| code := code; error_message := message; details := details |} |}.

Definition createSuccess (message : NormalizedMessage) : NormalizationResult :=
  {| success := true; message := Some message; error := None |}.

End BaseWebhookAdapter.

(* ================================================================== *)
(** * src/adapters/MetaAdapter.ts *)
(* ================================================================== *)

Module MetaAdapter.
Import Js Types BaseWebhookAdapter.
Local Open Scope js_scope.

Definition provider : WebhookProvider.t := WebhookProvider.meta.

Definition isObject (v : value) : bool :=
  (typeof v =? "object")%string && negb (isNull v) && negb (isArray v).

Definition canHandle (payload : value) : Completion bool :=
  if negb (isObject payload) then ret false
  else
    andM (o <- get payload "object" ;;
          ret (strictEq o (Str "whatsapp_business_account")))
   (andM (e <- get payload "entry" ;; ret (isArray e))
         (e <- get payload "entry" ;; n <- get e "length" ;; gt_lit n 0)).

Definition validate (payload : value) : Completion bool :=
  h <- canHandle payload ;;
  if negb h then ret false
  else
    try_catch
      (es <- get payload "entry" ;;
       entry <- get_index es 0 ;;
       cs <- get_opt entry "changes" ;;
       changes <- get_index_opt cs 0 ;;
       value <- get_opt changes "value" ;;
       ms <- get_opt value "messages" ;;
       mlen <- get_opt ms "length" ;;
       if truthy mlen then ret true
       else
         ss <- get_opt value "statuses" ;;
         slen <- get_opt ss "length" ;;
         ret (truthy slen))
      (fun _ => ret false).

Definition typeMap : list (string * MessageType.t) :=
  [ ("text", MessageType.text); ("image", MessageType.image);
    ("audio", MessageType.audio); ("video", MessageType.video);
    ("document", MessageType.document); ("location", MessageType.location);
    ("contacts", MessageType.contact); ("sticker", MessageType.sticker);
    ("reaction", MessageType.reaction) ].

Definition mapMessageType (metaType : value) : Completion MessageType.t :=
  lookup_or typeMap MessageType.inherited MessageType.unknown metaType.

Definition statusMap : list (string * MessageStatus.t) :=
  [ ("sent", MessageStatus.sent); ("delivered", MessageStatus.delivered);
    ("read", MessageStatus.read); ("failed", MessageStatus.failed) ].

Definition mapStatus (metaStatus : value) : Completion MessageStatus.t :=
  lookup_or statusMap MessageStatus.inherited MessageStatus.pending metaStatus.

(** [msg.<kind>?.<field>] *)
Definition sub (msg : value) (kind field : string) : Completion value :=
  o <- get msg kind ;; get_opt o field.

Definition extractContent (msg : value) : Completion NormalizedMessageContent :=
  ty <- get msg "type" ;;
  _ <- mapMessageType ty ;;
  ty <- get msg "type" ;;
  if strictEq ty (Str "text") then
    body <- sub msg "text" "body" ;;
    ret {| type := MessageType.text; text := or_else body (Str "");
           caption := Undefined; mediaUrl := Undefined; mimeType := Undefined;
           fileName := Undefined; location := None |}
  else if strictEq ty (Str "image") then
    i <- sub msg "image" "id" ;;
    m <- sub msg "image" "mime_type" ;;
    c <- sub msg "image" "caption" ;;
    ret {| type := MessageType.image; text := Undefined; caption := c;
           mediaUrl := i; mimeType := m; fileName := Undefined; location := None |}
  else if strictEq ty (Str "audio") then
    i <- sub msg "audio" "id" ;;
    m <- sub msg "audio" "mime_type" ;;
    ret {| type := MessageType.audio; text := Undefined; caption := Undefined;
           mediaUrl := i; mimeType := m; fileName := Undefined; location := None |}
  else if strictEq ty (Str "video") then
    i <- sub msg "video" "id" ;;
    m <- sub msg "video" "mime_type" ;;
    c <- sub msg "video" "caption" ;;
    ret {| type := MessageType.video; text := Undefined; caption := c;
           mediaUrl := i; mimeType := m; fileName := Undefined; location := None |}
  else if strictEq ty (Str "document") then
    i <- sub msg "document" "id" ;;
    m <- sub msg "document" "mime_type" ;;
    f <- sub msg "document" "filename" ;;
    c <- sub msg "document" "caption" ;;
    ret {| type := MessageType.document; text := Undefined; caption := c;
           mediaUrl := i; mimeType := m; fileName := f; location := None |}
  else if strictEq ty (Str "location") then
    la <- sub msg "location" "latitude" ;;
    lo <- sub msg "location" "longitude" ;;
    n <- sub msg "location" "name" ;;
    a <- sub msg "location" "address" ;;
    ret {| type := MessageType.location; text := Undefined; caption := Undefined;
           mediaUrl := Undefined; mimeType := Undefined; fileName := Undefined;
           location := Some {| latitude := or_else la (Number (Num 0));
                               longitude := or_else lo (Number (Num 0));
                               location_name := n; address := a |} |}
  else
    ty <- get msg "type" ;;
    shown <- ToString ty ;;
    ret {| type := MessageType.unknown;
           text := Str ("Tipo não suportado: " ++ shown);
           caption := Undefined; mediaUrl := Undefined; mimeType := Undefined;
           fileName := Undefined; location := None |}.

(** [value.<list> && value.<list>.length > 0] as a condition *)
Definition nonempty (value : Js.value) (list : string) : Completion bool :=
  l <- get value list ;;
  if truthy l then (l <- get value list ;; n <- get l "length" ;; gt_lit n 0)
  else ret false.

(** The [try] block of [normalize]. *)
Definition extract (env : Env) (payload : value) : Completion NormalizationResult :=
  es <- get payload "entry" ;;
  entry <- get_index es 0 ;;
  cs <- get entry "changes" ;;
  changes <- get_index cs 0 ;;
  value <- get changes "value" ;;
  metadata <- get value "metadata" ;;
  has_messages <- nonempty value "messages" ;;
  if has_messages then
    ms <- get value "messages" ;;
    msg <- get_index ms 0 ;;
    contacts <- get value "contacts" ;;
    contact <- get_index_opt contacts 0 ;;
    let id := generateId env in
    externalId <- get msg "id" ;;
    instanceId <- get metadata "phone_number_id" ;;
    ts <- get msg "timestamp" ;;
    seconds <- parseInt ts ;;
    sender <- get msg "from" ;;
    fromPhone <- normalizePhoneNumber sender ;;
    profile <- get_opt contact "profile" ;;
    pname <- get_opt profile "name" ;;
    display <- get metadata "display_phone_number" ;;
    toPhone <- normalizePhoneNumber display ;;
    content <- extractContent msg ;;
    businessAccountId <- get entry "id" ;;
    phoneNumberId <- get metadata "phone_number_id" ;;
    ret (createSuccess
           {| id := id;
              externalId := externalId;
              Types.provider := provider;
              instanceId := instanceId;
              timestamp := Number (mul seconds (Num 1000));
              direction := inbound;
              status := MessageStatus.received;
              from := {| phoneNumber := fromPhone;
                         name := or_else pname Null;
                         profilePicUrl := Undefined |};
              to := {| phoneNumber := toPhone; name := Null;
                       profilePicUrl := Undefined |};
              content := content;
              rawPayload := payload;
              metadata := [ ("businessAccountId", businessAccountId);
                            ("phoneNumberId", phoneNumberId) ] |})
  else
    has_statuses <- nonempty value "statuses" ;;
    if has_statuses then
      ss <- get value "statuses" ;;
      status <- get_index ss 0 ;;
      let id := generateId env in
      externalId <- get status "id" ;;
      instanceId <- get metadata "phone_number_id" ;;
      ts <- get status "timestamp" ;;
      seconds <- parseInt ts ;;
      st <- get status "status" ;;
      mapped <- mapStatus st ;;
      display <- get metadata "display_phone_number" ;;
      fromPhone <- normalizePhoneNumber display ;;
      recipient <- get status "recipient_id" ;;
      toPhone <- normalizePhoneNumber recipient ;;
      originalStatus <- get status "status" ;;
      ret (createSuccess
             {| id := id;
                externalId := externalId;
                Types.provider := provider;
                instanceId := instanceId;
                timestamp := Number (mul seconds (Num 1000));
                direction := outbound;
                status := mapped;
                from := {| phoneNumber := fromPhone; name := Null;
                           profilePicUrl := Undefined |};
                to := {| phoneNumber := toPhone; name := Null;
                         profilePicUrl := Undefined |};
                content := content_of MessageType.unknown;
                rawPayload := payload;
                metadata := [ ("isStatusUpdate", Bool true);
                              ("originalStatus", originalStatus) ] |})
    else
      ret (createError PROCESSING_ERROR
             "Não foi possível extrair mensagem do payload" NoDetails).

Definition normalize (env : Env) (payload : value) : Completion NormalizationResult :=
  h <- canHandle payload ;;
  if negb h then
    ret (createError INVALID_PAYLOAD
           "Payload não é um webhook válido da Meta Cloud API" NoDetails)
  else
    v <- validate payload ;;
    if negb v then
      ret (createError MISSING_REQUIRED_FIELD
             "Payload da Meta não contém mensagens ou status updates" NoDetails)
    else
      try_catch (extract env payload)
        (fun error =>
           ret (createError PARSE_ERROR "Erro ao processar payload da Meta"
                  (cause error))).

Definition adapter (env : Env) : WebhookAdapter.t :=
  {| WebhookAdapter.provider := provider;
     WebhookAdapter.canHandle := canHandle;
     WebhookAdapter.identify := BaseWebhookAdapter.identify provider canHandle;
     WebhookAdapter.normalize := normalize env;
     WebhookAdapter.validate := validate |}.

End MetaAdapter.

(* ================================================================== *)
(** * src/adapters/EvolutionAdapter.ts *)
(* ================================================================== *)

Module EvolutionAdapter.
Import Js Types BaseWebhookAdapter.
Local Open Scope js_scope.

Definition provider : WebhookProvider.t := WebhookProvider.evolution.

Definition isObject (v : value) : bool :=
  (typeof v =? "object")%string && negb (isNull v) && negb (isArray v).

Definition canHandle (payload : value) : Completion bool :=
  if negb (isObject payload) then ret false
  else
    andM (e <- get payload "event" ;; ret (typeof e =? "string")%string)
   (andM (i <- get payload "instance" ;; ret (typeof i =? "string")%string)
   (andM (d <- get payload "data" ;; ret (isObject d))
         (d <- get payload "data" ;; k <- get d "key" ;; ret (isObject k)))).

(** [p.data?.key?.<field>] *)
Definition key_field (p : value) (field : string) : Completion value :=
  d <- get p "data" ;; k <- get_opt d "key" ;; get_opt k field.

Definition validate (payload : value) : Completion bool :=
  h <- canHandle payload ;;
  if negb h then ret false
  else
    try_catch
      (remoteJid <- key_field payload "remoteJid" ;;
       if negb (truthy remoteJid) then ret false
       else
         kid <- key_field payload "id" ;;
         if negb (truthy kid) then ret false
         else
           d <- get payload "data" ;;
           ts <- get_opt d "messageTimestamp" ;;
           ret (negb (strictEq ts Undefined)))
      (fun _ => ret false).

Definition messageEvents : list string :=
  [ "messages.upsert"; "messages.update"; "message.ack"; "send.message" ].

Definition isMessageEvent (event : value) : bool := includes messageEvents event.

Definition seconds_limit : Z := 10000000000.

Definition normalizeTimestamp (timestamp : value) : Completion value :=
  below <- lt_lit timestamp seconds_limit ;;
  if below then mul_lit timestamp 1000 else ret timestamp.

Definition typeMap : list (string * MessageType.t) :=
  [ ("conversation", MessageType.text);
    ("extendedTextMessage", MessageType.text);
    ("imageMessage", MessageType.image);
    ("audioMessage", MessageType.audio);
    ("videoMessage", MessageType.video);
    ("documentMessage", MessageType.document);
    ("locationMessage", MessageType.location);
    ("contactMessage", MessageType.contact);
    ("stickerMessage", MessageType.sticker);
    ("reactionMessage", MessageType.reaction) ].

Definition mapMessageType (evolutionType : value) : Completion MessageType.t :=
  lookup_or typeMap MessageType.inherited MessageType.unknown evolutionType.

(** [message.<variant>.<field>] *)
Definition sub (message : value) (variant field : string) : Completion value :=
  o <- get message variant ;; get o field.

Definition extractContent (message messageType : value)
  : Completion NormalizedMessageContent :=
  if negb (truthy message) then ret (content_of MessageType.unknown)
  else
    conversation <- get message "conversation" ;;
    if truthy conversation then
      t <- get message "conversation" ;;
      ret {| type := MessageType.text; text := t; caption := Undefined;
             mediaUrl := Undefined; mimeType := Undefined;
             fileName := Undefined; location := None |}
    else
    extended <- get message "extendedTextMessage" ;;
    if truthy extended then
      t <- sub message "extendedTextMessage" "text" ;;
      ret {| type := MessageType.text; text := or_else t (Str "");
             caption := Undefined; mediaUrl := Undefined; mimeType := Undefined;
             fileName := Undefined; location := None |}
    else
    imageMessage <- get message "imageMessage" ;;
    if truthy imageMessage then
      u <- sub message "imageMessage" "url" ;;
      m <- sub message "imageMessage" "mimetype" ;;
      c <- sub message "imageMessage" "caption" ;;
      ret {| type := MessageType.image; text := Undefined; caption := c;
             mediaUrl := u; mimeType := m; fileName := Undefined;
             location := None |}
    else
    audioMessage <- get message "audioMessage" ;;
    if truthy audioMessage then
      u <- sub message "audioMessage" "url" ;;
      m <- sub message "audioMessage" "mimetype" ;;
      ret {| type := MessageType.audio; text := Undefined; caption := Undefined;
             mediaUrl := u; mimeType := m; fileName := Undefined;
             location := None |}
    else
    videoMessage <- get message "videoMessage" ;;
    if truthy videoMessage then
      u <- sub message "videoMessage" "url" ;;
      m <- sub message "videoMessage" "mimetype" ;;
      c <- sub message "videoMessage" "caption" ;;
      ret {| type := MessageType.video; text := Undefined; caption := c;
             mediaUrl := u; mimeType := m; fileName := Undefined;
             location := None |}
    else
    documentMessage <- get message "documentMessage" ;;
    if truthy documentMessage then
      u <- sub message "documentMessage" "url" ;;
      m <- sub message "documentMessage" "mimetype" ;;
      f <- sub message "documentMessage" "fileName" ;;
      c <- sub message "documentMessage" "caption" ;;
      ret {| type := MessageType.document; text := Undefined; caption := c;
             mediaUrl := u; mimeType := m; fileName := f; location := None |}
    else
    locationMessage <- get message "locationMessage" ;;
    if truthy locationMessage then
      la <- sub message "locationMessage" "degreesLatitude" ;;
      lo <- sub message "locationMessage" "degreesLongitude" ;;
      n <- sub message "locationMessage" "name" ;;
      a <- sub message "locationMessage" "address" ;;
      ret {| type := MessageType.location; text := Undefined;
             caption := Undefined; mediaUrl := Undefined; mimeType := Undefined;
             fileName := Undefined;
             location := Some {| latitude := la; longitude := lo;
                                 location_name := n; address := a |} |}
    else
      t <- mapMessageType messageType ;;
      shown <- ToString messageType ;;
      ret {| type := t; text := Str ("Conteúdo do tipo: " ++ shown);
             caption := Undefined; mediaUrl := Undefined; mimeType := Undefined;
             fileName := Undefined; location := None |}.

(** The [try] block of [normalize]. *)
Definition extract (env : Env) (payload : value) : Completion NormalizationResult :=
  event <- get payload "event" ;;
  if negb (isMessageEvent event) then
    event <- get payload "event" ;;
    shown <- ToString event ;;
    ret (createError UNSUPPORTED_MESSAGE_TYPE
           ("Evento não suportado: " ++ shown
            ++ ". Apenas eventos de mensagem são processados.") NoDetails)
  else
    data <- get payload "data" ;;
    instance <- get payload "instance" ;;
    destination <- get payload "destination" ;;
    key <- get data "key" ;;
    pushName <- get data "pushName" ;;
    message <- get data "message" ;;
    messageType <- get data "messageType" ;;
    messageTimestamp <- get data "messageTimestamp" ;;
    remoteJid <- get key "remoteJid" ;;
    fromPhone <- normalizePhoneNumber remoteJid ;;
    toPhone <- normalizePhoneNumber (or_else destination (Str "")) ;;
    let id := generateId env in
    externalId <- get key "id" ;;
    ts <- normalizeTimestamp messageTimestamp ;;
    fromMe <- get key "fromMe" ;;
    let fromMe := truthy fromMe in
    content <- extractContent message messageType ;;
    event <- get payload "event" ;;
    serverUrl <- get payload "server_url" ;;
    dateTime <- get payload "date_time" ;;
    ret (createSuccess
           {| id := id;
              externalId := externalId;
              Types.provider := provider;
              instanceId := instance;
              timestamp := ts;
              direction := if fromMe then outbound else inbound;
              status := if fromMe then MessageStatus.sent
                        else MessageStatus.received;
              from := {| phoneNumber := if fromMe then toPhone else fromPhone;
                         name := if fromMe then Null else or_else pushName Null;
                         profilePicUrl := Undefined |};
              to := {| phoneNumber := if fromMe then fromPhone else toPhone;
                       name := if fromMe then or_else pushName Null else Null;
                       profilePicUrl := Undefined |};
              content := content;
              rawPayload := payload;
              metadata := [ ("event", event); ("serverUrl", serverUrl);
                            ("dateTime", dateTime) ] |}).

Definition normalize (env : Env) (payload : value) : Completion NormalizationResult :=
  h <- canHandle payload ;;
  if negb h then
    ret (createError INVALID_PAYLOAD
           "Payload não é um webhook válido da Evolution API" NoDetails)
  else
    v <- validate payload ;;
    if negb v then
      ret (createError MISSING_REQUIRED_FIELD
             "Payload da Evolution não contém campos obrigatórios (remoteJid, id, messageTimestamp)"
             NoDetails)
    else
      try_catch (extract env payload)
        (fun error =>
           ret (createError PARSE_ERROR
                  "Erro ao processar payload da Evolution API" (cause error))).

Definition adapter (env : Env) : WebhookAdapter.t :=
  {| WebhookAdapter.provider := provider;
     WebhookAdapter.canHandle := canHandle;
     WebhookAdapter.identify := BaseWebhookAdapter.identify provider canHandle;
     WebhookAdapter.normalize := normalize env;
     WebhookAdapter.validate := validate |}.

End EvolutionAdapter.

(* ================================================================== *)
(** * src/adapters/ZApiAdapter.ts *)
(* ================================================================== *)

Module ZApiAdapter.
Import Js Types BaseWebhookAdapter.
Local Open Scope js_scope.

Definition provider : WebhookProvider.t := WebhookProvider.z_api.

Definition isObject (v : value) : bool :=
  (typeof v =? "object")%string && negb (isNull v) && negb (isArray v).

(** [typeof p.<field> === ty] *)
Definition field_is (p : value) (field ty : string) : Completion bool :=
  x <- get p field ;; ret (typeof x =? ty)%string.

Definition canHandle (payload : value) : Completion bool :=
  if negb (isObject payload) then ret false
  else
    andM (field_is payload "instanceId" "string")
   (andM (field_is payload "messageId" "string")
   (andM (field_is payload "phone" "string")
         (field_is payload "momment" "number"))).

(** [p.<field>] as a condition *)
Definition field_truthy (p : value) (field : string) : Completion bool :=
  x <- get p field ;; ret (truthy x).

Definition validate (payload : value) : Completion bool :=
  h <- canHandle payload ;;
  if negb h then ret false
  else
    try_catch
      (andM (field_truthy payload "instanceId")
      (andM (field_truthy payload "messageId")
      (andM (field_truthy payload "phone")
            (field_truthy payload "momment"))))
      (fun _ => ret false).

Definition statusMap : list (string * MessageStatus.t) :=
  [ ("RECEIVED", MessageStatus.received); ("SENT", MessageStatus.sent);
    ("DELIVERED", MessageStatus.delivered); ("READ", MessageStatus.read);
    ("PLAYED", MessageStatus.read); ("FAILED", MessageStatus.failed);
    ("PENDING", MessageStatus.pending) ].

(** [zapiStatus?.toUpperCase()] *)
Definition upper_opt (zapiStatus : value) : Completion value :=
  if isNullish zapiStatus then ret Undefined
  else match zapiStatus with
       | Str s => ret (Str (toUpperCase s))
       | _ => Throw (ErrorInstance (NotAFunction zapiStatus "toUpperCase"))
       end.

Definition mapStatus (zapiStatus : value) (isOutbound : bool)
  : Completion MessageStatus.t :=
  if negb isOutbound then ret MessageStatus.received
  else
    key <- upper_opt zapiStatus ;;
    lookup_or statusMap MessageStatus.inherited MessageStatus.pending key.

Definition extractContent (p : value) : Completion NormalizedMessageContent :=
  t <- get p "text" ;;
  m <- get_opt t "message" ;;
  if truthy m then
    t <- get p "text" ;;
    m <- get t "message" ;;
    ret {| type := MessageType.text; text := m; caption := Undefined;
           mediaUrl := Undefined; mimeType := Undefined; fileName := Undefined;
           location := None |}
  else
  image <- get p "image" ;;
  if truthy image then
    u <- get image "imageUrl" ;;
    mt <- get image "mimeType" ;;
    c <- get image "caption" ;;
    ret {| type := MessageType.image; text := Undefined; caption := c;
           mediaUrl := u; mimeType := mt; fileName := Undefined;
           location := None |}
  else
  audio <- get p "audio" ;;
  if truthy audio then
    u <- get audio "audioUrl" ;;
    mt <- get audio "mimeType" ;;
    ret {| type := MessageType.audio; text := Undefined; caption := Undefined;
           mediaUrl := u; mimeType := mt; fileName := Undefined;
           location := None |}
  else
  video <- get p "video" ;;
  if truthy video then
    u <- get video "videoUrl" ;;
    mt <- get video "mimeType" ;;
    c <- get video "caption" ;;
    ret {| type := MessageType.video; text := Undefined; caption := c;
           mediaUrl := u; mimeType := mt; fileName := Undefined;
           location := None |}
  else
  document <- get p "document" ;;
  if truthy document then
    u <- get document "documentUrl" ;;
    mt <- get document "mimeType" ;;
    f <- get document "fileName" ;;
    c <- get document "caption" ;;
    ret {| type := MessageType.document; text := Undefined; caption := c;
           mediaUrl := u; mimeType := mt; fileName := f; location := None |}
  else
  loc <- get p "location" ;;
  if truthy loc then
    la <- get loc "latitude" ;;
    lo <- get loc "longitude" ;;
    n <- get loc "name" ;;
    a <- get loc "address" ;;
    ret {| type := MessageType.location; text := Undefined; caption := Undefined;
           mediaUrl := Undefined; mimeType := Undefined; fileName := Undefined;
           location := Some {| latitude := la; longitude := lo;
                               location_name := n; address := a |} |}
  else
    ty <- get p "type" ;;
    shown <- ToString ty ;;
    ret {| type := MessageType.unknown;
           text := Str ("Tipo de mensagem: " ++ shown);
           caption := Undefined; mediaUrl := Undefined; mimeType := Undefined;
           fileName := Undefined; location := None |}.

(** The [try] block of [normalize]. *)
Definition extract (env : Env) (payload : value) : Completion NormalizationResult :=
  fromMe <- get payload "fromMe" ;;
  let isOutbound := strictEq fromMe (Bool true) in
  phone <- get payload "phone" ;;
  contactPhone <- normalizePhoneNumber phone ;;
  let id := generateId env in
  externalId <- get payload "messageId" ;;
  instanceId <- get payload "instanceId" ;;
  momment <- get payload "momment" ;;
  st <- get payload "status" ;;
  status <- mapStatus st isOutbound ;;
  fromName <- (if isOutbound then ret Null
               else or_elseM (get payload "senderName")
                      (c <- get payload "chatName" ;; ret (or_else c Null))) ;;
  pic <- or_elseM (get payload "senderPhoto") (get payload "photo") ;;
  toName <- (if isOutbound
             then c <- get payload "chatName" ;; ret (or_else c Null)
             else ret Null) ;;
  content <- extractContent payload ;;
  ty <- get payload "type" ;;
  broadcast <- get payload "broadcast" ;;
  participantPhone <- get payload "participantPhone" ;;
  ret (createSuccess
         {| id := id;
            externalId := externalId;
            Types.provider := provider;
            instanceId := instanceId;
            timestamp := momment;
            direction := if isOutbound then outbound else inbound;
            status := status;
            from := {| phoneNumber := if isOutbound then "" else contactPhone;
                       name := fromName;
                       profilePicUrl := pic |};
            to := {| phoneNumber := if isOutbound then contactPhone else "";
                     name := toName;
                     profilePicUrl := Undefined |};
            content := content;
            rawPayload := payload;
            metadata := [ ("type", ty); ("broadcast", broadcast);
                          ("participantPhone", participantPhone) ] |}).

Definition normalize (env : Env) (payload : value) : Completion NormalizationResult :=
  h <- canHandle payload ;;
  if negb h then
    ret (createError INVALID_PAYLOAD
           "Payload não é um webhook válido da Z-API" NoDetails)
  else
    v <- validate payload ;;
    if negb v then
      ret (createError MISSING_REQUIRED_FIELD
             "Payload da Z-API não contém campos obrigatórios" NoDetails)
    else
      try_catch (extract env payload)
        (fun error =>
           ret (createError PARSE_ERROR "Erro ao processar payload da Z-API"
                  (cause error))).

Definition adapter (env : Env) : WebhookAdapter.t :=
  {| WebhookAdapter.provider := provider;
     WebhookAdapter.canHandle := canHandle;
     WebhookAdapter.identify := BaseWebhookAdapter.identify provider canHandle;
     WebhookAdapter.normalize := normalize env;
     WebhookAdapter.validate := validate |}.

End ZApiAdapter.

(* ================================================================== *)
(** * src/core/AdapterRegistry.ts *)
(* ================================================================== *)

Module AdapterRegistry.
Import Js Types.
Local Open Scope js_scope.

(** [Map<WebhookProvider, WebhookAdapter>]: entries in insertion order,
    one per key. *)
Definition t : Type := list (WebhookProvider.t * WebhookAdapter.t).

Definition has (r : t) (p : WebhookProvider.t) : bool :=
  existsb (fun e => WebhookProvider.eqb (fst e) p) r.

(** [Map.prototype.set]: an existing key keeps its place. *)
Fixpoint set (r : t) (p : WebhookProvider.t) (a : WebhookAdapter.t) : t :=
  match r with
  | [] => [(p, a)]
  | (q, b) :: rest =>
      if WebhookProvider.eqb q p then (q, a) :: rest else (q, b) :: set rest p a
  end.

(** [register]: replaces, after a console warning, an adapter already
    registered for the provider. *)
Definition register (r : t) (adapter : WebhookAdapter.t) : t :=
  set r (WebhookAdapter.provider adapter) adapter.

Definition unregister (r : t) (p : WebhookProvider.t) : bool * t :=
  (has r p, filter (fun e => negb (WebhookProvider.eqb (fst e) p)) r).

Definition getAdapter (r : t) (p : WebhookProvider.t) : option WebhookAdapter.t :=
  match find (fun e => WebhookProvider.eqb (fst e) p) r with
  | Some e => Some (snd e)
  | None => None
  end.

Definition getRegisteredProviders (r : t) : list WebhookProvider.t := map fst r.

Definition registerDefaultAdapters (env : Env) (r : t) : t :=
  let r := register r (MetaAdapter.adapter env) in
  let r := register r (EvolutionAdapter.adapter env) in
  register r (ZApiAdapter.adapter env).

(** The registry the constructor (and [reset]) builds. *)
Definition reset (env : Env) : t := registerDefaultAdapters env [].

Fixpoint findAdapter (r : t) (payload : value) : Completion (option WebhookAdapter.t) :=
  match r with
  | [] => ret None
  | (_, adapter) :: rest =>
      h <- WebhookAdapter.canHandle adapter payload ;;
      if h then ret (Some adapter) else findAdapter rest payload
  end.

Definition identifyProvider (r : t) (payload : value)
  : Completion ProviderIdentification :=
  found <- findAdapter r payload ;;
  ret (match found with
       | Some adapter =>
           {| identified := WebhookAdapter.provider adapter; confidence := 1 |}
       | None => {| identified := WebhookProvider.unknown; confidence := 0 |}
       end).

Definition getPayloadKeys (payload : value) : list string :=
  if (typeof payload =? "object")%string && negb (isNull payload)
  then Object_keys payload else [].

Definition failure (code : ErrorCode) (message : string) (details : Details)
  : NormalizationResult :=
  {| success := false;
     Types.message := None;
     error := Some {| Types.code := code; error_message := message;
                      Types.details := details |} |}.

Definition normalize (r : t) (payload : value) : Completion NormalizationResult :=
  if isNull payload || isUndefined payload then
    ret (failure INVALID_PAYLOAD "Payload não pode ser null ou undefined" NoDetails)
  else
    found <- findAdapter r payload ;;
    match found with
    | None =>
        ret (failure UNKNOWN_PROVIDER
               "Nenhum adapter registrado pode processar este payload"
               (UnknownProviderDetails (getRegisteredProviders r)
                  (typeof payload) (getPayloadKeys payload)))
    | Some adapter =>
        try_catch (WebhookAdapter.normalize adapter payload)
          (fun error =>
             ret (failure PROCESSING_ERROR
                    ("Erro ao processar payload com adapter "
                     ++ WebhookProvider.name (WebhookAdapter.provider adapter))
                    (BaseWebhookAdapter.cause error)))
    end.

(** A double quote, for the message of [normalizeWithProvider]. *)
Definition quote : string := String (ascii_of_N 34) EmptyString.

(** [normalizeWithProvider]: the named adapter's [normalize], called
    outside any [try]; the details of the failure are the object
    [{ registeredProviders }]. *)
Definition normalizeWithProvider (r : t) (payload : value)
    (provider : WebhookProvider.t) : Completion NormalizationResult :=
  match getAdapter r provider with
  | None =>
      ret (failure UNKNOWN_PROVIDER
             ("Provider " ++ quote ++ WebhookProvider.name provider ++ quote
              ++ " não está registrado")
             (Value (Obj [ ("registeredProviders",
                            Arr (map (fun p => Str (WebhookProvider.name p))
                                   (getRegisteredProviders r))) ])))
  | Some adapter => WebhookAdapter.normalize adapter payload
  end.

End AdapterRegistry.

(* ================================================================== *)
(** * src/utils/helpers.ts *)
(* ================================================================== *)

Module helpers.
Import Js.

Definition normalizePhoneNumber (phone : string) : string :=
  if (phone =? "")%string then ""
  else
    let normalized := strip_whatsapp_suffix phone in
    let normalized := keep_digits normalized in
    if (code_units normalized =? 11) && startsWith normalized "11"
    then "55" ++ normalized
    else normalized.

(** The wrappers over the registry singleton; [registry] is the
    singleton's table at the time of the call. *)
Definition normalizeWebhook (registry : AdapterRegistry.t) (payload : value)
  : Completion Types.NormalizationResult :=
  AdapterRegistry.normalize registry payload.

Definition identifyProvider (registry : AdapterRegistry.t) (payload : value)
  : Completion Types.ProviderIdentification :=
  AdapterRegistry.identifyProvider registry payload.

Definition isValidWebhookPayload (registry : AdapterRegistry.t) (payload : value)
  : Completion bool :=
  bind (AdapterRegistry.findAdapter registry payload)
    (fun adapter => ret (match adapter with Some _ => true | None => false end)).

Definition isObject (v : value) : bool :=
  (typeof v =? "object")%string && negb (isNull v) && negb (isArray v).

(** [truncateText] indexes its text by UTF-16 code unit, so the text is
    the list of its code units here (32 is the space, 46 the dot). *)
Definition units : Type := list Z.

(** [s.substring(0, n)]: a negative [n] counts as 0, one past the end as
    the length. *)
Definition substring0 (s : units) (n : Z) : units := firstn (Z.to_nat n) s.

(** [s.lastIndexOf(c)] for a single code unit: the last index holding
    [c], or -1. *)
Fixpoint lastIndexOf_from (c : Z) (s : units) (i found : Z) : Z :=
  match s with
  | [] => found
  | x :: rest => lastIndexOf_from c rest (i + 1) (if x =? c then i else found)
  end.

Definition lastIndexOf (s : units) (c : Z) : Z := lastIndexOf_from c s 0 (-1).

Definition ellipsis : units := [46; 46; 46].

Definition truncateText (text : units) (maxLength : Z) : units :=
  match text with
  | [] => text
  | _ :: _ =>
      if Z.of_nat (List.length text) <=? maxLength then text
      else
        let truncated := substring0 text maxLength in
        let lastSpace := lastIndexOf truncated 32 in
        ((if 0 <? lastSpace then substring0 truncated lastSpace else truncated)
         ++ ellipsis)%list
  end.

End helpers.

(* ================================================================== *)
(** * src/services/MessageService.ts *)
(* ================================================================== *)

Module MessageService.
Import Js Types.
Local Open Scope js_scope.

(** The two statements the service sends, named for their SQL text:
    the insert into [messages] of [saveMessage] and the insert into
    [contacts] of [upsertContact]. *)
Inductive Statement : Type :=
| INSERT_MESSAGE
| UPSERT_CONTACT.

(** A query parameter.  [PDate v] is [new Date(v)], [PJson v] is
    [JSON.stringify(v)], [PJsonLocation l] is [JSON.stringify] of a
    location record: the database driver's inputs, kept as built. *)
Inductive Param : Type :=
| PString (s : string)
| PValue (v : value)
| PProvider (p : WebhookProvider.t)
| PDirection (d : MessageDirection)
| PStatus (s : MessageStatus.t)
| PType (t : MessageType.t)
| PDate (v : value)
| PJson (v : value)
| PJsonLocation (l : Location)
| PNull.

Record Query : Type := {
  sql : Statement;
  params : list Param
}.

(** [DatabaseClient.query], as far as the service observes it: the
    query resolves or rejects. *)
Definition DatabaseClient : Type := Query -> Completion unit.

(** An asynchronous computation over the database: the queries it sent,
    in order, and how it settled (a rejection is a [Throw]). *)
Definition Io (A : Type) : Type := (list Query * Completion A)%type.

Definition io_ret {A} (a : A) : Io A := ([], Normal a).

Definition io_lift {A} (c : Completion A) : Io A := ([], c).

Definition io_bind {A B} (c : Io A) (k : A -> Io B) : Io B :=
  match snd c with
  | Normal a => ((fst c ++ fst (k a))%list, snd (k a))
  | Throw e => (fst c, Throw e)
  end.

Definition io_try_catch {A} (body : Io A) (handler : Thrown -> Io A) : Io A :=
  match snd body with
  | Normal a => (fst body, Normal a)
  | Throw e => ((fst body ++ fst (handler e))%list, snd (handler e))
  end.

(** [await this.db.query(sql, params)] *)
Definition query (db : DatabaseClient) (q : Query) : Io unit := ([q], db q).

(** [new Date(v)] converts an object or array to a primitive first, and
    throws where that conversion does. *)
Definition new_Date (v : value) : Completion Param :=
  _ <- ToNumber v ;; ret (PDate v).

Definition upsertContact (db : DatabaseClient) (message : NormalizedMessage)
  : Io unit :=
  let contact :=
    match direction message with
    | inbound => from message
    | outbound => to message
    end in
  if (phoneNumber contact =? "")%string then io_ret tt
  else
    query db {| sql := UPSERT_CONTACT;
                params := [ PString (phoneNumber contact);
                            PValue (name contact);
                            PValue (profilePicUrl contact) ] |}.

(** The parameter list of the insert; building it evaluates
    [new Date(message.timestamp)]. *)
Definition insertParams (message : NormalizedMessage) : Completion (list Param) :=
  date <- new_Date (timestamp message) ;;
  ret [ PString (id message);
        PValue (externalId message);
        PProvider (provider message);
        PValue (instanceId message);
        date;
        PDirection (direction message);
        PStatus (status message);
        PString (phoneNumber (from message));
        PValue (name (from message));
        PValue (profilePicUrl (from message));
        PString (phoneNumber (to message));
        PValue (name (to message));
        PType (type (content message));
        PValue (text (content message));
        PValue (caption (content message));
        PValue (mediaUrl (content message));
        PValue (mimeType (content message));
        PValue (fileName (content message));
        match location (content message) with
        | Some l => PJsonLocation l
        | None => PNull
        end;
        PJson (rawPayload message);
        PJson (Obj (metadata message)) ].

(** [saveMessage]: the [catch] logs and rethrows. *)
Definition saveMessage (db : DatabaseClient) (message : NormalizedMessage)
  : Io string :=
  io_try_catch
    (io_bind (io_lift (insertParams message)) (fun ps =>
     io_bind (query db {| sql := INSERT_MESSAGE; params := ps |}) (fun _ =>
     io_bind (upsertContact db message) (fun _ =>
     io_ret (id message)))))
    (fun error => io_lift (Throw error)).

End MessageService.

(* ================================================================== *)
(** * src/handlers/WebhookHandler.ts *)
(* ================================================================== *)

Module WebhookHandler.
Import Js Types MessageService.
Local Open Scope js_scope.

Record RequestContext : Type := {
  headers : list (string * string);
  queryParams : list (string * string);
  body : value;
  timestamp : number
}.

(** [error?: string]: a text of the handler's own, the message of a
    normalization error, or the message of a caught [Error]. *)
Inductive ErrorText : Type :=
| Text (s : string)
| MessageOf (m : ErrorMessage).

Record WebhookResponse : Type := {
  success : bool;
  messageId : option string;
  error : option ErrorText;
  provider : option WebhookProvider.t
}.

(** What is passed to [console.log] is not kept; evaluating it may
    throw.  [new Date(t).toISOString()] throws a [RangeError] outside the
    range of dates; [JSON.stringify(body).length] throws when [body] is
    [undefined], for which [JSON.stringify] returns [undefined]. *)
Definition time_limit : Z := 8640000000000000.

Definition is_time (t : number) : bool :=
  match t with
  | NaN => false
  | Infinity _ => false
  | _ => negb (ltb t (Num (- time_limit))) && negb (ltb (Num time_limit) t)
  end.

Definition toISOString (t : number) : Completion unit :=
  if is_time t then ret tt
  else Throw (ErrorInstance (Message "Invalid time value")).

Definition stringify_length (v : value) : Completion unit :=
  if isUndefined v then Throw (ErrorInstance (CannotReadProperty Undefined "length"))
  else ret tt.

(** [message.content.text?.substring(0, 50)] *)
Definition preview (text : value) : Completion unit :=
  if isNullish text then ret tt
  else match text with
       | Str _ => ret tt
       | _ => Throw (ErrorInstance (NotAFunction text "substring"))
       end.

Definition processMessage (db : DatabaseClient) (message : NormalizedMessage)
  : Io unit :=
  io_bind (io_lift (preview (Types.text (content message)))) (fun _ =>
  io_bind (saveMessage db message) (fun _ =>
  io_ret tt)).

(** [error instanceof Error ? error.message : 'Erro interno'] *)
Definition caught (e : Thrown) : ErrorText :=
  match e with
  | ErrorInstance m => MessageOf m
  | ThrownValue _ => Text "Erro interno"
  end.

(** [handleWebhook]; [registry] is the singleton's table and [db] the
    service's database client. *)
Definition handleWebhook (registry : AdapterRegistry.t) (db : DatabaseClient)
    (context : RequestContext) : Io WebhookResponse :=
  let body := body context in
  io_bind (io_lift (toISOString (timestamp context))) (fun _ =>
  io_bind (io_lift (stringify_length body)) (fun _ =>
  if negb (truthy body) then
    io_ret {| success := false; messageId := None;
              error := Some (Text "Payload vazio ou inválido");
              provider := None |}
  else
    io_try_catch
      (io_bind (io_lift (AdapterRegistry.normalize registry body)) (fun result =>
       match Types.success result, Types.message result with
       | true, Some message =>
           io_bind (processMessage db message) (fun _ =>
           io_ret {| success := true; messageId := Some (id message);
                     error := None;
                     provider := Some (Types.provider message) |})
       | _, _ =>
           let text :=
             match Types.error result with
             | Some e =>
                 if (error_message e =? "")%string
                 then "Erro desconhecido na normalização"
                 else error_message e
             | None => "Erro desconhecido na normalização"
             end in
           io_bind (io_lift (AdapterRegistry.identifyProvider registry body))
             (fun identification =>
           io_ret {| success := false; messageId := None;
                     error := Some (Text text);
                     provider := Some (identified identification) |})
       end))
      (fun error =>
         io_ret {| success := false; messageId := None;
                   error := Some (caught error); provider := None |}))).

End WebhookHandler.

(* ================================================================== *)
(** * Example payloads (tests/adapters.test.ts and the specification) *)
(* ================================================================== *)

Module Examples.
Import Js Types.

Definition env0 : Env := {| Date_now := 1700000000000; Math_random_36 := "0.4fzyo82mvyr" |}.

(** The Meta example of the specification: its only entry, and the
    payload. *)
Definition metaExampleEntry : value :=
  Obj [ ("changes", Arr [ Obj [ ("value", Obj [
     ("metadata", Obj [ ("display_phone_number", Str "5511999999999");
                        ("phone_number_id", Str "PHONE_NUMBER_ID") ]);
     ("contacts", Arr [ Obj [ ("profile", Obj [ ("name", Str "João Silva") ]);
                              ("wa_id", Str "5511988888888") ] ]);
     ("messages", Arr [ Obj [ ("from", Str "5511988888888");
                              ("id", Str "wamid.ABC");
                              ("timestamp", Str "1677234567");
                              ("type", Str "text");
                              ("text", Obj [ ("body", Str "Olá") ]) ] ])
   ]) ] ]) ].

Definition metaExample : value :=
  Obj [ ("object", Str "whatsapp_business_account");
        ("entry", Arr [ metaExampleEntry ]) ].

(** The same delivery followed by a second entry. *)
Definition metaTwoEntries : value :=
  Obj [ ("object", Str "whatsapp_business_account");
        ("entry", Arr [ metaExampleEntry;
                        Obj [ ("id", Str "SECOND_ACCOUNT") ] ]) ].

(** [metaPayload], [evolutionPayload] and [zapiPayload] of the tests. *)
Definition metaPayload : value :=
  Obj [ ("object", Str "whatsapp_business_account");
        ("entry", Arr [ Obj [
           ("id", Str "WHATSAPP_BUSINESS_ACCOUNT_ID");
           ("changes", Arr [ Obj [
              ("value", Obj [
                 ("messaging_product", Str "whatsapp");
                 ("metadata", Obj [ ("display_phone_number", Str "5511999999999");
                                    ("phone_number_id", Str "PHONE_NUMBER_ID") ]);
                 ("contacts", Arr [ Obj [ ("profile", Obj [ ("name", Str "João Silva") ]);
                                          ("wa_id", Str "5511988888888") ] ]);
                 ("messages", Arr [ Obj [
                    ("from", Str "5511988888888");
                    ("id", Str "wamid.HBgNNTUxMTk5OTk5OTk5ORUCABIYFjNFQjBCNkU3");
                    ("timestamp", Str "1677234567");
                    ("type", Str "text");
                    ("text", Obj [ ("body", Str "Olá, gostaria de saber mais sobre o produto") ]) ] ]) ]);
              ("field", Str "messages") ] ]) ] ]) ].

Definition evolutionPayload : value :=
  Obj [ ("event", Str "messages.upsert");
        ("instance", Str "minha-instancia");
        ("data", Obj [
           ("key", Obj [ ("remoteJid", Str "5511988888888@s.whatsapp.net");
                         ("fromMe", Bool false);
                         ("id", Str "3EB0B430B6F8C1D073A0") ]);
           ("pushName", Str "João Silva");
           ("message", Obj [ ("conversation", Str "Olá, gostaria de saber mais sobre o produto") ]);
           ("messageType", Str "conversation");
           ("messageTimestamp", Number (Num 1677234567)) ]);
        ("destination", Str "5511999999999@s.whatsapp.net");
        ("date_time", Str "2024-01-15T10:30:00.000Z");
        ("sender", Str "5511988888888@s.whatsapp.net");
        ("server_url", Str "https://sua-evolution-api.com");
        ("apikey", Str "sua-api-key") ].

Definition zapiPayload : value :=
  Obj [ ("instanceId", Str "SUA_INSTANCE_ID");
        ("messageId", Str "3EB0B430B6F8C1D073A0");
        ("phone", Str "5511988888888");
        ("fromMe", Bool false);
        ("momment", Number (Num 1677234567000));
        ("status", Str "RECEIVED");
        ("chatName", Str "João Silva");
        ("senderPhoto", Str "https://pps.whatsapp.net/...");
        ("senderName", Str "João Silva");
        ("participantPhone", Null);
        ("photo", Str "https://pps.whatsapp.net/...");
        ("broadcast", Bool false);
        ("type", Str "ReceivedCallback");
        ("text", Obj [ ("message", Str "Olá, gostaria de saber mais sobre o produto") ]) ].

(** The Meta-shaped payload of the tests that has neither [messages]
    nor [statuses]. *)
Definition metaWithoutRecords : value :=
  Obj [ ("object", Str "whatsapp_business_account");
        ("entry", Arr [ Obj [
           ("id", Str "WHATSAPP_BUSINESS_ACCOUNT_ID");
           ("changes", Arr [ Obj [
              ("value", Obj [
                 ("messaging_product", Str "whatsapp");
                 ("metadata", Obj [ ("display_phone_number", Str "123");
                                    ("phone_number_id", Str "abc") ]) ]);
              ("field", Str "messages") ] ]) ] ]) ].

(** A Meta delivery with a message and no [metadata]. *)
Definition metaWithoutMetadata : value :=
  Obj [ ("object", Str "whatsapp_business_account");
        ("entry", Arr [ Obj [ ("changes", Arr [ Obj [ ("value", Obj [
            ("messages", Arr [ Obj [ ("from", Str "5511988888888");
                                     ("id", Str "wamid.ABC");
                                     ("timestamp", Str "1677234567");
                                     ("type", Str "text");
                                     ("text", Obj [ ("body", Str "Olá") ]) ] ])
          ]) ] ]) ] ]) ].

(** A Meta delivery whose only message carries neither [id] nor
    [timestamp]. *)
Definition metaBareMessage : value :=
  Obj [ ("object", Str "whatsapp_business_account");
        ("entry", Arr [ Obj [ ("changes", Arr [ Obj [ ("value", Obj [
            ("metadata", Obj [ ("display_phone_number", Str "5511999999999");
                               ("phone_number_id", Str "PHONE_NUMBER_ID") ]);
            ("messages", Arr [ Obj [ ("from", Str "5511988888888");
                                     ("type", Str "text");
                                     ("text", Obj [ ("body", Str "Olá") ]) ] ])
          ]) ] ]) ] ]) ].

(** An Evolution delivery with [messageTimestamp: 0]. *)
Definition evolutionZeroTimestamp : value :=
  Obj [ ("event", Str "messages.upsert");
        ("instance", Str "minha-instancia");
        ("data", Obj [
           ("key", Obj [ ("remoteJid", Str "5511988888888@s.whatsapp.net");
                         ("fromMe", Bool false);
                         ("id", Str "3EB0B430B6F8C1D073A0") ]);
           ("messageType", Str "conversation");
           ("messageTimestamp", Number (Num 0)) ]) ].

(** A Z-API delivery with a negative [momment]. *)
Definition zapiNegativeMomment : value :=
  Obj [ ("instanceId", Str "SUA_INSTANCE_ID");
        ("messageId", Str "3EB0B430B6F8C1D073A0");
        ("phone", Str "5511988888888");
        ("fromMe", Bool false);
        ("momment", Number (Num (-1))) ].



(** An Evolution delivery whose [remoteJid] is a number, and an outbound
    Z-API delivery whose [status] is a number: both pass the two guards. *)
Definition evolutionNumericJid : value :=
  Obj [ ("event", Str "messages.upsert");
        ("instance", Str "minha-instancia");
        ("data", Obj [
           ("key", Obj [ ("remoteJid", Number (Num 5511988888888));
                         ("fromMe", Bool false);
                         ("id", Str "3EB0B430B6F8C1D073A0") ]);
           ("messageType", Str "conversation");
           ("messageTimestamp", Number (Num 1677234567)) ]) ].

Definition zapiNumericStatus : value :=
  Obj [ ("instanceId", Str "SUA_INSTANCE_ID");
        ("messageId", Str "3EB0B430B6F8C1D073A0");
        ("phone", Str "5511988888888");
        ("fromMe", Bool true);
        ("momment", Number (Num 1677234567000));
        ("status", Number (Num 5)) ].

(** A Meta delivery of a sticker, and a status update for a message
    that was delivered. *)
Definition metaSticker : value :=
  Obj [ ("object", Str "whatsapp_business_account");
        ("entry", Arr [ Obj [ ("changes", Arr [ Obj [ ("value", Obj [
            ("metadata", Obj [ ("display_phone_number", Str "5511999999999");
                               ("phone_number_id", Str "PHONE_NUMBER_ID") ]);
            ("messages", Arr [ Obj [ ("from", Str "5511988888888");
                                     ("id", Str "wamid.ABC");
                                     ("timestamp", Str "1677234567");
                                     ("type", Str "sticker");
                                     ("sticker", Obj [ ("id", Str "MEDIA_ID") ]) ] ])
          ]) ] ]) ] ]) ].

Definition metaDelivered : value :=
  Obj [ ("object", Str "whatsapp_business_account");
        ("entry", Arr [ Obj [ ("changes", Arr [ Obj [ ("value", Obj [
            ("metadata", Obj [ ("display_phone_number", Str "5511999999999");
                               ("phone_number_id", Str "PHONE_NUMBER_ID") ]);
            ("statuses", Arr [ Obj [ ("id", Str "wamid.ABC");
                                     ("status", Str "delivered");
                                     ("timestamp", Str "1677234567");
                                     ("recipient_id", Str "5511988888888") ] ])
          ]) ] ]) ] ]) ].

(** Two custom adapters, registered the way the tests register theirs.
    The first detects with [p.custom.enabled === true], which throws on
    a payload without [custom]; the second detects with
    [p?.custom === true] (as the adapter of the tests does) and has a
    [normalize] that throws. *)
Definition unsupported : NormalizationResult :=
  {| success := false; message := None;
     error := Some {| code := UNSUPPORTED_MESSAGE_TYPE;
                      error_message := "custom"; details := NoDetails |} |}.

Definition carelessDetector : WebhookAdapter.t :=
  let canHandle := fun p =>
    (c <- get p "custom" ;; e <- get c "enabled" ;; ret (strictEq e (Bool true)))%js in
  {| WebhookAdapter.provider := WebhookProvider.other "careless";
     WebhookAdapter.canHandle := canHandle;
     WebhookAdapter.identify :=
       BaseWebhookAdapter.identify (WebhookProvider.other "careless") canHandle;
     WebhookAdapter.normalize := fun _ => ret unsupported;
     WebhookAdapter.validate := fun _ => ret true |}.

Definition faultyNormalizer : WebhookAdapter.t :=
  let canHandle := fun p =>
    (c <- get_opt p "custom" ;; ret (strictEq c (Bool true)))%js in
  {| WebhookAdapter.provider := WebhookProvider.other "custom";
     WebhookAdapter.canHandle := canHandle;
     WebhookAdapter.identify :=
       BaseWebhookAdapter.identify (WebhookProvider.other "custom") canHandle;
     WebhookAdapter.normalize :=
       fun _ => Throw (ErrorInstance (Message "not implemented"));
     WebhookAdapter.validate := fun _ => ret true |}.

End Examples.

(* ================================================================== *)
(** * Vocabulary of the specification *)
(* ================================================================== *)

Module Spec.
Import Js Types.

(** [c] is a success result carrying message [m]. *)
Definition succeeds (c : Completion NormalizationResult) (m : NormalizedMessage) : Prop :=
  exists r, c = Normal r /\ success r = true /\ message r = Some m.

(** [c] is a failure result with the given error code. *)
Definition fails_with (c : Completion NormalizationResult) (k : ErrorCode) : Prop :=
  exists r e, c = Normal r /\ success r = false /\ message r = None /\
              error r = Some e /\ code e = k.

Definition non_empty_string (v : value) : Prop :=
  exists s, v = Str s /\ s <> "".

Definition positive (v : value) : Prop :=
  exists n, v = Number n /\ ltb (Num 0) n = true.


(** The invariant of section 3, as the specification words it. *)
Definition invariant (m : NormalizedMessage) : Prop :=
  id m <> "" /\
  non_empty_string (externalId m) /\
  provider m <> WebhookProvider.unknown /\
  positive (timestamp m) /\
  (direction m = inbound \/ direction m = outbound).

(** A failure result with the given code and diagnostic details. *)
Definition is_failure (r : NormalizationResult) (k : ErrorCode) (d : Details) : Prop :=
  success r = false /\ message r = None /\
  exists e, error r = Some e /\ code e = k /\ details e = d.


(** All that [c] can throw is an [Error] instance. *)
Definition throws_errors_only {A} (c : Completion A) : Prop :=
  forall e, c = Throw e -> exists message, e = ErrorInstance message.

(** The staged error contract of [normalize] (section 4.1), for an
    adapter given by its three stages: the two guards, and past them
    whatever field extraction throws, which is always an [Error], is
    answered with [PARSE_ERROR] and the message of that error as
    details. *)
Definition staged (canHandle validate : value -> Completion bool)
    (extract normalize : value -> Completion NormalizationResult)
    (payload : value) : Prop :=
  exists r,
    normalize payload = Normal r /\
    (canHandle payload = Normal false -> is_failure r INVALID_PAYLOAD NoDetails) /\
    (canHandle payload = Normal true -> validate payload = Normal false ->
       is_failure r MISSING_REQUIRED_FIELD NoDetails) /\
    (canHandle payload = Normal true -> validate payload = Normal true ->
       forall e, extract payload = Throw e ->
         exists message,
           e = ErrorInstance message /\
           is_failure r PARSE_ERROR (ErrorMessageOf message)).

(** The structural markers of section 4.1. *)
Definition meta_markers (payload : value) : Prop :=
  exists fields first rest,
    payload = Obj fields /\
    lookup "object" fields = Some (Str "whatsapp_business_account") /\
    lookup "entry" fields = Some (Arr (first :: rest)).

Definition evolution_markers (payload : value) : Prop :=
  exists fields event instance data key,
    payload = Obj fields /\
    lookup "event" fields = Some (Str event) /\
    lookup "instance" fields = Some (Str instance) /\
    lookup "data" fields = Some (Obj data) /\
    lookup "key" data = Some (Obj key).

Definition zapi_markers (payload : value) : Prop :=
  exists fields instanceId messageId phone momment,
    payload = Obj fields /\
    lookup "instanceId" fields = Some (Str instanceId) /\
    lookup "messageId" fields = Some (Str messageId) /\
    lookup "phone" fields = Some (Str phone) /\
    lookup "momment" fields = Some (Number momment).

(** [entry[0].changes[0].value] of a Meta payload and the first element
    of one of its lists. *)
Definition meta_value (payload : value) : value :=
  member (element (member (element (member payload "entry") 0) "changes") 0) "value".

Definition meta_first (payload : value) (list : string) : value :=
  element (member (meta_value payload) list) 0.

(** Dropping what follows the first element of a Meta delivery's lists.
    [on_field k f] applies [f] to the property [k] of an object,
    [first_only f] keeps the first element of an array, transformed by
    [f]; both leave a value of another shape as it is. *)
Fixpoint update_field (k : string) (f : value -> value)
    (fields : list (string * value)) : list (string * value) :=
  match fields with
  | [] => []
  | (k', v) :: rest =>
      if (k' =? k)%string then (k', f v) :: rest
      else (k', v) :: update_field k f rest
  end.

Definition on_field (k : string) (f : value -> value) (v : value) : value :=
  match v with
  | Obj fields => Obj (update_field k f fields)
  | _ => v
  end.

Definition first_only (f : value -> value) (v : value) : value :=
  match v with
  | Arr (x :: _) => Arr [f x]
  | _ => v
  end.

Definition keep (v : value) : value := v.

(** A value: its first message and first status only.  A change: the
    same within its value.  An entry: its first change only.  A payload:
    its first entry only. *)
Definition first_records (value : Js.value) : Js.value :=
  on_field "messages" (first_only keep)
    (on_field "statuses" (first_only keep) value).

Definition first_change : value -> value := on_field "value" first_records.

Definition first_entry : value -> value :=
  on_field "changes" (first_only first_change).

Definition head_of_delivery (payload : value) : value :=
  on_field "entry" (first_only first_entry) payload.

(** What [first_only f] does to the element read at index 0. *)
Definition at_head (f : value -> value) (a x : value) : value :=
  if isArray a then f x else x.

(** Values without parts, and the transformations that leave them as
    they are. *)
Definition primitive (v : value) : Prop :=
  match v with
  | Obj _ => False
  | Arr _ => False
  | _ => True
  end.

Definition shape_preserving (f : value -> value) : Prop :=
  forall x, primitive x -> f x = x.

(** A result with the copy of the payload taken out of its message. *)
Definition without_raw (r : NormalizationResult) : NormalizationResult :=
  {| success := success r;
     message :=
       match message r with
       | Some m =>
           Some {| id := id m; externalId := externalId m;
                   provider := provider m; instanceId := instanceId m;
                   timestamp := timestamp m; direction := direction m;
                   status := status m; from := from m; to := to m;
                   content := content m; rawPayload := Undefined;
                   metadata := metadata m |}
       | None => None
       end;
     error := error r |}.

End Spec.

(* ================================================================== *)
(** * Invariants and reference functions *)
(* ================================================================== *)

Module Facts.
Import Js Types.

(** The registry's table is well filed: one entry per provider name, and
    every adapter under the name of its own provider. *)
Definition filed (r : AdapterRegistry.t) : Prop :=
  NoDup (map (fun e => WebhookProvider.name (fst e)) r) /\
  Forall (fun e => WebhookProvider.eqb (fst e)
                     (WebhookAdapter.provider (snd e)) = true) r.

(** The content kinds the Meta adapter produces. *)
Definition meta_kind (t : MessageType.t) : Prop :=
  match t with
  | MessageType.text | MessageType.image | MessageType.audio
  | MessageType.video | MessageType.document | MessageType.location
  | MessageType.unknown => True
  | _ => False
  end.

(** A status of the declared enumeration. *)
Definition declared_status (s : MessageStatus.t) : Prop :=
  match s with
  | MessageStatus.inherited _ => False
  | _ => True
  end.

(** Every character is a digit, or a digit or a plus sign. *)
Definition digits (s : string) : Prop := string_forall is_digit s = true.

Definition digits_or_plus (s : string) : Prop :=
  string_forall (fun c => is_digit c || Ascii.eqb c "+"%char) s = true.

Definition without_plus (s : string) : Prop :=
  string_forall (fun c => negb (Ascii.eqb c "+"%char)) s = true.

(** [a] is [b] with something after it. *)
Definition prefix_of {A} (a b : list A) : Prop := exists rest, b = (a ++ rest)%list.

(** The optional fields of a content belong to its kind: location data
    to a location, a file name to a document, a caption to an image, a
    video or a document, a media URL and a MIME type to the four media
    kinds. *)
Definition fields_fit (c : NormalizedMessageContent) : Prop :=
  (location c <> None -> type c = MessageType.location) /\
  (fileName c <> Undefined -> type c = MessageType.document) /\
  (caption c <> Undefined ->
   In (type c) [MessageType.image; MessageType.video; MessageType.document]) /\
  (mediaUrl c <> Undefined \/ mimeType c <> Undefined ->
   In (type c) [MessageType.image; MessageType.audio; MessageType.video;
                MessageType.document]).

(** What [upsertContact] sends for a message whose contact has the
    given number: nothing when the number is empty, one upsert keyed by
    the number otherwise. *)
Definition upserts (db : MessageService.DatabaseClient) (m : NormalizedMessage)
    (number : string) : Prop :=
  exists name picture,
    fst (MessageService.upsertContact db m)
    = if (number =? "")%string then []
      else [ {| MessageService.sql := MessageService.UPSERT_CONTACT;
                MessageService.params :=
                  [ MessageService.PString number;
                    MessageService.PValue name;
                    MessageService.PValue picture ] |} ].

End Facts.

(* ================================================================== *)
(** * Properties *)
(* ================================================================== *)

Import Js Types.
Local Open Scope js_scope.

(** ** Numbers *)





Lemma truthy_number (n : number) :
  truthy (Number n) = true <-> n <> NaN /\ n <> Num 0 /\ n <> NegZero.
Proof.
  destruct n as [|z| |neg|m k]; simpl.
  - split; [discriminate | intros (H & _); contradiction].
  - destruct (Z.eqb_spec z 0) as [-> | Hz]; simpl.
    + split; [discriminate | intros (_ & H & _); contradiction].
    + split; [ | reflexivity]. intros _.
      repeat split; try discriminate. intros E. injection E as ->. contradiction.
  - split; [discriminate | intros (_ & _ & H); contradiction].
  - split; [ | reflexivity]. intros _. repeat split; discriminate.
  - split; [ | reflexivity]. intros _. repeat split; discriminate.
Qed.








(** ** Reading the example payloads *)

(** C5: on the Meta example payload of the specification, the Meta
    adapter's [normalize] returns a success, a result with [success]
    true, a message and no error, whose message has provider [meta],
    direction [inbound], a [text] content with text "Olá", the sender's
    phone number 5511988888888 and timestamp 1677234567000. *)
Theorem meta_example_normalized (env : Env) :
  exists r m,
    MetaAdapter.normalize env Examples.metaExample = Normal r /\
    success r = true /\
    message r = Some m /\
    error r = None /\
    provider m = WebhookProvider.meta /\
    direction m = inbound /\
    type (content m) = MessageType.text /\
    text (content m) = Str "Olá" /\
    phoneNumber (from m) = "5511988888888" /\
    timestamp m = Number (Num 1677234567000).
Proof.
  do 2 eexists. split.
  - cbv -[BaseWebhookAdapter.generateId]. reflexivity.
  - cbv. repeat split; reflexivity.
Qed.

(** C7: detection is mutually exclusive on the canonical example
    payloads: on each adapter's example payload (those of the tests and
    the Meta example of the specification) the other two adapters'
    [canHandle] returns [false], and its own returns [true]. *)
Theorem canHandle_exclusive_on_examples :
  (MetaAdapter.canHandle Examples.metaPayload = Normal true /\
   EvolutionAdapter.canHandle Examples.metaPayload = Normal false /\
   ZApiAdapter.canHandle Examples.metaPayload = Normal false) /\
  (MetaAdapter.canHandle Examples.metaExample = Normal true /\
   EvolutionAdapter.canHandle Examples.metaExample = Normal false /\
   ZApiAdapter.canHandle Examples.metaExample = Normal false) /\
  (EvolutionAdapter.canHandle Examples.evolutionPayload = Normal true /\
   MetaAdapter.canHandle Examples.evolutionPayload = Normal false /\
   ZApiAdapter.canHandle Examples.evolutionPayload = Normal false) /\
  (ZApiAdapter.canHandle Examples.zapiPayload = Normal true /\
   MetaAdapter.canHandle Examples.zapiPayload = Normal false /\
   EvolutionAdapter.canHandle Examples.zapiPayload = Normal false).
Proof. vm_compute. repeat split. Qed.

(** ** Detection *)

(** After the markers of a payload have been opened: the facts about the
    looked-up fields contradict what the case analysis found. *)
Ltac clash :=
  repeat match goal with
         | H : Obj _ = Obj _ |- _ => injection H as <-
         | H : lookup ?k ?f = Some _, H' : lookup ?k ?f = _ |- _ =>
             rewrite H in H'; try discriminate H'; injection H' as <-
         end;
  simpl in *; try discriminate; try congruence.

Ltac answer_false :=
  exists false; split; [reflexivity | split; [discriminate | ]].

Lemma meta_canHandle_spec (payload : value) :
  exists b, MetaAdapter.canHandle payload = Normal b /\
            (b = true <-> Spec.meta_markers payload).
Proof.
  unfold Spec.meta_markers.
  destruct payload as [| |b|n|s|items|fields];
    try (answer_false; intros (f & x & r & Hp & _); discriminate Hp).
  unfold MetaAdapter.canHandle, andM, get, gt_lit; simpl.
  destruct (lookup "object" fields) as [o|] eqn:Ho; simpl;
    [ | answer_false; intros (f & x & r & Hp & Ho' & He'); clash ].
  destruct (strictEq o (Str "whatsapp_business_account")) eqn:Eo;
    [ | answer_false; intros (f & x & r & Hp & Ho' & He'); clash ].
  destruct o as [| |b|n|s|items|fs]; simpl in Eo; try discriminate.
  apply String.eqb_eq in Eo; subst s.
  destruct (lookup "entry" fields) as [e|] eqn:He; simpl;
    [ | answer_false; intros (f & x & r & Hp & Ho' & He'); clash ].
  destruct e as [| |b|n|s|[|first rest]|fs]; simpl;
    try (answer_false; intros (f & x & r & Hp & Ho' & He'); clash).
  exists true; split; [reflexivity | ].
  split; auto; intros _; exists fields, first, rest; auto.
Qed.

Lemma evolution_canHandle_spec (payload : value) :
  exists b, EvolutionAdapter.canHandle payload = Normal b /\
            (b = true <-> Spec.evolution_markers payload).
Proof.
  unfold Spec.evolution_markers.
  destruct payload as [| |b|n|s|items|fields];
    try (answer_false; intros (f & ev & i & d & k & Hp & _); discriminate Hp).
  unfold EvolutionAdapter.canHandle, andM, get; simpl.
  destruct (lookup "event" fields) as [[| |b|n|event|items|fs]|] eqn:Hev; simpl;
    try (answer_false; intros (f & ev & i & d & k & Hp & H1 & H2 & H3 & H4); clash).
  destruct (lookup "instance" fields) as [[| |b|n|instance|items|fs]|] eqn:Hin; simpl;
    try (answer_false; intros (f & ev & i & d & k & Hp & H1 & H2 & H3 & H4); clash).
  destruct (lookup "data" fields) as [[| |b|n|s|items|data]|] eqn:Hda; simpl;
    try (answer_false; intros (f & ev & i & d & k & Hp & H1 & H2 & H3 & H4); clash).
  destruct (lookup "key" data) as [[| |b|n|s|items|key]|] eqn:Hk; simpl;
    try (answer_false; intros (f & ev & i & d & k & Hp & H1 & H2 & H3 & H4); clash).
  exists true; split; [reflexivity | ].
  split; auto; intros _; exists fields, event, instance, data, key; auto.
Qed.

Lemma zapi_canHandle_spec (payload : value) :
  exists b, ZApiAdapter.canHandle payload = Normal b /\
            (b = true <-> Spec.zapi_markers payload).
Proof.
  unfold Spec.zapi_markers.
  destruct payload as [| |b|n|s|items|fields];
    try (answer_false; intros (f & i & m & ph & mo & Hp & _); discriminate Hp).
  unfold ZApiAdapter.canHandle, ZApiAdapter.field_is, andM, get; simpl.
  destruct (lookup "instanceId" fields) as [[| |b|n|instanceId|items|fs]|] eqn:H1; simpl;
    try (answer_false; intros (f & i & m & ph & mo & Hp & K1 & K2 & K3 & K4); clash).
  destruct (lookup "messageId" fields) as [[| |b|n|messageId|items|fs]|] eqn:H2; simpl;
    try (answer_false; intros (f & i & m & ph & mo & Hp & K1 & K2 & K3 & K4); clash).
  destruct (lookup "phone" fields) as [[| |b|n|phone|items|fs]|] eqn:H3; simpl;
    try (answer_false; intros (f & i & m & ph & mo & Hp & K1 & K2 & K3 & K4); clash).
  destruct (lookup "momment" fields) as [[| |b|momment|s|items|fs]|] eqn:H4; simpl;
    try (answer_false; intros (f & i & m & ph & mo & Hp & K1 & K2 & K3 & K4); clash).
  exists true; split; [reflexivity | ].
  split; auto; intros _; exists fields, instanceId, messageId, phone, momment; auto.
Qed.

(** C8: for the three built-in adapters and every value, [canHandle]
    returns a boolean without throwing; it returns [true] exactly on the
    values that carry the provider's structural markers, hence [false] on
    [null], [undefined], arrays, other non-objects and the empty object. *)
Theorem canHandle_total (payload : value) :
  (exists b, MetaAdapter.canHandle payload = Normal b /\
             (b = true <-> Spec.meta_markers payload)) /\
  (exists b, EvolutionAdapter.canHandle payload = Normal b /\
             (b = true <-> Spec.evolution_markers payload)) /\
  (exists b, ZApiAdapter.canHandle payload = Normal b /\
             (b = true <-> Spec.zapi_markers payload)) /\
  (match payload with
   | Obj (_ :: _) => True
   | _ => MetaAdapter.canHandle payload = Normal false /\
          EvolutionAdapter.canHandle payload = Normal false /\
          ZApiAdapter.canHandle payload = Normal false
   end).
Proof.
  split; [apply meta_canHandle_spec | ].
  split; [apply evolution_canHandle_spec | ].
  split; [apply zapi_canHandle_spec | ].
  destruct payload as [| |b|n|s|items|[|f fields]]; auto.
Qed.

(** ** Validation never throws *)

Lemma try_catch_returns {A} (body : Completion A) (a : A) :
  exists x, try_catch body (fun _ => ret a) = Normal x.
Proof. destruct body as [x|e]; simpl; eauto. Qed.

Lemma meta_validate_returns (payload : value) :
  exists b, MetaAdapter.validate payload = Normal b.
Proof.
  unfold MetaAdapter.validate.
  destruct (meta_canHandle_spec payload) as (h & -> & _); simpl.
  destruct h; simpl; [apply try_catch_returns | eauto].
Qed.

Lemma evolution_validate_returns (payload : value) :
  exists b, EvolutionAdapter.validate payload = Normal b.
Proof.
  unfold EvolutionAdapter.validate.
  destruct (evolution_canHandle_spec payload) as (h & -> & _); simpl.
  destruct h; simpl; [apply try_catch_returns | eauto].
Qed.

Lemma zapi_validate_returns (payload : value) :
  exists b, ZApiAdapter.validate payload = Normal b.
Proof.
  unfold ZApiAdapter.validate.
  destruct (zapi_canHandle_spec payload) as (h & -> & _); simpl.
  destruct h; simpl; [apply try_catch_returns | eauto].
Qed.

(** ** What the operations throw *)

Lemma throws_ret {A} (a : A) : Spec.throws_errors_only (ret a).
Proof. intros e H. discriminate H. Qed.

Lemma throws_error {A} (message : ErrorMessage) :
  Spec.throws_errors_only (@Throw A (ErrorInstance message)).
Proof. intros e H. injection H as <-. eauto. Qed.

Lemma throws_bind {A B} (c : Completion A) (k : A -> Completion B) :
  Spec.throws_errors_only c ->
  (forall a, Spec.throws_errors_only (k a)) ->
  Spec.throws_errors_only (bind c k).
Proof.
  intros Hc Hk e H. destruct c as [a|e']; simpl in H.
  - exact (Hk a e H).
  - injection H as <-. apply Hc. reflexivity.
Qed.

Lemma throws_get (v : value) (k : string) : Spec.throws_errors_only (get v k).
Proof.
  unfold get. destruct (isNullish v); [apply throws_error | apply throws_ret].
Qed.

Lemma throws_get_index (v : value) (i : nat) :
  Spec.throws_errors_only (get_index v i).
Proof.
  unfold get_index. destruct (isNullish v); [apply throws_error | apply throws_ret].
Qed.

Lemma throws_get_opt (v : value) (k : string) :
  Spec.throws_errors_only (get_opt v k).
Proof.
  unfold get_opt. destruct (isNullish v); [apply throws_ret | apply throws_get].
Qed.

Lemma throws_get_index_opt (v : value) (i : nat) :
  Spec.throws_errors_only (get_index_opt v i).
Proof.
  unfold get_index_opt.
  destruct (isNullish v); [apply throws_ret | apply throws_get_index].
Qed.

Lemma throws_ToString (v : value) : Spec.throws_errors_only (ToString v).
Proof.
  revert v. fix IH 1. intros v.
  destruct v as [| |[|]|n|s|items|fields]; simpl;
    try apply throws_ret.
  - generalize items. fix IHitems 1. intros [|x rest]; [apply throws_ret | ].
    apply throws_bind.
    + pose proof (IH x) as Hx. destruct x; try apply throws_ret; exact Hx.
    + intros sx. pose proof (IHitems rest) as Hrest.
      destruct rest as [|y rest']; [apply throws_ret | ].
      apply throws_bind; [exact Hrest | intros ?; apply throws_ret].
  - destruct (has_own "toString" fields); [apply throws_error | apply throws_ret].
Qed.

Lemma throws_ToNumber (v : value) : Spec.throws_errors_only (ToNumber v).
Proof.
  destruct v as [| |b|n|s|items|fields]; simpl; try apply throws_ret.
  - apply throws_bind; [apply (throws_ToString (Arr items)) | intros ?; apply throws_ret].
  - destruct (has_own "toString" fields); [apply throws_error | apply throws_ret].
Qed.

Lemma throws_parseInt (v : value) : Spec.throws_errors_only (parseInt v).
Proof.
  unfold parseInt.
  apply throws_bind; [apply throws_ToString | intros ?; apply throws_ret].
Qed.

Lemma throws_lt_lit (v : value) (k : Z) : Spec.throws_errors_only (lt_lit v k).
Proof.
  unfold lt_lit.
  apply throws_bind; [apply throws_ToNumber | intros ?; apply throws_ret].
Qed.

Lemma throws_gt_lit (v : value) (k : Z) : Spec.throws_errors_only (gt_lit v k).
Proof.
  unfold gt_lit.
  apply throws_bind; [apply throws_ToNumber | intros ?; apply throws_ret].
Qed.

Lemma throws_mul_lit (v : value) (k : Z) : Spec.throws_errors_only (mul_lit v k).
Proof.
  unfold mul_lit.
  apply throws_bind; [apply throws_ToNumber | intros ?; apply throws_ret].
Qed.

Lemma throws_lookup_or {A} (table : list (string * A)) (inherited : string -> A)
    (dflt : A) (key : value) :
  Spec.throws_errors_only (lookup_or table inherited dflt key).
Proof.
  unfold lookup_or.
  apply throws_bind; [apply throws_ToString | intros ?; apply throws_ret].
Qed.

Lemma throws_normalizePhoneNumber (phone : value) :
  Spec.throws_errors_only (BaseWebhookAdapter.normalizePhoneNumber phone).
Proof.
  unfold BaseWebhookAdapter.normalizePhoneNumber.
  destruct (negb (truthy phone)); [apply throws_ret | ].
  destruct phone; try apply throws_error. apply throws_ret.
Qed.

(** A chain of the operations above, taken apart. *)
Ltac throws :=
  repeat first
    [ apply throws_ret
    | apply throws_error
    | apply throws_get
    | apply throws_get_index
    | apply throws_get_opt
    | apply throws_get_index_opt
    | apply throws_ToString
    | apply throws_ToNumber
    | apply throws_parseInt
    | apply throws_lt_lit
    | apply throws_gt_lit
    | apply throws_mul_lit
    | apply throws_lookup_or
    | apply throws_normalizePhoneNumber
    | apply throws_bind; [ | intros ? ]
    | match goal with
      | |- Spec.throws_errors_only (if ?b then _ else _) => destruct b
      | |- Spec.throws_errors_only (match ?x with _ => _ end) => destruct x
      end ].

Lemma meta_extract_throws (env : Env) (payload : value) :
  Spec.throws_errors_only (MetaAdapter.extract env payload).
Proof.
  unfold MetaAdapter.extract, MetaAdapter.nonempty, MetaAdapter.extractContent,
    MetaAdapter.mapMessageType, MetaAdapter.mapStatus, MetaAdapter.sub.
  throws.
Qed.

Lemma evolution_extract_throws (env : Env) (payload : value) :
  Spec.throws_errors_only (EvolutionAdapter.extract env payload).
Proof.
  unfold EvolutionAdapter.extract, EvolutionAdapter.extractContent,
    EvolutionAdapter.normalizeTimestamp, EvolutionAdapter.mapMessageType,
    EvolutionAdapter.sub.
  throws.
Qed.

Lemma zapi_extract_throws (env : Env) (payload : value) :
  Spec.throws_errors_only (ZApiAdapter.extract env payload).
Proof.
  unfold ZApiAdapter.extract, ZApiAdapter.extractContent, ZApiAdapter.mapStatus,
    ZApiAdapter.upper_opt, or_elseM.
  throws.
Qed.

(** ** The staged error contract *)

Lemma createError_is_failure (k : ErrorCode) (msg : string) (d : Details) :
  Spec.is_failure (BaseWebhookAdapter.createError k msg d) k d.
Proof. repeat split; simpl; eauto. Qed.

(** One adapter: [normalize] is unfolded, the two guards are decided by
    the values [canHandle] and [validate] return, and the [try] block is
    split on its completion. *)
Ltac staged_proof canHandle_spec validate_returns extract_throws normalize :=
  match goal with
  | |- Spec.staged _ _ (?extract ?env) _ ?payload =>
      unfold Spec.staged, normalize;
      destruct (canHandle_spec payload) as (h & -> & _);
      destruct (validate_returns payload) as (v & ->);
      destruct h, v; simpl;
      try (eexists; split; [reflexivity | ];
           repeat split; intros; try discriminate;
           apply createError_is_failure);
      pose proof (extract_throws env payload) as Hthrows;
      destruct (extract env payload) as [r|e] eqn:Hextract; simpl;
      eexists; (split; [reflexivity | ]);
      repeat split; intros; try discriminate;
      match goal with
      | H : Throw _ = Throw _ |- _ =>
          injection H as <-;
          destruct (Hthrows e eq_refl) as (message & ->);
          exists message; split; [reflexivity | apply createError_is_failure]
      end
  end.

(** C3: each built-in adapter's [normalize] returns a result on every
    payload and follows the staged contract: [INVALID_PAYLOAD] when
    [canHandle] is false, [MISSING_REQUIRED_FIELD] when [canHandle] is
    true and [validate] false, and, past both guards, whatever field
    extraction throws is an [Error] and is answered with [PARSE_ERROR]
    and the message of that error as details.  Each adapter has
    payloads on which this happens: a Meta delivery without
    [metadata], an Evolution delivery whose [remoteJid] is a number, an
    outbound Z-API delivery whose [status] is a number. *)
Theorem normalize_staged_errors (env : Env) (payload : value) :
  Spec.staged MetaAdapter.canHandle MetaAdapter.validate
    (MetaAdapter.extract env) (MetaAdapter.normalize env) payload /\
  Spec.staged EvolutionAdapter.canHandle EvolutionAdapter.validate
    (EvolutionAdapter.extract env) (EvolutionAdapter.normalize env) payload /\
  Spec.staged ZApiAdapter.canHandle ZApiAdapter.validate
    (ZApiAdapter.extract env) (ZApiAdapter.normalize env) payload /\
  MetaAdapter.normalize env Examples.metaWithoutMetadata
    = Normal {| success := false; message := None;
                error := Some {| code := PARSE_ERROR;
                                 error_message := "Erro ao processar payload da Meta";
                                 details := ErrorMessageOf
                                   (CannotReadProperty Undefined "phone_number_id") |} |} /\
  EvolutionAdapter.normalize env Examples.evolutionNumericJid
    = Normal {| success := false; message := None;
                error := Some {| code := PARSE_ERROR;
                                 error_message :=
                                   "Erro ao processar payload da Evolution API";
                                 details := ErrorMessageOf
                                   (NotAFunction (Number (Num 5511988888888))
                                      "replace") |} |} /\
  ZApiAdapter.normalize env Examples.zapiNumericStatus
    = Normal {| success := false; message := None;
                error := Some {| code := PARSE_ERROR;
                                 error_message := "Erro ao processar payload da Z-API";
                                 details := ErrorMessageOf
                                   (NotAFunction (Number (Num 5))
                                      "toUpperCase") |} |}.
Proof.
  split; [ | split; [ | split; [ | split; [ | split ]]]]; try reflexivity.
  - staged_proof meta_canHandle_spec meta_validate_returns meta_extract_throws
      MetaAdapter.normalize.
  - staged_proof evolution_canHandle_spec evolution_validate_returns
      evolution_extract_throws EvolutionAdapter.normalize.
  - staged_proof zapi_canHandle_spec zapi_validate_returns zapi_extract_throws
      ZApiAdapter.normalize.
Qed.

(** The three stages on examples: a foreign payload, the Meta-shaped
    payload without messages or statuses, and a delivery without
    [metadata], on which reading [metadata.phone_number_id] throws. *)
Lemma meta_stages_examples (env : Env) :
  Spec.fails_with (MetaAdapter.normalize env (Obj [("invalid", Bool true)]))
    INVALID_PAYLOAD /\
  Spec.fails_with (MetaAdapter.normalize env Examples.metaWithoutRecords)
    MISSING_REQUIRED_FIELD /\
  MetaAdapter.normalize env Examples.metaWithoutMetadata
    = Normal (BaseWebhookAdapter.createError PARSE_ERROR
                "Erro ao processar payload da Meta"
                (ErrorMessageOf (CannotReadProperty Undefined "phone_number_id"))).
Proof.
  split; [ | split ]; try reflexivity;
    do 2 eexists; (split; [reflexivity | ]); repeat split; reflexivity.
Qed.

(** ** What a successful normalization read *)

Lemma get_Normal (v : value) (k : string) (a : value) :
  get v k = Normal a -> a = member v k.
Proof. unfold get, ret; destruct (isNullish v); congruence. Qed.

Lemma get_index_Normal (v : value) (i : nat) (a : value) :
  get_index v i = Normal a -> a = element v i.
Proof. unfold get_index, ret; destruct (isNullish v); congruence. Qed.

(** Inversion of a chain of binds that ends in a normal completion. *)
Ltac step H :=
  match type of H with
  | bind ?c _ = Normal _ =>
      let a := fresh "a" in
      let E := fresh "E" in
      destruct c as [a|?] eqn:E; simpl in H; [ | discriminate H ]
  | (if ?b then _ else _) = Normal _ =>
      let E := fresh "E" in destruct b eqn:E
  | ret _ = Normal _ => injection H as H
  | Normal _ = Normal _ => injection H as H
  | try_catch ?c _ = Normal _ =>
      let a := fresh "a" in
      let E := fresh "E" in
      destruct c as [a|?] eqn:E; simpl in H
  end.

Ltac reads :=
  repeat match goal with
         | H : get _ _ = Normal _ |- _ => apply get_Normal in H
         | H : get_index _ _ = Normal _ |- _ => apply get_index_Normal in H
         end.

Ltac guards :=
  repeat match goal with
         | K : negb _ = false |- _ => apply negb_false_iff in K
         end.

Lemma meta_success_extract (env : Env) (payload : value) (m : NormalizedMessage) :
  Spec.succeeds (MetaAdapter.normalize env payload) m ->
  Spec.succeeds (MetaAdapter.extract env payload) m.
Proof.
  intros (r & H & Hs & Hm). unfold MetaAdapter.normalize in H.
  repeat step H; subst; try discriminate Hs.
  eexists; eauto.
Qed.

Lemma meta_extract_success (env : Env) (payload : value) (m : NormalizedMessage) :
  Spec.succeeds (MetaAdapter.extract env payload) m ->
  id m = BaseWebhookAdapter.generateId env /\
  provider m = WebhookProvider.meta /\
  rawPayload m = payload /\
  exists record seconds,
    (MetaAdapter.nonempty (Spec.meta_value payload) "messages" = Normal true /\
     record = Spec.meta_first payload "messages" /\ direction m = inbound \/
     MetaAdapter.nonempty (Spec.meta_value payload) "messages" = Normal false /\
     record = Spec.meta_first payload "statuses" /\ direction m = outbound) /\
    externalId m = member record "id" /\
    parseInt (member record "timestamp") = Normal seconds /\
    timestamp m = Number (mul seconds (Num 1000)).
Proof.
  intros (r & H & Hs & Hm). unfold MetaAdapter.extract in H.
  repeat step H; subst r; try discriminate Hs;
    simpl in Hm; injection Hm as <-; simpl;
    (split; [reflexivity | split; [reflexivity | split; [reflexivity | ]]]).
  all: reads; subst; do 2 eexists;
    (split; [ (left; split; [eassumption | split; reflexivity])
              || (right; split; [eassumption | split; reflexivity]) | ]);
    (split; [ reflexivity | split; [ eassumption | reflexivity ] ]).
Qed.

Lemma evolution_success_extract (env : Env) (payload : value) (m : NormalizedMessage) :
  Spec.succeeds (EvolutionAdapter.normalize env payload) m ->
  EvolutionAdapter.canHandle payload = Normal true /\
  EvolutionAdapter.validate payload = Normal true /\
  Spec.succeeds (EvolutionAdapter.extract env payload) m.
Proof.
  intros (r & H & Hs & Hm). unfold EvolutionAdapter.normalize in H.
  repeat step H; subst; try discriminate Hs.
  guards; subst. repeat split; auto. eexists; eauto.
Qed.

Lemma evolution_extract_success (env : Env) (payload : value) (m : NormalizedMessage) :
  Spec.succeeds (EvolutionAdapter.extract env payload) m ->
  let data := member payload "data" in
  let key := member data "key" in
  id m = BaseWebhookAdapter.generateId env /\
  provider m = WebhookProvider.evolution /\
  externalId m = member key "id" /\
  direction m = (if truthy (member key "fromMe") then outbound else inbound) /\
  EvolutionAdapter.normalizeTimestamp (member data "messageTimestamp")
    = Normal (timestamp m).
Proof.
  intros (r & H & Hs & Hm). unfold EvolutionAdapter.extract in H.
  repeat step H; subst r; try discriminate Hs.
  simpl in Hm; injection Hm as <-; simpl.
  reads; subst. repeat split; auto.
Qed.

Lemma evolution_validate_true (payload : value) :
  EvolutionAdapter.canHandle payload = Normal true ->
  EvolutionAdapter.validate payload = Normal true ->
  truthy (member (member (member payload "data") "key") "id") = true.
Proof.
  intros Hc Hv.
  destruct (evolution_canHandle_spec payload) as (b & Hb & Hm).
  rewrite Hc in Hb; injection Hb as <-.
  destruct (proj1 Hm eq_refl) as (fields & ev & i & data & key & -> & _ & _ & Hd & Hk).
  unfold EvolutionAdapter.validate in Hv. rewrite Hc in Hv. simpl in Hv.
  unfold EvolutionAdapter.key_field, get_opt, get in Hv. simpl in Hv.
  rewrite Hd in Hv. simpl in Hv. rewrite Hk in Hv. simpl in Hv.
  simpl. rewrite Hd. simpl. rewrite Hk. simpl.
  destruct (truthy match lookup "remoteJid" key with Some x => x | None => Undefined end);
    simpl in Hv; [ | discriminate Hv ].
  destruct (truthy match lookup "id" key with Some x => x | None => Undefined end);
    simpl in Hv; [ reflexivity | discriminate Hv ].
Qed.

Lemma zapi_success_extract (env : Env) (payload : value) (m : NormalizedMessage) :
  Spec.succeeds (ZApiAdapter.normalize env payload) m ->
  ZApiAdapter.canHandle payload = Normal true /\
  ZApiAdapter.validate payload = Normal true /\
  Spec.succeeds (ZApiAdapter.extract env payload) m.
Proof.
  intros (r & H & Hs & Hm). unfold ZApiAdapter.normalize in H.
  repeat step H; subst; try discriminate Hs.
  guards; subst. repeat split; auto. eexists; eauto.
Qed.

Lemma zapi_extract_success (env : Env) (payload : value) (m : NormalizedMessage) :
  Spec.succeeds (ZApiAdapter.extract env payload) m ->
  id m = BaseWebhookAdapter.generateId env /\
  provider m = WebhookProvider.z_api /\
  externalId m = member payload "messageId" /\
  direction m = (if strictEq (member payload "fromMe") (Bool true)
                 then outbound else inbound) /\
  timestamp m = member payload "momment".
Proof.
  intros (r & H & Hs & Hm). unfold ZApiAdapter.extract in H.
  repeat step H; subst r; try discriminate Hs.
  simpl in Hm; injection Hm as <-; simpl.
  reads; subst. repeat split; auto.
Qed.

Lemma zapi_validate_true (payload : value) :
  ZApiAdapter.canHandle payload = Normal true ->
  ZApiAdapter.validate payload = Normal true ->
  Spec.non_empty_string (member payload "messageId") /\
  exists n, member payload "momment" = Number n /\
            n <> NaN /\ n <> Num 0 /\ n <> NegZero.
Proof.
  intros Hc Hv.
  destruct (zapi_canHandle_spec payload) as (b & Hb & Hm).
  rewrite Hc in Hb; injection Hb as <-.
  destruct (proj1 Hm eq_refl) as (fields & i & mid & ph & mo & -> & H1 & H2 & H3 & H4).
  unfold ZApiAdapter.validate in Hv. rewrite Hc in Hv. simpl in Hv.
  unfold ZApiAdapter.field_truthy, andM, get in Hv. simpl in Hv.
  rewrite H1, H2, H3, H4 in Hv. simpl in Hv. simpl. rewrite H2, H4.
  destruct (i =? "")%string; simpl in Hv; [discriminate Hv | ].
  destruct (mid =? "")%string eqn:Emid; simpl in Hv; [discriminate Hv | ].
  destruct (ph =? "")%string; simpl in Hv; [discriminate Hv | ].
  injection Hv as Hv.
  split.
  - exists mid; split; auto. apply String.eqb_neq; exact Emid.
  - exists mo; split; auto. apply truthy_number. exact Hv.
Qed.

Lemma generateId_not_empty (env : Env) : BaseWebhookAdapter.generateId env <> "".
Proof. unfold BaseWebhookAdapter.generateId; simpl; discriminate. Qed.

Lemma direction_set (d : MessageDirection) : d = inbound \/ d = outbound.
Proof. destruct d; auto. Qed.

(** ** The invariant of a normalized message *)

(** C1, as stated, fails: each adapter returns a success whose message
    breaks the invariant.  Meta accepts a message without [id] and
    [timestamp] (external id [undefined], timestamp NaN), Evolution a
    [messageTimestamp] of 0 and Z-API a negative [momment]. *)
Lemma invariant_counterexample :
  (exists m, Spec.succeeds (MetaAdapter.normalize Examples.env0 Examples.metaBareMessage) m /\
             externalId m = Undefined /\ timestamp m = Number NaN /\
             ~ Spec.invariant m) /\
  (exists m, Spec.succeeds
               (EvolutionAdapter.normalize Examples.env0 Examples.evolutionZeroTimestamp) m /\
             timestamp m = Number (Num 0) /\ ~ Spec.invariant m) /\
  (exists m, Spec.succeeds
               (ZApiAdapter.normalize Examples.env0 Examples.zapiNegativeMomment) m /\
             timestamp m = Number (Num (-1)) /\ ~ Spec.invariant m).
Proof.
  split; [ | split ].
  - eexists; split; [ eexists; split; [ cbv; reflexivity | split; reflexivity ] | ].
    simpl. split; [reflexivity | split; [reflexivity | ]].
    intros (_ & (s & Hs & _) & _). discriminate Hs.
  - eexists; split; [ eexists; split; [ cbv; reflexivity | split; reflexivity ] | ].
    simpl. split; [reflexivity | ].
    intros (_ & _ & _ & (n & Hn & Hpos) & _). injection Hn as <-. discriminate Hpos.
  - eexists; split; [ eexists; split; [ cbv; reflexivity | split; reflexivity ] | ].
    simpl. split; [reflexivity | ].
    intros (_ & _ & _ & (n & Hn & Hpos) & _). injection Hn as <-. discriminate Hpos.
Qed.

(** C1, amended: a successfully normalized message has a non-empty [id],
    the provider of the adapter that built it (never [unknown]) and a
    direction; Meta's timestamp is a number, Evolution's external id is
    truthy, and Z-API's external id is a non-empty string and its
    timestamp a non-zero number. *)
Theorem success_invariant (env : Env) (payload : value) (m : NormalizedMessage) :
  (Spec.succeeds (MetaAdapter.normalize env payload) m ->
     id m <> "" /\
     provider m = WebhookProvider.meta /\
     provider m <> WebhookProvider.unknown /\
     (direction m = inbound \/ direction m = outbound) /\
     exists n, timestamp m = Number n) /\
  (Spec.succeeds (EvolutionAdapter.normalize env payload) m ->
     id m <> "" /\
     provider m = WebhookProvider.evolution /\
     provider m <> WebhookProvider.unknown /\
     (direction m = inbound \/ direction m = outbound) /\
     truthy (externalId m) = true) /\
  (Spec.succeeds (ZApiAdapter.normalize env payload) m ->
     id m <> "" /\
     provider m = WebhookProvider.z_api /\
     provider m <> WebhookProvider.unknown /\
     (direction m = inbound \/ direction m = outbound) /\
     Spec.non_empty_string (externalId m) /\
     exists n, timestamp m = Number n /\
               n <> NaN /\ n <> Num 0 /\ n <> NegZero).
Proof.
  split; [ | split ].
  - intros H. apply meta_success_extract, meta_extract_success in H.
    destruct H as (Hid & Hp & _ & record & seconds & _ & _ & _ & Hts).
    rewrite Hid, Hp.
    split; [ apply generateId_not_empty | ].
    split; [ reflexivity | ].
    split; [ discriminate | ].
    split; [ apply direction_set | eauto ].
  - intros H. apply evolution_success_extract in H.
    destruct H as (Hc & Hv & H). apply evolution_extract_success in H.
    destruct H as (Hid & Hp & He & _ & _).
    rewrite Hid, Hp, He.
    split; [ apply generateId_not_empty | ].
    split; [ reflexivity | ].
    split; [ discriminate | ].
    split; [ apply direction_set | ].
    apply evolution_validate_true; assumption.
  - intros H. apply zapi_success_extract in H.
    destruct H as (Hc & Hv & H). apply zapi_extract_success in H.
    destruct H as (Hid & Hp & He & _ & Hts).
    destruct (zapi_validate_true payload Hc Hv) as (Hne & Hnz).
    rewrite Hid, Hp, He, Hts.
    split; [ apply generateId_not_empty | ].
    split; [ reflexivity | ].
    split; [ discriminate | ].
    split; [ apply direction_set | ].
    split; [ exact Hne | exact Hnz ].
Qed.

(** ** Timestamps *)



(** The timestamps of section 8: seconds become milliseconds for Meta
    and Evolution, Z-API's milliseconds pass through. *)
Lemma example_timestamps (env : Env) :
  (exists m, Spec.succeeds (EvolutionAdapter.normalize env Examples.evolutionPayload) m /\
             timestamp m = Number (Num 1677234567000) /\ direction m = inbound) /\
  (exists m, Spec.succeeds (ZApiAdapter.normalize env Examples.zapiPayload) m /\
             timestamp m = Number (Num 1677234567000)).
Proof.
  split.
  - eexists; split;
      [ eexists; split;
        [ cbv -[BaseWebhookAdapter.generateId]; reflexivity | split; reflexivity ] | ].
    split; reflexivity.
  - eexists; split;
      [ eexists; split;
        [ cbv -[BaseWebhookAdapter.generateId]; reflexivity | split; reflexivity ] | ].
    reflexivity.
Qed.

(** ** The registry *)

Lemma findAdapter_none (r : AdapterRegistry.t) (payload : value) :
  Forall (fun e => WebhookAdapter.canHandle (snd e) payload = Normal false) r ->
  AdapterRegistry.findAdapter r payload = Normal None.
Proof.
  induction 1 as [|[p a] rest Ha _ IH]; simpl; [reflexivity | ].
  simpl in Ha. rewrite Ha. simpl. exact IH.
Qed.

Lemma findAdapter_returns (r : AdapterRegistry.t) (payload : value) :
  Forall (fun e => exists b, WebhookAdapter.canHandle (snd e) payload = Normal b) r ->
  exists found, AdapterRegistry.findAdapter r payload = Normal found.
Proof.
  induction 1 as [|[p a] rest (b & Hb) _ IH]; simpl; [eauto | ].
  simpl in Hb. rewrite Hb. simpl. destruct b; eauto.
Qed.

Lemma reset_adapters (env : Env) :
  AdapterRegistry.reset env =
    [ (WebhookProvider.meta, MetaAdapter.adapter env);
      (WebhookProvider.evolution, EvolutionAdapter.adapter env);
      (WebhookProvider.z_api, ZApiAdapter.adapter env) ].
Proof. reflexivity. Qed.

Lemma builtin_detection_returns (env : Env) (payload : value) :
  Forall (fun e => exists b, WebhookAdapter.canHandle (snd e) payload = Normal b)
    (AdapterRegistry.reset env).
Proof.
  rewrite reset_adapters. repeat constructor; simpl.
  - destruct (meta_canHandle_spec payload) as (b & H & _); eauto.
  - destruct (evolution_canHandle_spec payload) as (b & H & _); eauto.
  - destruct (zapi_canHandle_spec payload) as (b & H & _); eauto.
Qed.

(** Registering an adapter for a provider that is already registered
    replaces the entry in place. *)
Lemma register_replaces (r : AdapterRegistry.t) (adapter : WebhookAdapter.t) :
  AdapterRegistry.has r (WebhookAdapter.provider adapter) = true ->
  AdapterRegistry.getRegisteredProviders (AdapterRegistry.register r adapter)
    = AdapterRegistry.getRegisteredProviders r /\
  AdapterRegistry.getAdapter (AdapterRegistry.register r adapter)
    (WebhookAdapter.provider adapter) = Some adapter.
Proof.
  unfold AdapterRegistry.register, AdapterRegistry.getRegisteredProviders,
    AdapterRegistry.getAdapter, AdapterRegistry.has.
  generalize (WebhookAdapter.provider adapter) as p; intros p.
  induction r as [|[q b] rest IH]; simpl; [discriminate | ].
  destruct (WebhookProvider.eqb q p) eqn:E; simpl.
  - intros _. rewrite E. auto.
  - intros H. rewrite E. destruct (IH H) as [IH1 IH2].
    rewrite IH1. auto.
Qed.

(** C4: the registry's [normalize] fails with [INVALID_PAYLOAD] on
    [null] and [undefined]; on any other payload that every registered
    adapter's [canHandle] rejects it fails with [UNKNOWN_PROVIDER], the
    details listing the registered providers and the payload's top-level
    keys; so it does, for the built-in registry, on [{foo: "bar"}]. *)
Theorem registry_rejections (r : AdapterRegistry.t) (payload : value) (env : Env) :
  (payload = Null \/ payload = Undefined ->
     exists res, AdapterRegistry.normalize r payload = Normal res /\
                 Spec.is_failure res INVALID_PAYLOAD NoDetails) /\
  (payload <> Null -> payload <> Undefined ->
   Forall (fun e => WebhookAdapter.canHandle (snd e) payload = Normal false) r ->
     exists res, AdapterRegistry.normalize r payload = Normal res /\
                 Spec.is_failure res UNKNOWN_PROVIDER
                   (UnknownProviderDetails
                      (AdapterRegistry.getRegisteredProviders r)
                      (typeof payload) (Object_keys payload))) /\
  (exists res,
     AdapterRegistry.normalize (AdapterRegistry.reset env) (Obj [("foo", Str "bar")])
       = Normal res /\
     Spec.is_failure res UNKNOWN_PROVIDER
       (UnknownProviderDetails
          [WebhookProvider.meta; WebhookProvider.evolution; WebhookProvider.z_api]
          "object" ["foo"])).
Proof.
  split; [ | split ].
  - intros [-> | ->]; eexists; (split; [reflexivity | ]);
      repeat split; simpl; eauto.
  - intros Hnull Hundef Hnone.
    unfold AdapterRegistry.normalize.
    destruct payload; try congruence; simpl;
      rewrite (findAdapter_none _ _ Hnone); simpl;
      eexists; (split; [reflexivity | ]); repeat split; simpl; eauto.
  - eexists; split; [reflexivity | ]. repeat split; simpl; eauto.
Qed.

Lemma normalize_returns_when_detected (r : AdapterRegistry.t) (payload : value) :
  Forall (fun e => exists b, WebhookAdapter.canHandle (snd e) payload = Normal b) r ->
  exists res, AdapterRegistry.normalize r payload = Normal res.
Proof.
  intros Hdetect.
  destruct (findAdapter_returns r payload Hdetect) as (found & Hfound).
  unfold AdapterRegistry.normalize.
  destruct (isNull payload || isUndefined payload); [eauto | ].
  rewrite Hfound; simpl. destruct found as [adapter|]; [ | eauto ].
  destruct (WebhookAdapter.normalize adapter payload); simpl; eauto.
Qed.

(** C9, as stated, fails: detection runs outside the [try] block, so an
    exception thrown by a registered adapter's [canHandle] leaves
    [normalize]. *)
Lemma registry_counterexample :
  AdapterRegistry.normalize
    (AdapterRegistry.register (AdapterRegistry.reset Examples.env0)
       Examples.carelessDetector)
    (Obj [("foo", Str "bar")])
  = Throw (ErrorInstance (CannotReadProperty Undefined "enabled")).
Proof. reflexivity. Qed.

(** C9, amended: when every registered adapter's [canHandle] returns on
    the payload, the registry's [normalize] returns a result, and an
    exception thrown by the selected adapter's [normalize] is returned as
    a [PROCESSING_ERROR] that names the adapter and carries the cause:
    the message of a thrown [Error], or the thrown value itself. *)
Theorem registry_normalize_guarded (r : AdapterRegistry.t) (payload : value)
    (Hdetect : Forall (fun e => exists b,
                         WebhookAdapter.canHandle (snd e) payload = Normal b) r) :
  exists res,
    AdapterRegistry.normalize r payload = Normal res /\
    forall adapter e,
      isNullish payload = false ->
      AdapterRegistry.findAdapter r payload = Normal (Some adapter) ->
      WebhookAdapter.normalize adapter payload = Throw e ->
      Spec.is_failure res PROCESSING_ERROR
        (match e with
         | ErrorInstance message => ErrorMessageOf message
         | ThrownValue v => Value v
         end) /\
      exists err, error res = Some err /\
        error_message err =
          "Erro ao processar payload com adapter "
          ++ WebhookProvider.name (WebhookAdapter.provider adapter).
Proof.
  destruct (findAdapter_returns r payload Hdetect) as (found & Hfound).
  unfold AdapterRegistry.normalize.
  destruct (isNull payload || isUndefined payload) eqn:Hnull.
  - eexists; split; [reflexivity | ].
    intros adapter e Hn. unfold isNullish in Hn. congruence.
  - rewrite Hfound; simpl. destruct found as [adapter|].
    + destruct (WebhookAdapter.normalize adapter payload) as [res|e] eqn:Hn; simpl.
      * eexists; split; [reflexivity | ].
        intros adapter' e' _ Heq Hthrow.
        injection Heq as <-. congruence.
      * eexists; split; [reflexivity | ].
        intros adapter' e' _ Heq Hthrow.
        injection Heq as <-. rewrite Hn in Hthrow. injection Hthrow as <-.
        split; [ repeat split; simpl; eauto | simpl; eauto ].
    + eexists; split; [reflexivity | ].
      intros adapter e _ Heq. discriminate Heq.
Qed.

Lemma registry_normalize_guarded_witness :
  exists res,
    AdapterRegistry.normalize
      (AdapterRegistry.register (AdapterRegistry.reset Examples.env0)
         Examples.faultyNormalizer)
      (Obj [("custom", Bool true)]) = Normal res /\
    forall adapter e,
      isNullish (Obj [("custom", Bool true)]) = false ->
      AdapterRegistry.findAdapter
        (AdapterRegistry.register (AdapterRegistry.reset Examples.env0)
           Examples.faultyNormalizer)
        (Obj [("custom", Bool true)]) = Normal (Some adapter) ->
      WebhookAdapter.normalize adapter (Obj [("custom", Bool true)]) = Throw e ->
      Spec.is_failure res PROCESSING_ERROR
        (match e with
         | ErrorInstance message => ErrorMessageOf message
         | ThrownValue v => Value v
         end) /\
      exists err, error res = Some err /\
        error_message err =
          "Erro ao processar payload com adapter "
          ++ WebhookProvider.name (WebhookAdapter.provider adapter).
Proof.
  apply registry_normalize_guarded.
  repeat constructor; simpl; eexists; reflexivity.
Defined.

(** With the built-in adapters alone nothing is thrown, whatever the
    payload. *)
Lemma builtin_registry_returns (env : Env) (payload : value) :
  exists res, AdapterRegistry.normalize (AdapterRegistry.reset env) payload = Normal res.
Proof.
  apply normalize_returns_when_detected, builtin_detection_returns.
Qed.

(** ** Phone numbers *)

Lemma filter_holds (f : ascii -> bool) (s : string) :
  string_forall f (string_filter f s) = true.
Proof.
  induction s as [|c rest IH]; simpl; [reflexivity | ].
  destruct (f c) eqn:Hc; simpl; [rewrite Hc | ]; exact IH.
Qed.

Lemma filter_fixed (f : ascii -> bool) (s : string) :
  string_forall f s = true -> string_filter f s = s.
Proof.
  induction s as [|c rest IH]; simpl; [reflexivity | ].
  intros H; apply andb_true_iff in H; destruct H as [Hc Hrest].
  rewrite Hc, (IH Hrest); reflexivity.
Qed.

Lemma digit_is_not_at (c : ascii) : is_digit c = true -> Ascii.eqb c "@"%char = false.
Proof.
  intros H. destruct (Ascii.eqb_spec c "@"%char) as [->|]; [ | reflexivity ].
  discriminate H.
Qed.

Lemma strip_suffix_of_digits (s : string) :
  string_forall is_digit s = true -> strip_whatsapp_suffix s = s.
Proof.
  induction s as [|c rest IH]; simpl; [reflexivity | ].
  intros H; apply andb_true_iff in H; destruct H as [Hc Hrest].
  rewrite (digit_is_not_at c Hc), (IH Hrest); reflexivity.
Qed.

Lemma helper_on_digits (d : string) :
  string_forall is_digit d = true ->
  helpers.normalizePhoneNumber d
    = if (code_units d =? 11) && startsWith d "11" then "55" ++ d else d.
Proof.
  intros Hd. unfold helpers.normalizePhoneNumber.
  destruct (d =? "")%string eqn:Hempty.
  - apply String.eqb_eq in Hempty; subst; reflexivity.
  - rewrite (strip_suffix_of_digits _ Hd).
    unfold keep_digits. rewrite (filter_fixed _ _ Hd). reflexivity.
Qed.

(** The exported helper is idempotent on every string. *)
Lemma helpers_normalizePhoneNumber_idempotent (x : string) :
  helpers.normalizePhoneNumber (helpers.normalizePhoneNumber x)
    = helpers.normalizePhoneNumber x.
Proof.
  remember (helpers.normalizePhoneNumber x) as r eqn:Hr.
  unfold helpers.normalizePhoneNumber in Hr.
  destruct (x =? "")%string; [subst r; reflexivity | ].
  set (d := keep_digits (strip_whatsapp_suffix x)) in Hr.
  assert (Hd : string_forall is_digit d = true) by apply filter_holds.
  destruct ((code_units d =? 11) && startsWith d "11") eqn:Hcond; subst r.
  - assert (H55 : string_forall is_digit ("55" ++ d) = true) by exact Hd.
    rewrite (helper_on_digits _ H55).
    apply andb_true_iff in Hcond; destruct Hcond as [Hlen _].
    apply Z.eqb_eq in Hlen.
    replace (code_units ("55" ++ d) =? 11) with false; [reflexivity | ].
    symmetry; apply Z.eqb_neq.
    change (code_units ("55" ++ d)) with (1 + (1 + code_units d)). lia.
  - rewrite (helper_on_digits _ Hd), Hcond. reflexivity.
Qed.

(** The adapters' method leaves a number that is already canonical
    (digits only) as it is. *)
Lemma base_normalizePhoneNumber_canonical (d : string) :
  string_forall is_digit d = true ->
  BaseWebhookAdapter.normalizePhoneNumber (Str d) = Normal d.
Proof.
  intros Hd. unfold BaseWebhookAdapter.normalizePhoneNumber; simpl.
  destruct (d =? "")%string eqn:Hempty; simpl.
  - apply String.eqb_eq in Hempty; subst; reflexivity.
  - rewrite (strip_suffix_of_digits _ Hd).
    assert (Hp : string_forall (fun c => is_digit c || Ascii.eqb c "+"%char) d = true).
    { clear Hempty. induction d as [|c rest IH]; simpl in *; [reflexivity | ].
      apply andb_true_iff in Hd; destruct Hd as [Hc Hrest].
      rewrite Hc, (IH Hrest); reflexivity. }
    unfold keep_digits_and_plus. rewrite (filter_fixed _ _ Hp).
    destruct d as [|c rest]; [reflexivity | ].
    simpl in Hd. apply andb_true_iff in Hd; destruct Hd as [Hc _].
    unfold strip_leading_plus.
    destruct (Ascii.eqb_spec c "+"%char) as [->|Hne]; [discriminate Hc | ].
    destruct c as [[] [] [] [] [] [] [] []]; try reflexivity. congruence.
Qed.

(** C6: the adapters' [normalizePhoneNumber] is not idempotent.  Only one
    leading [+] is removed, so "++5" is normalized to "+5", which a
    second application normalizes to "5". *)
Theorem base_normalizePhoneNumber_not_idempotent :
  BaseWebhookAdapter.normalizePhoneNumber (Str "++5") = Normal "+5" /\
  BaseWebhookAdapter.normalizePhoneNumber (Str "+5") = Normal "5" /\
  BaseWebhookAdapter.normalizePhoneNumber (Str "+5")
    <> BaseWebhookAdapter.normalizePhoneNumber (Str "++5").
Proof. repeat split; try reflexivity. discriminate. Qed.

(** ** Later entries, changes, messages and statuses *)

Lemma on_field_preserves (k : string) (f : value -> value) :
  Spec.shape_preserving (Spec.on_field k f).
Proof. intros [] H; simpl in *; tauto. Qed.

Lemma first_only_preserves (f : value -> value) :
  Spec.shape_preserving (Spec.first_only f).
Proof. intros [] H; simpl in *; tauto. Qed.

Lemma lookup_update_same (k : string) (f : value -> value) fields :
  lookup k (Spec.update_field k f fields) = option_map f (lookup k fields).
Proof.
  induction fields as [|[k' v] rest IH]; simpl; [reflexivity | ].
  destruct (k' =? k)%string eqn:E; simpl; rewrite E; [reflexivity | exact IH].
Qed.

Lemma lookup_update_other (k k' : string) (f : value -> value) fields :
  (k =? k')%string = false ->
  lookup k' (Spec.update_field k f fields) = lookup k' fields.
Proof.
  intros Hk. induction fields as [|[k0 v] rest IH]; simpl; [reflexivity | ].
  destruct (k0 =? k)%string eqn:E; simpl.
  - apply String.eqb_eq in E; subst k0. rewrite Hk. reflexivity.
  - destruct (k0 =? k')%string; [reflexivity | exact IH].
Qed.

Lemma isNullish_on_field k f v : isNullish (Spec.on_field k f v) = isNullish v.
Proof. destruct v; reflexivity. Qed.

Lemma member_on_field_same k f v :
  Spec.shape_preserving f ->
  member (Spec.on_field k f v) k = f (member v k).
Proof.
  intros Hf. destruct v; simpl; try (symmetry; apply Hf; exact I).
  - destruct (k =? "length")%string; symmetry; apply Hf; exact I.
  - destruct (k =? "length")%string; symmetry; apply Hf; exact I.
  - rewrite lookup_update_same. destruct (lookup k fields); simpl;
      [reflexivity | symmetry; apply Hf; exact I].
Qed.

Lemma member_on_field_other k k' f v :
  (k =? k')%string = false ->
  member (Spec.on_field k f v) k' = member v k'.
Proof.
  intros Hk. destruct v; simpl; try reflexivity.
  rewrite (lookup_update_other _ _ _ _ Hk). reflexivity.
Qed.

Lemma get_on_field_same k f v :
  Spec.shape_preserving f ->
  get (Spec.on_field k f v) k = cmap f (get v k).
Proof.
  intros Hf. unfold get. rewrite isNullish_on_field.
  destruct (isNullish v) eqn:Hn; simpl.
  - destruct v; try discriminate Hn; reflexivity.
  - rewrite (member_on_field_same _ _ _ Hf). reflexivity.
Qed.

Lemma get_on_field_other k k' f v :
  (k =? k')%string = false ->
  get (Spec.on_field k f v) k' = get v k'.
Proof.
  intros Hk. unfold get. rewrite isNullish_on_field.
  destruct (isNullish v) eqn:Hn; simpl.
  - destruct v; try discriminate Hn; reflexivity.
  - rewrite (member_on_field_other _ _ _ _ Hk). reflexivity.
Qed.

Lemma get_opt_on_field_same k f v :
  Spec.shape_preserving f ->
  get_opt (Spec.on_field k f v) k = cmap f (get_opt v k).
Proof.
  intros Hf. unfold get_opt. rewrite isNullish_on_field.
  destruct (isNullish v); [ | apply get_on_field_same; exact Hf ].
  simpl. rewrite Hf; [reflexivity | exact I].
Qed.

Lemma get_opt_on_field_other k k' f v :
  (k =? k')%string = false ->
  get_opt (Spec.on_field k f v) k' = get_opt v k'.
Proof.
  intros Hk. unfold get_opt. rewrite isNullish_on_field.
  destruct (isNullish v); [reflexivity | apply get_on_field_other; exact Hk].
Qed.

Lemma get_index_first_only f a :
  Spec.shape_preserving f ->
  get_index (Spec.first_only f a) 0 = cmap (Spec.at_head f a) (get_index a 0).
Proof.
  intros Hf. destruct a as [| | | | |[|x xs]|]; try reflexivity.
  unfold get_index, Spec.at_head; simpl. rewrite Hf; [reflexivity | exact I].
Qed.

Lemma get_index_opt_first_only f a :
  Spec.shape_preserving f ->
  get_index_opt (Spec.first_only f a) 0 = cmap (Spec.at_head f a) (get_index_opt a 0).
Proof.
  intros Hf. destruct a as [| | | | |[|x xs]|]; try reflexivity.
  unfold get_index_opt, get_index, Spec.at_head; simpl. rewrite Hf; [reflexivity | exact I].
Qed.

Lemma bind_cmap {A B C} (f : A -> B) (c : Completion A) (k : B -> Completion C) :
  bind (cmap f c) k = bind c (fun x => k (f x)).
Proof. destruct c; reflexivity. Qed.

Lemma bind_ext {A B} (c : Completion A) (k1 k2 : A -> Completion B) :
  (forall a, k1 a = k2 a) -> bind c k1 = bind c k2.
Proof. intros H; destruct c; simpl; auto. Qed.

Lemma cmap_bind_ext {A B C} (f : B -> C) (c : Completion A) (k1 k2 : A -> Completion B) :
  (forall a, cmap f (k1 a) = cmap f (k2 a)) ->
  cmap f (bind c k1) = cmap f (bind c k2).
Proof. intros H; destruct c; simpl; auto. Qed.

Lemma first_records_preserves : Spec.shape_preserving Spec.first_records.
Proof. intros [] H; simpl in *; tauto. Qed.

Lemma get_first_records_list (value : Js.value) (list : string) :
  list = "messages" \/ list = "statuses" ->
  get (Spec.first_records value) list = cmap (Spec.first_only Spec.keep) (get value list).
Proof.
  unfold Spec.first_records. intros [-> | ->].
  - rewrite get_on_field_same by apply first_only_preserves.
    rewrite get_on_field_other by reflexivity. reflexivity.
  - rewrite get_on_field_other by reflexivity.
    rewrite get_on_field_same by apply first_only_preserves. reflexivity.
Qed.

Lemma get_opt_first_records_list (value : Js.value) (list : string) :
  list = "messages" \/ list = "statuses" ->
  get_opt (Spec.first_records value) list
    = cmap (Spec.first_only Spec.keep) (get_opt value list).
Proof.
  unfold Spec.first_records. intros [-> | ->].
  - rewrite get_opt_on_field_same by apply first_only_preserves.
    rewrite get_opt_on_field_other by reflexivity. reflexivity.
  - rewrite get_opt_on_field_other by reflexivity.
    rewrite get_opt_on_field_same by apply first_only_preserves. reflexivity.
Qed.

Lemma get_first_records_other (value : Js.value) (k : string) :
  ("messages" =? k)%string = false -> ("statuses" =? k)%string = false ->
  get (Spec.first_records value) k = get value k.
Proof.
  intros H1 H2. unfold Spec.first_records.
  rewrite get_on_field_other by exact H1.
  rewrite get_on_field_other by exact H2. reflexivity.
Qed.

Lemma nonempty_first_records (value : Js.value) (list : string) :
  list = "messages" \/ list = "statuses" ->
  MetaAdapter.nonempty (Spec.first_records value) list = MetaAdapter.nonempty value list.
Proof.
  intros Hl. unfold MetaAdapter.nonempty.
  rewrite (get_first_records_list _ _ Hl).
  destruct (get value list) as [l|e]; simpl; [ | reflexivity ].
  destruct l as [| | | | |[|x xs]|]; reflexivity.
Qed.

Lemma get_index_first_only_keep (a : value) :
  get_index (Spec.first_only Spec.keep a) 0 = get_index a 0.
Proof. destruct a as [| | | | |[|x xs]|]; reflexivity. Qed.

Lemma isObject_on_field k f v :
  MetaAdapter.isObject (Spec.on_field k f v) = MetaAdapter.isObject v.
Proof. destruct v; reflexivity. Qed.

Lemma head_canHandle (payload : value) :
  MetaAdapter.canHandle (Spec.head_of_delivery payload)
  = MetaAdapter.canHandle payload.
Proof.
  unfold Spec.head_of_delivery. unfold MetaAdapter.canHandle, andM.
  rewrite isObject_on_field.
  destruct (negb (MetaAdapter.isObject payload)); [reflexivity | ].
  rewrite get_on_field_other by reflexivity.
  rewrite !get_on_field_same by apply first_only_preserves.
  apply bind_ext; intros o. destruct o; [ | reflexivity ].
  destruct (get payload "entry") as [es|e]; simpl; [ | reflexivity ].
  destruct es as [| | | | |[|x xs]|]; reflexivity.
Qed.

Lemma head_validate (payload : value) :
  MetaAdapter.validate (Spec.head_of_delivery payload)
  = MetaAdapter.validate payload.
Proof.
  unfold MetaAdapter.validate. rewrite head_canHandle.
  apply bind_ext; intros h. destruct (negb h); [reflexivity | ].
  f_equal. unfold Spec.head_of_delivery.
  rewrite get_on_field_same by apply first_only_preserves.
  rewrite bind_cmap; apply bind_ext; intros es.
  rewrite get_index_first_only by apply on_field_preserves.
  rewrite bind_cmap; apply bind_ext; intros entry.
  unfold Spec.at_head. destruct (isArray es); [ | reflexivity ].
  unfold Spec.first_entry.
  rewrite get_opt_on_field_same by apply first_only_preserves.
  rewrite bind_cmap; apply bind_ext; intros cs.
  rewrite get_index_opt_first_only by apply on_field_preserves.
  rewrite bind_cmap; apply bind_ext; intros changes.
  unfold Spec.at_head. destruct (isArray cs); [ | reflexivity ].
  unfold Spec.first_change.
  rewrite get_opt_on_field_same by apply first_records_preserves.
  rewrite bind_cmap; apply bind_ext; intros value.
  rewrite get_opt_first_records_list by auto.
  rewrite bind_cmap; apply bind_ext; intros ms.
  destruct ms as [| | | | |[|x xs]|]; try reflexivity;
    cbn [Spec.first_only];
    apply bind_ext; intros mlen;
    (destruct (truthy mlen); [reflexivity | ]);
    rewrite get_opt_first_records_list by auto;
    rewrite bind_cmap; apply bind_ext; intros ss;
    destruct ss as [| | | | |[|y ys]|]; reflexivity.
Qed.

(** Both sides run the same reads in the same order; they differ in the
    payload they copy into the message. *)
Ltac lockstep :=
  repeat first
    [ rewrite get_on_field_other by reflexivity
    | rewrite get_first_records_other by reflexivity
    | rewrite nonempty_first_records by auto
    | rewrite get_first_records_list by auto; rewrite bind_cmap
    | rewrite get_index_first_only_keep
    | apply cmap_bind_ext; intros ?; cbv beta zeta
    | match goal with
      | |- cmap _ (if ?b then _ else _) = cmap _ (if ?b then _ else _) =>
          destruct b
      end
    | reflexivity ].

Lemma head_extract (env : Env) (payload : value) :
  cmap Spec.without_raw (MetaAdapter.extract env (Spec.head_of_delivery payload))
  = cmap Spec.without_raw (MetaAdapter.extract env payload).
Proof.
  unfold MetaAdapter.extract, Spec.head_of_delivery.
  rewrite get_on_field_same by apply first_only_preserves.
  rewrite bind_cmap; apply cmap_bind_ext; intros es.
  rewrite get_index_first_only by apply on_field_preserves.
  rewrite bind_cmap; apply cmap_bind_ext; intros entry.
  unfold Spec.at_head. destruct (isArray es); [ | lockstep ].
  unfold Spec.first_entry.
  rewrite get_on_field_same by apply first_only_preserves.
  rewrite bind_cmap; apply cmap_bind_ext; intros cs.
  rewrite get_index_first_only by apply on_field_preserves.
  rewrite bind_cmap; apply cmap_bind_ext; intros changes.
  unfold Spec.at_head. destruct (isArray cs); [ | lockstep ].
  unfold Spec.first_change.
  rewrite get_on_field_same by apply first_records_preserves.
  rewrite bind_cmap; apply cmap_bind_ext; intros value.
  lockstep.
Qed.

(** C10, as stated, fails: the message carries the whole payload in
    [rawPayload], so a second entry, which the adapter never reads,
    changes the result. *)
Lemma later_entries_counterexample :
  Spec.head_of_delivery Examples.metaTwoEntries = Examples.metaExample /\
  MetaAdapter.normalize Examples.env0 Examples.metaTwoEntries
    <> MetaAdapter.normalize Examples.env0 Examples.metaExample.
Proof.
  split; [reflexivity | ].
  intros H.
  assert (Hraw : cmap (fun r => option_map rawPayload (message r))
                   (MetaAdapter.normalize Examples.env0 Examples.metaTwoEntries)
                 = cmap (fun r => option_map rawPayload (message r))
                     (MetaAdapter.normalize Examples.env0 Examples.metaExample))
    by (rewrite H; reflexivity).
  vm_compute in Hraw. discriminate Hraw.
Qed.

(** C10, amended: apart from the copy of the payload kept in
    [rawPayload], the result of the Meta adapter's [normalize] is the
    result on the payload cut down to its first entry, that entry's first
    change, and that change's first message and first status.  A success
    carries one message, built from the first message when [messages] is
    non-empty and from the first status otherwise. *)
Theorem later_records_ignored (env : Env) (payload : value) :
  cmap Spec.without_raw (MetaAdapter.normalize env (Spec.head_of_delivery payload))
  = cmap Spec.without_raw (MetaAdapter.normalize env payload) /\
  (forall m, Spec.succeeds (MetaAdapter.normalize env payload) m ->
     rawPayload m = payload /\
     exists record,
       externalId m = member record "id" /\
       (MetaAdapter.nonempty (Spec.meta_value payload) "messages" = Normal true /\
        record = Spec.meta_first payload "messages" /\ direction m = inbound \/
        MetaAdapter.nonempty (Spec.meta_value payload) "messages" = Normal false /\
        record = Spec.meta_first payload "statuses" /\ direction m = outbound)).
Proof.
  split.
  - unfold MetaAdapter.normalize.
    rewrite head_canHandle.
    destruct (MetaAdapter.canHandle payload) as [[|]|e]; simpl; try reflexivity.
    rewrite head_validate.
    destruct (MetaAdapter.validate payload) as [[|]|e]; simpl; try reflexivity.
    pose proof (head_extract env payload) as H.
    destruct (MetaAdapter.extract env (Spec.head_of_delivery payload)) as [r'|e'],
             (MetaAdapter.extract env payload) as [r|e];
      simpl in *; try discriminate H; try exact H.
    injection H as <-. reflexivity.
  - intros m H. apply meta_success_extract, meta_extract_success in H.
    destruct H as (_ & _ & Hraw & record & seconds & Hrec & Hid & _).
    split; [exact Hraw | ]. exists record. auto.
Qed.

(* ================================================================== *)
(** * Further properties of the code *)
(* ================================================================== *)

(** ** The registration table *)

Lemma provider_eqb_eq (p q : WebhookProvider.t) :
  WebhookProvider.eqb p q = true <-> WebhookProvider.name p = WebhookProvider.name q.
Proof. unfold WebhookProvider.eqb. apply String.eqb_eq. Qed.

Lemma provider_eqb_refl (p : WebhookProvider.t) : WebhookProvider.eqb p p = true.
Proof. apply provider_eqb_eq; reflexivity. Qed.

Lemma provider_eqb_trans_false (p q x : WebhookProvider.t) :
  WebhookProvider.eqb x p = true -> WebhookProvider.eqb p q = false ->
  WebhookProvider.eqb x q = false.
Proof.
  unfold WebhookProvider.eqb. intros H1 H2.
  apply String.eqb_eq in H1. rewrite H1. exact H2.
Qed.

Lemma set_providers (r : AdapterRegistry.t) (p : WebhookProvider.t)
    (a : WebhookAdapter.t) :
  map (fun e => WebhookProvider.name (fst e)) (AdapterRegistry.set r p a)
  = if AdapterRegistry.has r p
    then map (fun e => WebhookProvider.name (fst e)) r
    else (map (fun e => WebhookProvider.name (fst e)) r ++ [WebhookProvider.name p])%list.
Proof.
  unfold AdapterRegistry.has.
  induction r as [|[q b] rest IH]; simpl; [reflexivity | ].
  destruct (WebhookProvider.eqb q p) eqn:E; simpl; [reflexivity | ].
  rewrite IH. destruct (existsb _ rest); reflexivity.
Qed.

Lemma has_In (r : AdapterRegistry.t) (p : WebhookProvider.t) :
  AdapterRegistry.has r p = true <->
  In (WebhookProvider.name p) (map (fun e => WebhookProvider.name (fst e)) r).
Proof.
  unfold AdapterRegistry.has. rewrite existsb_exists, in_map_iff.
  split; intros (e & H1 & H2); exists e.
  - split; [apply provider_eqb_eq; exact H2 | exact H1].
  - split; [exact H2 | apply provider_eqb_eq; exact H1].
Qed.

(** X1: [register] followed by [getAdapter]: the adapter registered last
    for a provider is the one found under it, the entries of the other
    providers are untouched, and the list of providers keeps its order,
    a new provider going to the end and a replaced one keeping its
    place. *)
Theorem register_then_get (r : AdapterRegistry.t) (adapter : WebhookAdapter.t) :
  let p := WebhookAdapter.provider adapter in
  AdapterRegistry.getAdapter (AdapterRegistry.register r adapter) p = Some adapter /\
  (forall q, WebhookProvider.eqb p q = false ->
     AdapterRegistry.getAdapter (AdapterRegistry.register r adapter) q
     = AdapterRegistry.getAdapter r q) /\
  AdapterRegistry.getRegisteredProviders (AdapterRegistry.register r adapter)
  = if AdapterRegistry.has r p
    then AdapterRegistry.getRegisteredProviders r
    else (AdapterRegistry.getRegisteredProviders r ++ [p])%list.
Proof.
  intros p. unfold AdapterRegistry.register. fold p.
  unfold AdapterRegistry.getAdapter, AdapterRegistry.getRegisteredProviders,
    AdapterRegistry.has.
  generalize p; clear p; intros p.
  split; [ | split ].
  - induction r as [|[q b] rest IH]; simpl.
    + rewrite provider_eqb_refl. reflexivity.
    + destruct (WebhookProvider.eqb q p) eqn:E; simpl; rewrite E; auto.
  - intros q Hq. induction r as [|[x b] rest IH]; simpl.
    + replace (WebhookProvider.eqb p q) with false. reflexivity.
    + destruct (WebhookProvider.eqb x p) eqn:E; simpl.
      * rewrite (provider_eqb_trans_false _ _ _ E Hq). reflexivity.
      * destruct (WebhookProvider.eqb x q); [reflexivity | exact IH].
  - induction r as [|[q b] rest IH]; simpl; [reflexivity | ].
    destruct (WebhookProvider.eqb q p) eqn:E; simpl; [reflexivity | ].
    rewrite IH. destruct (existsb _ rest); reflexivity.
Qed.

(** X2: [unregister] answers whether the provider had an entry; after
    it the provider has none, and the other providers keep theirs. *)
Theorem unregister_then_get (r : AdapterRegistry.t) (p : WebhookProvider.t) :
  fst (AdapterRegistry.unregister r p) = AdapterRegistry.has r p /\
  AdapterRegistry.getAdapter (snd (AdapterRegistry.unregister r p)) p = None /\
  AdapterRegistry.has (snd (AdapterRegistry.unregister r p)) p = false /\
  (forall q, WebhookProvider.eqb p q = false ->
     AdapterRegistry.getAdapter (snd (AdapterRegistry.unregister r p)) q
     = AdapterRegistry.getAdapter r q).
Proof.
  unfold AdapterRegistry.unregister, AdapterRegistry.getAdapter,
    AdapterRegistry.has; simpl.
  split; [reflexivity | ].
  split; [ | split ].
  - induction r as [|[x b] rest IH]; simpl; [reflexivity | ].
    destruct (WebhookProvider.eqb x p) eqn:E; simpl; [exact IH | ].
    rewrite E. exact IH.
  - induction r as [|[x b] rest IH]; simpl; [reflexivity | ].
    destruct (WebhookProvider.eqb x p) eqn:E; simpl; [exact IH | ].
    rewrite E. exact IH.
  - intros q Hq. induction r as [|[x b] rest IH]; simpl; [reflexivity | ].
    destruct (WebhookProvider.eqb x p) eqn:E; simpl.
    + rewrite (provider_eqb_trans_false _ _ _ E Hq). exact IH.
    + destruct (WebhookProvider.eqb x q); [reflexivity | exact IH].
Qed.

Lemma filed_set (r : AdapterRegistry.t) (adapter : WebhookAdapter.t) :
  Facts.filed r -> Facts.filed (AdapterRegistry.register r adapter).
Proof.
  unfold Facts.filed, AdapterRegistry.register.
  set (p := WebhookAdapter.provider adapter).
  intros [Hnd Hall]. split.
  - rewrite set_providers. destruct (AdapterRegistry.has r p) eqn:Hhas; [exact Hnd | ].
    assert (Hnot : ~ In (WebhookProvider.name p)
                     (map (fun e => WebhookProvider.name (fst e)) r)).
    { intros Hin. apply has_In in Hin. congruence. }
    revert Hnd Hnot.
    generalize (map (fun e => WebhookProvider.name (fst e)) r) as l.
    induction l as [|x l IH]; simpl; intros Hnd Hnot.
    + constructor; [intros [] | constructor].
    + inversion Hnd as [|? ? Hx Hl]; subst. constructor.
      * rewrite in_app_iff. simpl. intros [H | [H | []]]; [tauto | ].
        apply Hnot. left. symmetry. exact H.
      * apply IH; [exact Hl | intros H; apply Hnot; right; exact H].
  - clear Hnd. induction r as [|[q b] rest IH]; simpl.
    + constructor; [apply provider_eqb_refl | constructor].
    + inversion Hall as [|? ? Hq Hrest]; subst.
      destruct (WebhookProvider.eqb q p) eqn:E.
      * constructor; [exact E | exact Hrest].
      * constructor; [exact Hq | apply IH; exact Hrest].
Qed.

Lemma filed_filter (r : AdapterRegistry.t) (p : WebhookProvider.t) :
  Facts.filed r -> Facts.filed (snd (AdapterRegistry.unregister r p)).
Proof.
  unfold Facts.filed, AdapterRegistry.unregister; simpl.
  intros [Hnd Hall]. split.
  - induction r as [|[q b] rest IH]; simpl; [constructor | ].
    simpl in Hnd. inversion Hnd as [|? ? Hx Hl]; subst.
    inversion Hall as [|? ? Hq Hrest]; subst.
    destruct (WebhookProvider.eqb q p); simpl; [apply IH; assumption | ].
    constructor; [ | apply IH; assumption ].
    intros Hin. apply Hx. apply in_map_iff in Hin.
    destruct Hin as (e & He & Hin). apply filter_In in Hin.
    apply in_map_iff. exists e. tauto.
  - apply Forall_forall. intros e He. apply filter_In in He.
    rewrite Forall_forall in Hall. apply Hall. tauto.
Qed.

Lemma filed_reset (env : Env) : Facts.filed (AdapterRegistry.reset env).
Proof.
  rewrite reset_adapters. split.
  - simpl. repeat constructor; simpl; intuition discriminate.
  - repeat constructor.
Qed.

(** X3: the table stays well filed: the registry the constructor and
    [reset] build has one entry per provider, each adapter under its own
    provider, and [register] and [unregister] keep it so. *)
Theorem registry_stays_filed (env : Env) :
  Facts.filed (AdapterRegistry.reset env) /\
  (forall r adapter, Facts.filed r ->
     Facts.filed (AdapterRegistry.register r adapter)) /\
  (forall r p, Facts.filed r ->
     Facts.filed (snd (AdapterRegistry.unregister r p))).
Proof.
  split; [apply filed_reset | ].
  split; [intros; apply filed_set; assumption | intros; apply filed_filter; assumption].
Qed.

(** ** Detection and dispatch *)

Lemma try_catch_handled {A} (body : Completion A) (handler : Thrown -> Completion A) :
  (forall e, exists x, handler e = Normal x) ->
  exists x, try_catch body handler = Normal x.
Proof. intros H. destruct body as [x|e]; simpl; eauto. Qed.

Lemma meta_normalize_returns (env : Env) (payload : value) :
  exists r, MetaAdapter.normalize env payload = Normal r.
Proof.
  unfold MetaAdapter.normalize.
  destruct (meta_canHandle_spec payload) as (h & -> & _).
  destruct (meta_validate_returns payload) as (v & ->).
  destruct h, v; simpl; eauto. apply try_catch_handled; eauto.
Qed.

Lemma evolution_normalize_returns (env : Env) (payload : value) :
  exists r, EvolutionAdapter.normalize env payload = Normal r.
Proof.
  unfold EvolutionAdapter.normalize.
  destruct (evolution_canHandle_spec payload) as (h & -> & _).
  destruct (evolution_validate_returns payload) as (v & ->).
  destruct h, v; simpl; eauto. apply try_catch_handled; eauto.
Qed.

Lemma zapi_normalize_returns (env : Env) (payload : value) :
  exists r, ZApiAdapter.normalize env payload = Normal r.
Proof.
  unfold ZApiAdapter.normalize.
  destruct (zapi_canHandle_spec payload) as (h & -> & _).
  destruct (zapi_validate_returns payload) as (v & ->).
  destruct h, v; simpl; eauto. apply try_catch_handled; eauto.
Qed.

(** The built-in table probes Meta, then Evolution, then Z-API. *)
Lemma builtin_findAdapter (env : Env) (payload : value) :
  exists bm be bz,
    MetaAdapter.canHandle payload = Normal bm /\
    EvolutionAdapter.canHandle payload = Normal be /\
    ZApiAdapter.canHandle payload = Normal bz /\
    (bm = true <-> Spec.meta_markers payload) /\
    (be = true <-> Spec.evolution_markers payload) /\
    (bz = true <-> Spec.zapi_markers payload) /\
    AdapterRegistry.findAdapter (AdapterRegistry.reset env) payload
    = Normal (if bm then Some (MetaAdapter.adapter env)
              else if be then Some (EvolutionAdapter.adapter env)
              else if bz then Some (ZApiAdapter.adapter env)
              else None).
Proof.
  destruct (meta_canHandle_spec payload) as (bm & Hm & Mm).
  destruct (evolution_canHandle_spec payload) as (be & He & Me).
  destruct (zapi_canHandle_spec payload) as (bz & Hz & Mz).
  exists bm, be, bz. repeat (split; [assumption | ]).
  rewrite reset_adapters. simpl. rewrite Hm. simpl.
  destruct bm; [reflexivity | ]. rewrite He. simpl.
  destruct be; [reflexivity | ]. rewrite Hz. simpl.
  destruct bz; reflexivity.
Qed.

Lemma markers_not_nullish (payload : value) :
  Spec.meta_markers payload \/ Spec.evolution_markers payload \/
  Spec.zapi_markers payload ->
  isNull payload || isUndefined payload = false.
Proof.
  intros [(f & ? & ? & -> & _) | [(f & ? & ? & ? & ? & -> & _)
                                 | (f & ? & ? & ? & ? & -> & _)]]; reflexivity.
Qed.

(** X4: with the built-in adapters the registry's [normalize] is the
    [normalize] of the first adapter, in the order Meta, Evolution,
    Z-API, whose markers the payload carries; a payload with the markers
    of two providers goes to the earlier one. *)
Theorem builtin_dispatch (env : Env) (payload : value) :
  (Spec.meta_markers payload ->
     AdapterRegistry.normalize (AdapterRegistry.reset env) payload
     = MetaAdapter.normalize env payload) /\
  (~ Spec.meta_markers payload -> Spec.evolution_markers payload ->
     AdapterRegistry.normalize (AdapterRegistry.reset env) payload
     = EvolutionAdapter.normalize env payload) /\
  (~ Spec.meta_markers payload -> ~ Spec.evolution_markers payload ->
   Spec.zapi_markers payload ->
     AdapterRegistry.normalize (AdapterRegistry.reset env) payload
     = ZApiAdapter.normalize env payload).
Proof.
  destruct (builtin_findAdapter env payload)
    as (bm & be & bz & _ & _ & _ & Mm & Me & Mz & Hfind).
  unfold AdapterRegistry.normalize. rewrite Hfind.
  split; [ | split ].
  - intros H. rewrite markers_not_nullish by auto.
    apply Mm in H; subst bm; simpl.
    destruct (meta_normalize_returns env payload) as (r & ->). reflexivity.
  - intros Hn H. rewrite markers_not_nullish by auto.
    destruct bm; [exfalso; apply Hn, Mm; reflexivity | ].
    apply Me in H; subst be; simpl.
    destruct (evolution_normalize_returns env payload) as (r & ->). reflexivity.
  - intros Hn Hn' H. rewrite markers_not_nullish by auto.
    destruct bm; [exfalso; apply Hn, Mm; reflexivity | ].
    destruct be; [exfalso; apply Hn', Me; reflexivity | ].
    apply Mz in H; subst bz; simpl.
    destruct (zapi_normalize_returns env payload) as (r & ->). reflexivity.
Qed.

(** A payload with the markers of Meta and of Z-API at once. *)
Lemma markers_can_overlap :
  exists payload, Spec.meta_markers payload /\ Spec.zapi_markers payload.
Proof.
  exists (Obj [ ("object", Str "whatsapp_business_account");
                ("entry", Arr [ Null ]);
                ("instanceId", Str "i"); ("messageId", Str "m");
                ("phone", Str "5511988888888");
                ("momment", Number (Num 1677234567000)) ]).
  split.
  - do 3 eexists. repeat split; reflexivity.
  - do 5 eexists. repeat split; reflexivity.
Qed.

Lemma builtin_success_provider (env : Env) (payload : value) (m : NormalizedMessage) :
  Spec.succeeds (AdapterRegistry.normalize (AdapterRegistry.reset env) payload) m ->
  exists adapter,
    AdapterRegistry.findAdapter (AdapterRegistry.reset env) payload
      = Normal (Some adapter) /\
    WebhookAdapter.provider adapter = provider m.
Proof.
  intros H.
  destruct (builtin_findAdapter env payload)
    as (bm & be & bz & _ & _ & _ & Mm & Me & Mz & Hfind).
  destruct H as (r & H & Hs & Hmsg).
  unfold AdapterRegistry.normalize in H.
  destruct (isNull payload || isUndefined payload);
    [injection H as <-; discriminate Hs | ].
  rewrite Hfind in H. rewrite Hfind. simpl in H.
  destruct bm; [ | destruct be; [ | destruct bz ] ]; simpl in H.
  - destruct (meta_normalize_returns env payload) as (r' & Hr).
    rewrite Hr in H; simpl in H; injection H as ->.
    eexists; split; [reflexivity | ].
    assert (Hsucc : Spec.succeeds (MetaAdapter.normalize env payload) m)
      by (exists r; auto).
    apply meta_success_extract, meta_extract_success in Hsucc.
    destruct Hsucc as (_ & -> & _). reflexivity.
  - destruct (evolution_normalize_returns env payload) as (r' & Hr).
    rewrite Hr in H; simpl in H; injection H as ->.
    eexists; split; [reflexivity | ].
    assert (Hsucc : Spec.succeeds (EvolutionAdapter.normalize env payload) m)
      by (exists r; auto).
    apply evolution_success_extract in Hsucc. destruct Hsucc as (_ & _ & Hsucc).
    apply evolution_extract_success in Hsucc.
    destruct Hsucc as (_ & -> & _). reflexivity.
  - destruct (zapi_normalize_returns env payload) as (r' & Hr).
    rewrite Hr in H; simpl in H; injection H as ->.
    eexists; split; [reflexivity | ].
    assert (Hsucc : Spec.succeeds (ZApiAdapter.normalize env payload) m)
      by (exists r; auto).
    apply zapi_success_extract in Hsucc. destruct Hsucc as (_ & _ & Hsucc).
    apply zapi_extract_success in Hsucc.
    destruct Hsucc as (_ & -> & _). reflexivity.
  - injection H as <-. discriminate Hs.
Qed.

(** X5: with the built-in adapters, when the registry's [normalize]
    succeeds, [identifyProvider] names the provider of the message, with
    confidence 1. *)
Theorem identifyProvider_of_success (env : Env) (payload : value)
    (m : NormalizedMessage)
    (H : Spec.succeeds
           (AdapterRegistry.normalize (AdapterRegistry.reset env) payload) m) :
  AdapterRegistry.identifyProvider (AdapterRegistry.reset env) payload
  = Normal {| identified := provider m; confidence := 1 |}.
Proof.
  destruct (builtin_success_provider env payload m H) as (adapter & Hfind & Hp).
  unfold AdapterRegistry.identifyProvider. rewrite Hfind. simpl.
  rewrite Hp. reflexivity.
Qed.

Lemma identifyProvider_of_success_witness :
  AdapterRegistry.identifyProvider (AdapterRegistry.reset Examples.env0)
    Examples.zapiPayload
  = Normal {| identified := WebhookProvider.z_api; confidence := 1 |}.
Proof.
  refine (identifyProvider_of_success Examples.env0 Examples.zapiPayload
            {| id := BaseWebhookAdapter.generateId Examples.env0;
               externalId := Str "3EB0B430B6F8C1D073A0";
               provider := WebhookProvider.z_api;
               instanceId := Str "SUA_INSTANCE_ID";
               timestamp := Number (Num 1677234567000);
               direction := inbound;
               status := MessageStatus.received;
               from := {| phoneNumber := "5511988888888";
                          name := Str "João Silva";
                          profilePicUrl := Str "https://pps.whatsapp.net/..." |};
               to := {| phoneNumber := ""; name := Null;
                        profilePicUrl := Undefined |};
               content := {| type := MessageType.text;
                             text := Str "Olá, gostaria de saber mais sobre o produto";
                             caption := Undefined; mediaUrl := Undefined;
                             mimeType := Undefined; fileName := Undefined;
                             location := None |};
               rawPayload := Examples.zapiPayload;
               metadata := [ ("type", Str "ReceivedCallback");
                             ("broadcast", Bool false);
                             ("participantPhone", Null) ] |} _).
  eexists; split; [ | split ]; reflexivity.
Defined.

Lemma filed_found (r : AdapterRegistry.t) (payload : value) (a : WebhookAdapter.t) :
  Facts.filed r ->
  AdapterRegistry.findAdapter r payload = Normal (Some a) ->
  AdapterRegistry.getAdapter r (WebhookAdapter.provider a) = Some a.
Proof.
  unfold AdapterRegistry.getAdapter.
  induction r as [|[q b] rest IH]; simpl; intros [Hnd Hall] Hfind;
    [discriminate Hfind | ].
  inversion Hnd as [|? ? Hq Hnd']; subst.
  inversion Hall as [|? ? Hb Hall']; subst. simpl in Hb.
  destruct (WebhookAdapter.canHandle b payload) as [[|]|e]; simpl in Hfind;
    try discriminate Hfind.
  - injection Hfind as <-. rewrite Hb. reflexivity.
  - specialize (IH (conj Hnd' Hall') Hfind).
    destruct (find _ rest) as [e|] eqn:Hf; [ | discriminate IH ].
    injection IH as <-.
    apply find_some in Hf. destruct Hf as [Hin He].
    destruct (WebhookProvider.eqb q (WebhookAdapter.provider (snd e))) eqn:E;
      [ | reflexivity ].
    exfalso. apply Hq. apply in_map_iff. exists e. split; [ | exact Hin ].
    apply provider_eqb_eq in E, He. congruence.
Qed.

(** X6: [normalizeWithProvider] fails with [UNKNOWN_PROVIDER], listing
    the registered providers, when the named provider has no entry; in a
    well-filed table, naming the provider of the adapter that detection
    selects runs that adapter's [normalize], and gives the result of the
    registry's [normalize] whenever the adapter returns one. *)
Theorem normalizeWithProvider_agrees (r : AdapterRegistry.t) (payload : value) :
  (forall p, AdapterRegistry.getAdapter r p = None ->
     exists res,
       AdapterRegistry.normalizeWithProvider r payload p = Normal res /\
       Spec.is_failure res UNKNOWN_PROVIDER
         (Value (Obj [ ("registeredProviders",
                        Arr (map (fun q => Str (WebhookProvider.name q))
                               (AdapterRegistry.getRegisteredProviders r))) ]))) /\
  (forall adapter,
     Facts.filed r ->
     AdapterRegistry.findAdapter r payload = Normal (Some adapter) ->
     AdapterRegistry.normalizeWithProvider r payload
       (WebhookAdapter.provider adapter)
     = WebhookAdapter.normalize adapter payload /\
     (isNullish payload = false ->
      forall res, WebhookAdapter.normalize adapter payload = Normal res ->
        AdapterRegistry.normalize r payload = Normal res)).
Proof.
  split.
  - intros p Hnone. unfold AdapterRegistry.normalizeWithProvider. rewrite Hnone.
    eexists; split; [reflexivity | ]. repeat split; simpl; eauto.
  - intros adapter Hfiled Hfind. split.
    + unfold AdapterRegistry.normalizeWithProvider.
      rewrite (filed_found _ _ _ Hfiled Hfind). reflexivity.
    + intros Hn res Hres. unfold AdapterRegistry.normalize.
      unfold isNullish in Hn. rewrite Hn, Hfind. simpl. rewrite Hres. reflexivity.
Qed.

(** X7: with the built-in adapters, [isValidWebhookPayload] never
    throws and is true exactly on the payloads that carry the markers of
    one of the three providers; where it is false, [normalizeWebhook]
    fails with [UNKNOWN_PROVIDER] (or, on [null] and [undefined], with
    [INVALID_PAYLOAD]). *)
Theorem isValidWebhookPayload_markers (env : Env) (payload : value) :
  exists b,
    helpers.isValidWebhookPayload (AdapterRegistry.reset env) payload = Normal b /\
    (b = true <-> Spec.meta_markers payload \/ Spec.evolution_markers payload \/
                  Spec.zapi_markers payload) /\
    (b = false ->
     Spec.fails_with (helpers.normalizeWebhook (AdapterRegistry.reset env) payload)
       (if isNullish payload then INVALID_PAYLOAD else UNKNOWN_PROVIDER)).
Proof.
  destruct (builtin_findAdapter env payload)
    as (bm & be & bz & _ & _ & _ & Mm & Me & Mz & Hfind).
  unfold helpers.isValidWebhookPayload, helpers.normalizeWebhook,
    AdapterRegistry.normalize, isNullish.
  rewrite Hfind. simpl.
  exists (bm || be || bz).
  split; [destruct bm, be, bz; reflexivity | ].
  split.
  - rewrite !orb_true_iff. rewrite Mm, Me, Mz. tauto.
  - intros Hb. apply orb_false_iff in Hb. destruct Hb as [Hb ->].
    apply orb_false_iff in Hb. destruct Hb as [-> ->].
    destruct (isNull payload || isUndefined payload);
      do 2 eexists; (split; [reflexivity | ]); repeat split; reflexivity.
Qed.

(** ** What the adapters put on each side *)

Ltac settle :=
  repeat match goal with
         | H : ret _ = Normal _ |- _ => injection H as H; try subst
         | H : Normal _ = Normal _ |- _ => injection H as H; try subst
         end.

(** X8: a Z-API message has the payload's (normalized) [phone] on the
    contact's side and nothing on the other: outbound only when [fromMe]
    is exactly [true], with an empty sender; inbound otherwise, always
    with status [received], whatever the payload's [status], and an empty
    recipient. *)
Theorem zapi_sides (env : Env) (payload : value) (m : NormalizedMessage)
    (H : Spec.succeeds (ZApiAdapter.normalize env payload) m) :
  exists contact,
    BaseWebhookAdapter.normalizePhoneNumber (member payload "phone")
      = Normal contact /\
    if strictEq (member payload "fromMe") (Bool true)
    then direction m = outbound /\
         phoneNumber (from m) = "" /\ name (from m) = Null /\
         phoneNumber (to m) = contact
    else direction m = inbound /\ status m = MessageStatus.received /\
         phoneNumber (from m) = contact /\
         phoneNumber (to m) = "" /\ name (to m) = Null.
Proof.
  apply zapi_success_extract in H. destruct H as (_ & _ & (r & H & Hs & Hm)).
  unfold ZApiAdapter.extract in H. cbv zeta in H.
  repeat step H; subst r; try discriminate Hs.
  simpl in Hm; injection Hm as <-; simpl.
  reads; subst.
  eexists; split; [eassumption | ].
  destruct (strictEq (member payload "fromMe") (Bool true));
    unfold ZApiAdapter.mapStatus in *; simpl in *; settle;
    repeat split; reflexivity.
Qed.

Lemma zapi_sides_witness :
  exists contact,
    BaseWebhookAdapter.normalizePhoneNumber (member Examples.zapiNegativeMomment "phone")
      = Normal contact /\
    contact = "5511988888888".
Proof.
  destruct (zapi_sides Examples.env0 Examples.zapiNegativeMomment
    {| id := BaseWebhookAdapter.generateId Examples.env0;
       externalId := Str "3EB0B430B6F8C1D073A0";
       provider := WebhookProvider.z_api;
       instanceId := Str "SUA_INSTANCE_ID";
       timestamp := Number (Num (-1));
       direction := inbound;
       status := MessageStatus.received;
       from := {| phoneNumber := "5511988888888"; name := Null;
                  profilePicUrl := Undefined |};
       to := {| phoneNumber := ""; name := Null; profilePicUrl := Undefined |};
       content := {| type := MessageType.unknown;
                     text := Str "Tipo de mensagem: undefined";
                     caption := Undefined; mediaUrl := Undefined;
                     mimeType := Undefined; fileName := Undefined;
                     location := None |};
       rawPayload := Examples.zapiNegativeMomment;
       metadata := [ ("type", Undefined); ("broadcast", Undefined);
                     ("participantPhone", Undefined) ] |})
    as (contact & Hc & Hside).
  - eexists; split; [ | split ]; reflexivity.
  - exists contact. split; [exact Hc | ]. simpl in Hside.
    destruct Hside as (_ & _ & Hfrom & _). symmetry. exact Hfrom.
Defined.

(** ** Results and error codes *)



Lemma zapi_extract_shape (env : Env) (payload : value) (r : NormalizationResult) :
  ZApiAdapter.extract env payload = Normal r ->
  exists m, r = BaseWebhookAdapter.createSuccess m.
Proof.
  intros H. unfold ZApiAdapter.extract in H. cbv zeta in H.
  repeat step H; subst r; eauto.
Qed.



(** ** Required fields and unsupported events *)

(** X10: a payload with the four Z-API markers is rejected with
    [MISSING_REQUIRED_FIELD] exactly when [instanceId], [messageId] or
    [phone] is the empty string or [momment] is 0, -0 or NaN; a
    [momment] of 0 is taken for a missing one. *)
Theorem zapi_missing_field (env : Env) (fields : list (string * value))
    (instanceId messageId phone : string) (momment : number)
    (H1 : lookup "instanceId" fields = Some (Str instanceId))
    (H2 : lookup "messageId" fields = Some (Str messageId))
    (H3 : lookup "phone" fields = Some (Str phone))
    (H4 : lookup "momment" fields = Some (Number momment)) :
  Spec.fails_with (ZApiAdapter.normalize env (Obj fields)) MISSING_REQUIRED_FIELD
  <-> instanceId = "" \/ messageId = "" \/ phone = "" \/
      momment = NaN \/ momment = Num 0 \/ momment = NegZero.
Proof.
  assert (Hc : ZApiAdapter.canHandle (Obj fields) = Normal true).
  { unfold ZApiAdapter.canHandle, ZApiAdapter.field_is, andM, get; simpl.
    rewrite H1, H2, H3, H4. reflexivity. }
  assert (Hv : ZApiAdapter.validate (Obj fields)
               = Normal (negb (instanceId =? "")%string
                         && (negb (messageId =? "")%string
                         && (negb (phone =? "")%string
                         && truthy (Number momment))))).
  { unfold ZApiAdapter.validate. rewrite Hc. simpl.
    unfold ZApiAdapter.field_truthy, andM, get; simpl.
    rewrite H1, H2, H3, H4. simpl.
    destruct (instanceId =? "")%string; simpl; [reflexivity | ].
    destruct (messageId =? "")%string; simpl; [reflexivity | ].
    destruct (phone =? "")%string; simpl; reflexivity. }
  remember (truthy (Number momment)) as t eqn:Ht in Hv. symmetry in Ht.
  unfold ZApiAdapter.normalize. rewrite Hc, Hv. simpl.
  destruct (String.eqb_spec instanceId ""); simpl.
  { split; [auto | intros _].
    do 2 eexists; split; [reflexivity | repeat split; reflexivity]. }
  destruct (String.eqb_spec messageId ""); simpl.
  { split; [auto | intros _].
    do 2 eexists; split; [reflexivity | repeat split; reflexivity]. }
  destruct (String.eqb_spec phone ""); simpl.
  { split; [auto | intros _].
    do 2 eexists; split; [reflexivity | repeat split; reflexivity]. }
  destruct t; cbn [negb bind ret].
  2:{ split; [intros _ | intros _;
                do 2 eexists; split; [reflexivity | repeat split; reflexivity]].
      do 3 right.
      destruct momment as [|z| |neg|m k]; try discriminate Ht; auto.
      simpl in Ht. apply negb_false_iff, Z.eqb_eq in Ht. subst z. auto. }
  apply truthy_number in Ht. destruct Ht as (Hnan & Hzero & Hneg).
  split.
  - intros (r & e & Hr & Hs & _ & He & Hk). exfalso.
    destruct (ZApiAdapter.extract env (Obj fields)) as [r'|e'] eqn:Hx; simpl in Hr;
      injection Hr as <-.
    + destruct (zapi_extract_shape _ _ _ Hx) as (m & ->). discriminate Hs.
    + simpl in He. injection He as <-. discriminate Hk.
  - intros [? | [? | [? | [? | [? | ?]]]]]; congruence.
Qed.

Lemma zapi_missing_field_witness :
  Spec.fails_with
    (ZApiAdapter.normalize Examples.env0
       (Obj [ ("instanceId", Str "SUA_INSTANCE_ID");
              ("messageId", Str "3EB0B430B6F8C1D073A0");
              ("phone", Str "5511988888888");
              ("momment", Number (Num 0)) ]))
    MISSING_REQUIRED_FIELD.
Proof.
  apply (zapi_missing_field Examples.env0 _ "SUA_INSTANCE_ID"
           "3EB0B430B6F8C1D073A0" "5511988888888" (Num 0));
    try reflexivity.
  right; right; right; right; left; reflexivity.
Defined.

(** X11: the Evolution adapter processes only the four message events.
    Past both guards, any other [event] is rejected with
    [UNSUPPORTED_MESSAGE_TYPE] and a message that quotes it; a success
    is always for one of the four. *)
Theorem evolution_events (env : Env) (payload : value) :
  (EvolutionAdapter.canHandle payload = Normal true ->
   EvolutionAdapter.validate payload = Normal true ->
   EvolutionAdapter.isMessageEvent (member payload "event") = false ->
   exists event,
     member payload "event" = Str event /\
     EvolutionAdapter.normalize env payload
     = Normal {| success := false; message := None;
                 error := Some {| code := UNSUPPORTED_MESSAGE_TYPE;
                                  error_message :=
                                    "Evento não suportado: " ++ event
                                    ++ ". Apenas eventos de mensagem são processados.";
                                  details := NoDetails |} |}) /\
  (forall m, Spec.succeeds (EvolutionAdapter.normalize env payload) m ->
     In (member payload "event")
        [Str "messages.upsert"; Str "messages.update"; Str "message.ack";
         Str "send.message"]).
Proof.
  split.
  - intros Hc Hv Hev.
    destruct (evolution_canHandle_spec payload) as (b & Hb & Hm).
    rewrite Hc in Hb; injection Hb as <-.
    destruct (proj1 Hm eq_refl) as (fields & ev & i & data & key & -> & He & _).
    exists ev. simpl. rewrite He. split; [reflexivity | ].
    unfold EvolutionAdapter.normalize. rewrite Hc, Hv. simpl.
    unfold EvolutionAdapter.extract. unfold get at 1. simpl.
    simpl in Hev. rewrite Hev. simpl. rewrite He. reflexivity.
  - intros m H. apply evolution_success_extract in H.
    destruct H as (_ & _ & (r & H & Hs & Hm)).
    unfold EvolutionAdapter.extract in H.
    step H. apply get_Normal in E. subst a.
    destruct (EvolutionAdapter.isMessageEvent (member payload "event")) eqn:Hev;
      simpl in H.
    + clear H. unfold EvolutionAdapter.isMessageEvent, includes in Hev.
      destruct (member payload "event") as [| | | |s| |]; try discriminate Hev.
      unfold EvolutionAdapter.messageEvents in Hev. cbn [existsb] in Hev.
      rewrite !orb_true_iff in Hev.
      destruct Hev as [Hev | [Hev | [Hev | [Hev | Hev]]]]; try discriminate Hev;
        apply String.eqb_eq in Hev; subst s; cbn [In]; tauto.
    + repeat step H; subst r; discriminate Hs.
Qed.

(** X12: an Evolution message is outbound with status [sent] when
    [data.key.fromMe] is truthy and inbound with status [received]
    otherwise.  The number of [remoteJid] and the push name always go
    together: on the sender's side of an inbound message, on the
    recipient's side of an outbound one, with the number of
    [destination] (empty when it is missing) on the other side. *)
Theorem evolution_sides (env : Env) (payload : value) (m : NormalizedMessage)
    (H : Spec.succeeds (EvolutionAdapter.normalize env payload) m) :
  let data := member payload "data" in
  let key := member data "key" in
  exists remote destination,
    BaseWebhookAdapter.normalizePhoneNumber (member key "remoteJid")
      = Normal remote /\
    BaseWebhookAdapter.normalizePhoneNumber
      (or_else (member payload "destination") (Str "")) = Normal destination /\
    if truthy (member key "fromMe")
    then direction m = outbound /\ status m = MessageStatus.sent /\
         from m = {| phoneNumber := destination; name := Null;
                     profilePicUrl := Undefined |} /\
         to m = {| phoneNumber := remote;
                   name := or_else (member data "pushName") Null;
                   profilePicUrl := Undefined |}
    else direction m = inbound /\ status m = MessageStatus.received /\
         from m = {| phoneNumber := remote;
                     name := or_else (member data "pushName") Null;
                     profilePicUrl := Undefined |} /\
         to m = {| phoneNumber := destination; name := Null;
                   profilePicUrl := Undefined |}.
Proof.
  apply evolution_success_extract in H. destruct H as (_ & _ & (r & H & Hs & Hm)).
  unfold EvolutionAdapter.extract in H. cbv zeta in H.
  repeat step H; subst r; try discriminate Hs.
  simpl in Hm; injection Hm as <-; simpl.
  reads; subst.
  do 2 eexists; split; [eassumption | split; [eassumption | ]].
  destruct (truthy (member (member (member payload "data") "key") "fromMe"));
    repeat split; reflexivity.
Qed.

Lemma evolution_sides_witness :
  exists remote destination,
    BaseWebhookAdapter.normalizePhoneNumber
      (member (member (member Examples.evolutionPayload "data") "key") "remoteJid")
      = Normal remote /\
    BaseWebhookAdapter.normalizePhoneNumber
      (or_else (member Examples.evolutionPayload "destination") (Str ""))
      = Normal destination /\
    remote = "5511988888888" /\ destination = "5511999999999".
Proof.
  destruct (evolution_sides Examples.env0 Examples.evolutionPayload
    {| id := BaseWebhookAdapter.generateId Examples.env0;
       externalId := Str "3EB0B430B6F8C1D073A0";
       provider := WebhookProvider.evolution;
       instanceId := Str "minha-instancia";
       timestamp := Number (Num 1677234567000);
       direction := inbound;
       status := MessageStatus.received;
       from := {| phoneNumber := "5511988888888"; name := Str "João Silva";
                  profilePicUrl := Undefined |};
       to := {| phoneNumber := "5511999999999"; name := Null;
                profilePicUrl := Undefined |};
       content := {| type := MessageType.text;
                     text := Str "Olá, gostaria de saber mais sobre o produto";
                     caption := Undefined; mediaUrl := Undefined;
                     mimeType := Undefined; fileName := Undefined;
                     location := None |};
       rawPayload := Examples.evolutionPayload;
       metadata := [ ("event", Str "messages.upsert");
                     ("serverUrl", Str "https://sua-evolution-api.com");
                     ("dateTime", Str "2024-01-15T10:30:00.000Z") ] |})
    as (remote & destination & Hr & Hd & Hside).
  - eexists; split; [ | split ]; reflexivity.
  - exists remote, destination. split; [exact Hr | split; [exact Hd | ]].
    simpl in Hside. destruct Hside as (_ & _ & Hfrom & Hto).
    injection Hfrom as <-. injection Hto as <-. split; reflexivity.
Defined.

(** ** Meta: content kinds and status updates *)

Lemma meta_extractContent_kinds (msg : value) (c : NormalizedMessageContent) :
  MetaAdapter.extractContent msg = Normal c ->
  Facts.meta_kind (type c) /\
  forall s, member msg "type" = Str s ->
    ~ In s ["text"; "image"; "audio"; "video"; "document"; "location"] ->
    c = {| type := MessageType.unknown;
           text := Str ("Tipo não suportado: " ++ s);
           caption := Undefined; mediaUrl := Undefined; mimeType := Undefined;
           fileName := Undefined; location := None |}.
Proof.
  intros H. unfold MetaAdapter.extractContent in H.
  repeat step H; subst c; (split; [exact I | ]); intros s Hs Hn;
    reads; subst; rewrite Hs in *;
    try (exfalso; apply Hn;
         match goal with
         | E : strictEq (Str s) (Str _) = true |- _ =>
             apply String.eqb_eq in E; subst s; simpl; tauto
         end).
  match goal with
  | E : ToString (Str s) = Normal _ |- _ => injection E as <-
  end.
  reflexivity.
Qed.

(** X13: the content of a Meta message is of one of seven kinds only:
    text, image, audio, video, document, location or unknown.  The
    result of [mapMessageType] is not used: a message whose [type] is a
    string other than the six handled ones (a sticker, a reaction,
    contacts) comes out as [unknown] with the text "Tipo não suportado:"
    followed by that type, and a status update has the bare content
    [unknown]. *)
Theorem meta_content_kinds (env : Env) (payload : value) (m : NormalizedMessage)
    (H : Spec.succeeds (MetaAdapter.normalize env payload) m) :
  Facts.meta_kind (type (content m)) /\
  (direction m = outbound -> content m = content_of MessageType.unknown) /\
  (direction m = inbound ->
   forall s, member (Spec.meta_first payload "messages") "type" = Str s ->
     ~ In s ["text"; "image"; "audio"; "video"; "document"; "location"] ->
     content m = {| type := MessageType.unknown;
                    text := Str ("Tipo não suportado: " ++ s);
                    caption := Undefined; mediaUrl := Undefined;
                    mimeType := Undefined; fileName := Undefined;
                    location := None |}).
Proof.
  apply meta_success_extract in H. destruct H as (r & H & Hs & Hm).
  unfold MetaAdapter.extract in H. cbv zeta in H.
  repeat step H; subst r; try discriminate Hs;
    simpl in Hm; injection Hm as <-; simpl.
  - match goal with
    | E : MetaAdapter.extractContent _ = Normal _ |- _ =>
        destruct (meta_extractContent_kinds _ _ E) as (Hk & Hu)
    end.
    split; [exact Hk | split; [discriminate | ]].
    intros _ s Hty Hn. apply Hu; [ | exact Hn].
    reads; subst. exact Hty.
  - split; [exact I | split; [reflexivity | discriminate]].
Qed.

Lemma meta_content_kinds_witness :
  Spec.succeeds (MetaAdapter.normalize Examples.env0 Examples.metaSticker)
    {| id := BaseWebhookAdapter.generateId Examples.env0;
       externalId := Str "wamid.ABC";
       provider := WebhookProvider.meta;
       instanceId := Str "PHONE_NUMBER_ID";
       timestamp := Number (Num 1677234567000);
       direction := inbound;
       status := MessageStatus.received;
       from := {| phoneNumber := "5511988888888"; name := Null;
                  profilePicUrl := Undefined |};
       to := {| phoneNumber := "5511999999999"; name := Null;
                profilePicUrl := Undefined |};
       content := {| type := MessageType.unknown;
                     text := Str "Tipo não suportado: sticker";
                     caption := Undefined; mediaUrl := Undefined;
                     mimeType := Undefined; fileName := Undefined;
                     location := None |};
       rawPayload := Examples.metaSticker;
       metadata := [ ("businessAccountId", Undefined);
                     ("phoneNumberId", Str "PHONE_NUMBER_ID") ] |} /\
  Facts.meta_kind MessageType.unknown.
Proof.
  assert (Hs : Spec.succeeds
                 (MetaAdapter.normalize Examples.env0 Examples.metaSticker)
    {| id := BaseWebhookAdapter.generateId Examples.env0;
       externalId := Str "wamid.ABC";
       provider := WebhookProvider.meta;
       instanceId := Str "PHONE_NUMBER_ID";
       timestamp := Number (Num 1677234567000);
       direction := inbound;
       status := MessageStatus.received;
       from := {| phoneNumber := "5511988888888"; name := Null;
                  profilePicUrl := Undefined |};
       to := {| phoneNumber := "5511999999999"; name := Null;
                profilePicUrl := Undefined |};
       content := {| type := MessageType.unknown;
                     text := Str "Tipo não suportado: sticker";
                     caption := Undefined; mediaUrl := Undefined;
                     mimeType := Undefined; fileName := Undefined;
                     location := None |};
       rawPayload := Examples.metaSticker;
       metadata := [ ("businessAccountId", Undefined);
                     ("phoneNumberId", Str "PHONE_NUMBER_ID") ] |}).
  { eexists; split; [ | split ]; reflexivity. }
  split; [exact Hs | ].
  exact (proj1 (meta_content_kinds _ _ _ Hs)).
Defined.

Lemma meta_mapStatus_cases (st : value) (r : MessageStatus.t) :
  MetaAdapter.mapStatus st = Normal r ->
  r <> MessageStatus.received /\
  forall s, st = Str s -> ~ In s Object_prototype_members ->
    Facts.declared_status r /\
    (~ In s ["sent"; "delivered"; "read"; "failed"] -> r = MessageStatus.pending).
Proof.
  intros H. unfold MetaAdapter.mapStatus, lookup_or in H.
  step H. injection H as <-.
  unfold table_lookup, MetaAdapter.statusMap. cbn [assoc].
  destruct (String.eqb_spec "sent" a) as [<- | N1].
  { split; [discriminate | ]. intros s -> Hp. injection E as <-.
    split; [exact I | ]. intros Hn. exfalso. apply Hn. simpl. tauto. }
  destruct (String.eqb_spec "delivered" a) as [<- | N2].
  { split; [discriminate | ]. intros s -> Hp. injection E as <-.
    split; [exact I | ]. intros Hn. exfalso. apply Hn. simpl. tauto. }
  destruct (String.eqb_spec "read" a) as [<- | N3].
  { split; [discriminate | ]. intros s -> Hp. injection E as <-.
    split; [exact I | ]. intros Hn. exfalso. apply Hn. simpl. tauto. }
  destruct (String.eqb_spec "failed" a) as [<- | N4].
  { split; [discriminate | ]. intros s -> Hp. injection E as <-.
    split; [exact I | ]. intros Hn. exfalso. apply Hn. simpl. tauto. }
  destruct (existsb (fun m => (m =? a)%string) Object_prototype_members) eqn:Ex.
  - split; [discriminate | ]. intros s -> Hp. injection E as <-.
    exfalso. apply Hp. apply existsb_exists in Ex.
    destruct Ex as (x & Hin & Hx). apply String.eqb_eq in Hx. subst x. exact Hin.
  - split; [discriminate | ]. intros s -> Hp. split; [exact I | reflexivity].
Qed.

(** X14: a Meta message read from [messages] always has status
    [received]; a status update never has.  The status of an update is
    one of the declared ones unless the payload's [status] names a
    member of [Object.prototype], is [pending] for every other string
    that is not sent, delivered, read or failed, and the update carries
    no contact names and the metadata [isStatusUpdate] and
    [originalStatus]. *)
Theorem meta_status_updates (env : Env) (payload : value) (m : NormalizedMessage)
    (H : Spec.succeeds (MetaAdapter.normalize env payload) m) :
  match direction m with
  | inbound => status m = MessageStatus.received
  | outbound =>
      let original := member (Spec.meta_first payload "statuses") "status" in
      status m <> MessageStatus.received /\
      (forall s, original = Str s -> ~ In s Object_prototype_members ->
         Facts.declared_status (status m) /\
         (~ In s ["sent"; "delivered"; "read"; "failed"] ->
          status m = MessageStatus.pending)) /\
      name (from m) = Null /\ name (to m) = Null /\
      metadata m = [ ("isStatusUpdate", Bool true);
                     ("originalStatus", original) ]
  end.
Proof.
  apply meta_success_extract in H. destruct H as (r & H & Hs & Hm).
  unfold MetaAdapter.extract in H. cbv zeta in H.
  repeat step H; subst r; try discriminate Hs;
    simpl in Hm; injection Hm as <-; simpl; [reflexivity | ].
  match goal with
  | E : MetaAdapter.mapStatus _ = Normal _ |- _ =>
      destruct (meta_mapStatus_cases _ _ E) as (Hr & Hd)
  end.
  reads; subst.
  split; [exact Hr | split; [exact Hd | repeat split; reflexivity]].
Qed.

Lemma meta_status_updates_witness :
  Spec.succeeds (MetaAdapter.normalize Examples.env0 Examples.metaDelivered)
    {| id := BaseWebhookAdapter.generateId Examples.env0;
       externalId := Str "wamid.ABC";
       provider := WebhookProvider.meta;
       instanceId := Str "PHONE_NUMBER_ID";
       timestamp := Number (Num 1677234567000);
       direction := outbound;
       status := MessageStatus.delivered;
       from := {| phoneNumber := "5511999999999"; name := Null;
                  profilePicUrl := Undefined |};
       to := {| phoneNumber := "5511988888888"; name := Null;
                profilePicUrl := Undefined |};
       content := content_of MessageType.unknown;
       rawPayload := Examples.metaDelivered;
       metadata := [ ("isStatusUpdate", Bool true);
                     ("originalStatus", Str "delivered") ] |} /\
  MessageStatus.delivered <> MessageStatus.received.
Proof.
  assert (Hs : Spec.succeeds
                 (MetaAdapter.normalize Examples.env0 Examples.metaDelivered)
    {| id := BaseWebhookAdapter.generateId Examples.env0;
       externalId := Str "wamid.ABC";
       provider := WebhookProvider.meta;
       instanceId := Str "PHONE_NUMBER_ID";
       timestamp := Number (Num 1677234567000);
       direction := outbound;
       status := MessageStatus.delivered;
       from := {| phoneNumber := "5511999999999"; name := Null;
                  profilePicUrl := Undefined |};
       to := {| phoneNumber := "5511988888888"; name := Null;
                profilePicUrl := Undefined |};
       content := content_of MessageType.unknown;
       rawPayload := Examples.metaDelivered;
       metadata := [ ("isStatusUpdate", Bool true);
                     ("originalStatus", Str "delivered") ] |}).
  { eexists; split; [ | split ]; reflexivity. }
  split; [exact Hs | ].
  exact (proj1 (meta_status_updates _ _ _ Hs)).
Defined.

(** ** Phone numbers: what the two normalizers return *)

Lemma strip_leading_plus_cons (c : ascii) (rest : string) :
  strip_leading_plus (String c rest)
  = if Ascii.eqb c "+"%char then rest else String c rest.
Proof. destruct c as [[] [] [] [] [] [] [] []]; reflexivity. Qed.

Lemma forall_weaken (f g : ascii -> bool) (s : string) :
  (forall c, f c = true -> g c = true) ->
  string_forall f s = true -> string_forall g s = true.
Proof.
  intros Hfg. induction s as [|c rest IH]; simpl; [reflexivity | ].
  intros H; apply andb_true_iff in H; destruct H as [Hc Hrest].
  rewrite (Hfg c Hc), (IH Hrest); reflexivity.
Qed.

Lemma strip_suffix_without_at (s : string) :
  string_forall (fun c => negb (Ascii.eqb c "@"%char)) s = true ->
  strip_whatsapp_suffix s = s.
Proof.
  induction s as [|c rest IH]; simpl; [reflexivity | ].
  intros H; apply andb_true_iff in H; destruct H as [Hc Hrest].
  apply negb_true_iff in Hc. rewrite Hc, (IH Hrest); reflexivity.
Qed.

Lemma digit_or_plus_is_not_at (c : ascii) :
  is_digit c || Ascii.eqb c "+"%char = true ->
  negb (Ascii.eqb c "@"%char) = true.
Proof.
  intros H. destruct (Ascii.eqb_spec c "@"%char) as [->|]; [ | reflexivity ].
  discriminate H.
Qed.

Lemma strip_leading_plus_keeps (f : ascii -> bool) (s : string) :
  string_forall f s = true -> string_forall f (strip_leading_plus s) = true.
Proof.
  destruct s as [|c rest]; [reflexivity | ].
  rewrite strip_leading_plus_cons. simpl.
  intros H; apply andb_true_iff in H; destruct H as [Hc Hrest].
  destruct (Ascii.eqb c "+"%char); [exact Hrest | ].
  simpl. rewrite Hc. exact Hrest.
Qed.

Lemma truthy_Str (s : string) : truthy (Str s) = negb (s =? "")%string.
Proof. destruct s; reflexivity. Qed.

Lemma base_on_digits_or_plus (r : string) :
  Facts.digits_or_plus r ->
  BaseWebhookAdapter.normalizePhoneNumber (Str r)
  = Normal (strip_leading_plus r).
Proof.
  intros Hr. unfold BaseWebhookAdapter.normalizePhoneNumber.
  rewrite truthy_Str, negb_involutive.
  destruct (String.eqb_spec r "") as [-> | _]; [reflexivity | ].
  rewrite strip_suffix_without_at
    by (revert Hr; apply forall_weaken; exact digit_or_plus_is_not_at).
  unfold keep_digits_and_plus. rewrite (filter_fixed _ _ Hr). reflexivity.
Qed.

(** X15: on every string the adapters' [normalizePhoneNumber] returns a
    string of digits and plus signs only (a plus sign that is not the
    first character is kept), and normalizing that result again removes
    exactly one more leading plus sign; on anything that is not a string
    it returns the empty string for a falsy value and throws for a
    truthy one. *)
Theorem base_normalizePhoneNumber_output :
  (forall s, exists r,
     BaseWebhookAdapter.normalizePhoneNumber (Str s) = Normal r /\
     Facts.digits_or_plus r /\
     BaseWebhookAdapter.normalizePhoneNumber (Str r)
       = Normal (strip_leading_plus r)) /\
  (forall phone, typeof phone <> "string" ->
     BaseWebhookAdapter.normalizePhoneNumber phone
     = if truthy phone
       then Throw (ErrorInstance (NotAFunction phone "replace"))
       else Normal "").
Proof.
  split.
  - intros s.
    assert (H : exists r, BaseWebhookAdapter.normalizePhoneNumber (Str s) = Normal r
                          /\ Facts.digits_or_plus r).
    { unfold BaseWebhookAdapter.normalizePhoneNumber.
      rewrite truthy_Str, negb_involutive.
      destruct (String.eqb_spec s "") as [-> | _].
      - exists "". split; reflexivity.
      - eexists. split; [reflexivity | ].
        apply strip_leading_plus_keeps. apply filter_holds. }
    destruct H as (r & Hn & Hr). exists r.
    split; [exact Hn | split; [exact Hr | ]].
    apply base_on_digits_or_plus. exact Hr.
  - intros phone Hty. unfold BaseWebhookAdapter.normalizePhoneNumber.
    destruct phone as [| |b|n|s|items|fs]; try reflexivity.
    + destruct b; reflexivity.
    + destruct (truthy (Number n)); reflexivity.
    + exfalso. apply Hty. reflexivity.
Qed.

Lemma strip_suffix_jid (number suffix : string) :
  string_forall (fun c => negb (Ascii.eqb c "@"%char)) number = true ->
  suffix <> "" ->
  string_forall is_suffix_char suffix = true ->
  strip_whatsapp_suffix (number ++ String "@" suffix) = number.
Proof.
  intros Hn Hne Hs. induction number as [|c rest IH]; simpl.
  - rewrite Hs. destruct (String.eqb_spec suffix ""); [contradiction | reflexivity].
  - simpl in Hn. apply andb_true_iff in Hn; destruct Hn as [Hc Hrest].
    apply negb_true_iff in Hc. rewrite Hc, (IH Hrest). reflexivity.
Qed.

(** X16: a WhatsApp JID is normalized to the number before its [@]:
    when the part after the [@] is one or more ASCII letters and dots
    (s.whatsapp.net, c.us, g.us) and the part before it holds no [@],
    the adapters' [normalizePhoneNumber] returns what it returns for the
    part before the [@] alone. *)
Theorem base_normalizePhoneNumber_jid (number suffix : string)
    (Hnumber : string_forall (fun c => negb (Ascii.eqb c "@"%char)) number = true)
    (Hnonempty : suffix <> "")
    (Hsuffix : string_forall is_suffix_char suffix = true) :
  BaseWebhookAdapter.normalizePhoneNumber (Str (number ++ String "@" suffix))
  = BaseWebhookAdapter.normalizePhoneNumber (Str number).
Proof.
  unfold BaseWebhookAdapter.normalizePhoneNumber.
  rewrite !truthy_Str, !negb_involutive.
  rewrite (strip_suffix_jid _ _ Hnumber Hnonempty Hsuffix).
  rewrite (strip_suffix_without_at _ Hnumber).
  destruct (String.eqb_spec (number ++ String "@" suffix) "") as [E | _].
  { destruct number; discriminate E. }
  destruct (String.eqb_spec number "") as [-> | _]; reflexivity.
Qed.

Lemma base_normalizePhoneNumber_jid_witness :
  BaseWebhookAdapter.normalizePhoneNumber (Str "+55 (11) 98888-8888@s.whatsapp.net")
  = Normal "5511988888888".
Proof.
  apply (eq_trans (base_normalizePhoneNumber_jid "+55 (11) 98888-8888" "s.whatsapp.net"
                     eq_refl ltac:(discriminate) eq_refl)).
  reflexivity.
Defined.

Lemma filter_digits_of_filter (s : string) :
  string_filter is_digit (keep_digits_and_plus s) = string_filter is_digit s.
Proof.
  unfold keep_digits_and_plus.
  induction s as [|c rest IH]; simpl; [reflexivity | ].
  destruct (is_digit c) eqn:Hd; simpl; [rewrite Hd, IH; reflexivity | ].
  destruct (Ascii.eqb c "+"%char); simpl; [rewrite Hd | ]; exact IH.
Qed.

Lemma digits_of_plus_free (s : string) :
  Facts.digits_or_plus s -> Facts.without_plus s -> Facts.digits s.
Proof.
  unfold Facts.digits_or_plus, Facts.without_plus, Facts.digits.
  induction s as [|c rest IH]; simpl; [reflexivity | ].
  intros H1 H2.
  apply andb_true_iff in H1; destruct H1 as [Hc1 Hr1].
  apply andb_true_iff in H2; destruct H2 as [Hc2 Hr2].
  apply negb_true_iff in Hc2. rewrite Hc2, orb_false_r in Hc1.
  rewrite Hc1, (IH Hr1 Hr2). reflexivity.
Qed.

Lemma filter_digits_strip_plus (y : string) :
  Facts.digits_or_plus y -> Facts.without_plus (strip_leading_plus y) ->
  string_filter is_digit y = strip_leading_plus y.
Proof.
  intros Hy Hp. destruct y as [|c rest]; [reflexivity | ].
  rewrite strip_leading_plus_cons in *.
  destruct (Ascii.eqb_spec c "+"%char) as [-> | Hne].
  - simpl. apply filter_fixed. apply digits_of_plus_free; [ | exact Hp].
    unfold Facts.digits_or_plus in *. simpl in Hy. exact Hy.
  - apply filter_fixed. apply digits_of_plus_free; assumption.
Qed.

(** X17: the exported helper and the adapters' method agree up to the
    country code.  Whenever the adapters' method returns a number
    without a plus sign, the helper returns the same number, except
    that an 11-digit number starting with 11 gets 55 put in front of
    it. *)
Theorem normalizers_compared (s r : string)
    (Hbase : BaseWebhookAdapter.normalizePhoneNumber (Str s) = Normal r)
    (Hplus : Facts.without_plus r) :
  helpers.normalizePhoneNumber s
  = if (code_units r =? 11) && startsWith r "11" then "55" ++ r else r.
Proof.
  unfold BaseWebhookAdapter.normalizePhoneNumber in Hbase.
  rewrite truthy_Str, negb_involutive in Hbase.
  unfold helpers.normalizePhoneNumber.
  destruct (String.eqb_spec s "") as [-> | _].
  - injection Hbase as <-. reflexivity.
  - injection Hbase as Hr. cbv zeta.
    assert (Hd : keep_digits (strip_whatsapp_suffix s) = r).
    { unfold keep_digits. rewrite <- filter_digits_of_filter.
      rewrite <- Hr. apply filter_digits_strip_plus.
      - apply filter_holds.
      - rewrite Hr. exact Hplus. }
    rewrite Hd. reflexivity.
Qed.

Lemma normalizers_compared_witness :
  BaseWebhookAdapter.normalizePhoneNumber (Str "(11) 98888-8888") = Normal "11988888888" /\
  helpers.normalizePhoneNumber "(11) 98888-8888" = "5511988888888".
Proof.
  split; [reflexivity | ].
  exact (normalizers_compared "(11) 98888-8888" "11988888888" eq_refl eq_refl).
Defined.

(** ** Truncating a text *)

Lemma lastIndexOf_from_spec (c : Z) (s : helpers.units) (i found : Z) :
  0 <= i ->
  let r := helpers.lastIndexOf_from c s i found in
  r = found \/
  (i <= r < i + Z.of_nat (List.length s) /\
   nth_error s (Z.to_nat (r - i)) = Some c).
Proof.
  revert i found. induction s as [|x rest IH]; intros i found Hi; simpl.
  - left; reflexivity.
  - destruct (IH (i + 1) (if x =? c then i else found) ltac:(lia)) as [E | (Hr & Hn)].
    + rewrite E. destruct (Z.eqb_spec x c) as [-> | _]; [ | left; reflexivity].
      right. split; [lia | ]. rewrite Z.sub_diag. reflexivity.
    + right. split; [lia | ].
      replace (Z.to_nat (helpers.lastIndexOf_from c rest (i + 1)
                           (if x =? c then i else found) - i))
        with (S (Z.to_nat (helpers.lastIndexOf_from c rest (i + 1)
                             (if x =? c then i else found) - (i + 1))))
        by lia.
      exact Hn.
Qed.

Lemma lastIndexOf_positive (s : helpers.units) (c : Z) :
  0 < helpers.lastIndexOf s c ->
  helpers.lastIndexOf s c < Z.of_nat (List.length s) /\
  nth_error s (Z.to_nat (helpers.lastIndexOf s c)) = Some c.
Proof.
  intros Hpos. unfold helpers.lastIndexOf in *.
  destruct (lastIndexOf_from_spec c s 0 (-1) ltac:(lia)) as [E | (Hr & Hn)].
  - rewrite E in Hpos. lia.
  - rewrite Z.sub_0_r in Hn. split; [lia | exact Hn].
Qed.

Lemma firstn_nth_skipn {A} (l : list A) (n : nat) (x : A) :
  nth_error l n = Some x -> l = (firstn n l ++ x :: skipn (S n) l)%list.
Proof.
  revert n. induction l as [|y rest IH]; intros [|n] H; simpl in *;
    try discriminate.
  - injection H as ->. reflexivity.
  - f_equal. apply IH. exact H.
Qed.

(** X18: [truncateText] returns the text itself when it is empty or
    fits in [maxLength].  Otherwise it returns a prefix of the text
    followed by three dots; the prefix has at most [maxLength] code
    units (none when [maxLength] is negative), so the result can be up
    to three code units longer than [maxLength]; and the prefix is
    either the first [maxLength] code units or a non-empty part that
    ends right before a space of the text. *)
Theorem truncateText_shape (text : helpers.units) (maxLength : Z) :
  (text = [] \/ Z.of_nat (List.length text) <= maxLength ->
   helpers.truncateText text maxLength = text) /\
  (text <> [] -> maxLength < Z.of_nat (List.length text) ->
   exists kept,
     helpers.truncateText text maxLength = (kept ++ helpers.ellipsis)%list /\
     Facts.prefix_of kept text /\
     Z.of_nat (List.length kept) <= Z.max 0 maxLength /\
     Z.of_nat (List.length (helpers.truncateText text maxLength))
       <= Z.max 0 maxLength + 3 /\
     (kept = helpers.substring0 text maxLength \/
      kept <> [] /\ exists rest, text = (kept ++ 32 :: rest)%list)).
Proof.
  split.
  - intros [-> | Hfits]; [reflexivity | ].
    unfold helpers.truncateText. destruct text as [|x rest]; [reflexivity | ].
    destruct (Z.leb_spec (Z.of_nat (List.length (x :: rest))) maxLength);
      [reflexivity | lia].
  - intros Hne Hlong. unfold helpers.truncateText.
    destruct text as [|x rest]; [contradiction | ].
    set (text := x :: rest) in *.
    destruct (Z.leb_spec (Z.of_nat (List.length text)) maxLength); [lia | ].
    cbv zeta. set (truncated := helpers.substring0 text maxLength).
    assert (Hlen : Z.of_nat (List.length truncated) <= Z.max 0 maxLength).
    { unfold truncated, helpers.substring0. rewrite length_firstn. lia. }
    assert (Hpre : text = (truncated ++ skipn (Z.to_nat maxLength) text)%list).
    { unfold truncated, helpers.substring0. symmetry. apply firstn_skipn. }
    destruct (Z.ltb_spec 0 (helpers.lastIndexOf truncated 32)) as [Hpos | Hnone].
    + destruct (lastIndexOf_positive _ _ Hpos) as (Hin & Hnth).
      set (i := helpers.lastIndexOf truncated 32) in *.
      exists (helpers.substring0 truncated i).
      pose proof (firstn_nth_skipn _ _ _ Hnth) as Hsplit.
      assert (Hk : Z.of_nat (List.length (helpers.substring0 truncated i)) = i).
      { unfold helpers.substring0. rewrite length_firstn. lia. }
      split; [reflexivity | ].
      split.
      { exists (32 :: skipn (S (Z.to_nat i)) truncated
                  ++ skipn (Z.to_nat maxLength) text)%list.
        rewrite Hpre at 1. rewrite Hsplit at 1.
        rewrite <- app_assoc. reflexivity. }
      split; [lia | ].
      split.
      { rewrite length_app. unfold helpers.ellipsis at 1. simpl List.length. lia. }
      right. split.
      { intros E. rewrite E in Hk. simpl in Hk. lia. }
      exists (skipn (S (Z.to_nat i)) truncated
                ++ skipn (Z.to_nat maxLength) text)%list.
      rewrite Hpre at 1. rewrite Hsplit at 1.
      rewrite <- app_assoc. reflexivity.
    + exists truncated.
      split; [reflexivity | ].
      split; [eexists; exact Hpre | ].
      split; [exact Hlen | ].
      split.
      { rewrite length_app. unfold helpers.ellipsis at 1. simpl List.length. lia. }
      left. reflexivity.
Qed.

(** ** The webhook handler and the message service *)

Lemma io_bind_Normal {A B} (a : A) (k : A -> MessageService.Io B) :
  MessageService.io_bind (MessageService.io_lift (Normal a)) k = k a.
Proof. unfold MessageService.io_bind; simpl. destruct (k a); reflexivity. Qed.

Lemma io_bind_Throw {A B} (e : Thrown) (k : A -> MessageService.Io B) :
  MessageService.io_bind (MessageService.io_lift (Throw e)) k = ([], Throw e).
Proof. reflexivity. Qed.

(** X19: [handleWebhook] answers every request whose [timestamp] is a
    valid date and whose body is not [undefined]: the promise resolves
    whatever the adapters and the database do, since what they throw is
    turned into a failure response.  A falsy body gets the answer
    "Payload vazio ou inválido" without a query; the answer is a success
    exactly when normalization succeeded and the message was processed,
    and then carries the message's id and provider.  With an
    [undefined] body the handler rejects before it gets to its check of
    the body. *)
Theorem handleWebhook_answers (registry : AdapterRegistry.t)
    (db : MessageService.DatabaseClient) (context : WebhookHandler.RequestContext)
    (Htime : WebhookHandler.toISOString (WebhookHandler.timestamp context) = Normal tt) :
  let body := WebhookHandler.body context in
  let answer := WebhookHandler.handleWebhook registry db context in
  (body = Undefined ->
   answer = ([], Throw (ErrorInstance (CannotReadProperty Undefined "length")))) /\
  (body <> Undefined ->
   exists response,
     snd answer = Normal response /\
     (truthy body = false ->
      fst answer = [] /\
      response = {| WebhookHandler.success := false;
                    WebhookHandler.messageId := None;
                    WebhookHandler.error := Some (WebhookHandler.Text "Payload vazio ou inválido");
                    WebhookHandler.provider := None |}) /\
     (WebhookHandler.success response = true <->
      exists m,
        truthy body = true /\
        Spec.succeeds (AdapterRegistry.normalize registry body) m /\
        snd (WebhookHandler.processMessage db m) = Normal tt /\
        response = {| WebhookHandler.success := true;
                      WebhookHandler.messageId := Some (id m);
                      WebhookHandler.error := None;
                      WebhookHandler.provider := Some (provider m) |})).
Proof.
  intros body answer. subst answer. unfold WebhookHandler.handleWebhook.
  fold body. rewrite Htime, io_bind_Normal.
  split.
  - intros ->. reflexivity.
  - intros Hdef.
    assert (Hs : WebhookHandler.stringify_length body = Normal tt).
    { unfold WebhookHandler.stringify_length.
      destruct body; try reflexivity. contradiction. }
    rewrite Hs, io_bind_Normal.
    destruct (truthy body) eqn:Htruthy; cbn [negb].
    2:{ eexists. split; [reflexivity | ]. split.
        - intros _. split; reflexivity.
        - simpl. split; [discriminate | ].
          intros (m & Hm & _). discriminate Hm. }
    destruct (AdapterRegistry.normalize registry body) as [result|e] eqn:En.
    2:{ rewrite io_bind_Throw. unfold MessageService.io_try_catch. simpl.
        eexists. split; [reflexivity | ]. split; [discriminate | ].
        simpl. split; [discriminate | ].
        intros (m & _ & (r & Hr & _) & _). discriminate Hr. }
    rewrite io_bind_Normal.
    destruct result as [s mo eo].
    cbn [Types.success Types.message Types.error].
    assert (Hfail : forall text,
      exists response,
        snd (MessageService.io_try_catch
               (MessageService.io_bind
                  (MessageService.io_lift
                     (AdapterRegistry.identifyProvider registry body))
                  (fun identification =>
                     MessageService.io_ret
                       {| WebhookHandler.success := false;
                          WebhookHandler.messageId := None;
                          WebhookHandler.error := Some (WebhookHandler.Text text);
                          WebhookHandler.provider :=
                            Some (identified identification) |}))
               (fun error =>
                  MessageService.io_ret
                    {| WebhookHandler.success := false;
                       WebhookHandler.messageId := None;
                       WebhookHandler.error := Some (WebhookHandler.caught error);
                       WebhookHandler.provider := None |}))
        = Normal response /\
        WebhookHandler.success response = false).
    { intros text.
      destruct (AdapterRegistry.identifyProvider registry body) as [i|e];
        [rewrite io_bind_Normal | rewrite io_bind_Throw];
        eexists; split; reflexivity. }
    destruct s, mo as [m|];
      try (destruct (Hfail (match eo with
                            | Some e =>
                                if (error_message e =? "")%string
                                then "Erro desconhecido na normalização"
                                else error_message e
                            | None => "Erro desconhecido na normalização"
                            end)) as (response & Hr & Hf);
           exists response; split; [exact Hr | ];
           split; [discriminate | ];
           split; [rewrite Hf; discriminate | ];
           intros (m' & _ & (r & Hn & Hsucc & Hmsg) & _);
           injection Hn as <-; simpl in Hsucc, Hmsg; discriminate).
    destruct (WebhookHandler.processMessage db m) as [sent [[]|e]] eqn:Ep.
    + unfold MessageService.io_bind, MessageService.io_try_catch. simpl.
      eexists. split; [reflexivity | ]. split; [discriminate | ].
      simpl. split; [ | reflexivity].
      intros _. exists m. split; [reflexivity | ].
      split; [eexists; split; [reflexivity | split; reflexivity] | ].
      rewrite Ep. split; reflexivity.
    + unfold MessageService.io_bind, MessageService.io_try_catch. simpl.
      eexists. split; [reflexivity | ]. split; [discriminate | ].
      simpl. split; [discriminate | ].
      intros (m' & _ & (r & Hn & _ & Hmsg) & Hp & _).
      injection Hn as <-. simpl in Hmsg. injection Hmsg as <-.
      rewrite Ep in Hp. discriminate Hp.
Qed.

Lemma handleWebhook_answers_witness :
  snd (WebhookHandler.handleWebhook (AdapterRegistry.reset Examples.env0)
         (fun _ => Normal tt)
         {| WebhookHandler.headers := [ ("content-type", "application/json") ];
            WebhookHandler.queryParams := [];
            WebhookHandler.body := Null;
            WebhookHandler.timestamp := Num 1700000000000 |})
  = Normal {| WebhookHandler.success := false;
              WebhookHandler.messageId := None;
              WebhookHandler.error :=
                Some (WebhookHandler.Text "Payload vazio ou inválido");
              WebhookHandler.provider := None |}.
Proof.
  destruct (handleWebhook_answers (AdapterRegistry.reset Examples.env0)
              (fun _ => Normal tt)
              {| WebhookHandler.headers := [ ("content-type", "application/json") ];
                 WebhookHandler.queryParams := [];
                 WebhookHandler.body := Null;
                 WebhookHandler.timestamp := Num 1700000000000 |}
              eq_refl) as (_ & H).
  destruct (H ltac:(discriminate)) as (response & Hr & Hfalsy & _).
  destruct (Hfalsy eq_refl) as (_ & ->). exact Hr.
Defined.

Lemma upsertContact_cases (db : MessageService.DatabaseClient)
    (m : NormalizedMessage) :
  MessageService.upsertContact db m = ([], Normal tt) \/
  exists q, MessageService.sql q = MessageService.UPSERT_CONTACT /\
            MessageService.upsertContact db m = ([q], db q).
Proof.
  unfold MessageService.upsertContact. cbv zeta.
  match goal with
  | |- context [(?p =? "")%string] => destruct (p =? "")%string
  end.
  - left; reflexivity.
  - right; eexists; split; cycle 1; reflexivity.
Qed.

Lemma saveMessage_cases (db : MessageService.DatabaseClient)
    (m : NormalizedMessage) :
  (exists e, MessageService.insertParams m = Throw e /\
             MessageService.saveMessage db m = ([], Throw e)) \/
  (exists ps,
     MessageService.insertParams m = Normal ps /\
     let insert := {| MessageService.sql := MessageService.INSERT_MESSAGE;
                      MessageService.params := ps |} in
     ((exists e, db insert = Throw e /\
                 MessageService.saveMessage db m = ([insert], Throw e)) \/
      (db insert = Normal tt /\
       MessageService.saveMessage db m
       = (insert :: fst (MessageService.upsertContact db m),
          cmap (fun _ => id m) (snd (MessageService.upsertContact db m)))))).
Proof.
  unfold MessageService.saveMessage.
  destruct (MessageService.insertParams m) as [ps|e].
  2:{ left. exists e. split; reflexivity. }
  right. exists ps. split; [reflexivity | ]. cbv zeta.
  rewrite io_bind_Normal.
  unfold MessageService.io_try_catch, MessageService.io_bind,
    MessageService.query, MessageService.io_ret, MessageService.io_lift.
  cbn [fst snd].
  destruct (db {| MessageService.sql := MessageService.INSERT_MESSAGE;
                  MessageService.params := ps |}) as [[]|e]; cbn [fst snd].
  2:{ left. exists e. split; reflexivity. }
  right. split; [reflexivity | ].
  destruct (MessageService.upsertContact db m) as [sent [[]|e]]; cbn [fst snd];
    rewrite ?app_nil_r; reflexivity.
Qed.

(** X20: [saveMessage] sends the insert first and the contact upsert
    after it, at most these two.  It resolves only with the message's
    id and only when every query it sent was resolved; it rejects with
    the very error of the step that failed, and nothing is undone: when
    the contact upsert is rejected the insert has already been sent and
    resolved. *)
Theorem saveMessage_outcome (db : MessageService.DatabaseClient)
    (m : NormalizedMessage) :
  let sent := fst (MessageService.saveMessage db m) in
  let outcome := snd (MessageService.saveMessage db m) in
  In (map MessageService.sql sent)
     [ []; [MessageService.INSERT_MESSAGE];
       [MessageService.INSERT_MESSAGE; MessageService.UPSERT_CONTACT] ] /\
  (forall i, outcome = Normal i ->
     i = id m /\ sent <> [] /\ Forall (fun q => db q = Normal tt) sent) /\
  (forall e, outcome = Throw e ->
     (sent = [] /\ MessageService.insertParams m = Throw e) \/
     (exists before q, sent = (before ++ [q])%list /\ db q = Throw e /\
                       Forall (fun q => db q = Normal tt) before)).
Proof.
  cbv zeta.
  destruct (saveMessage_cases db m) as [(e & He & ->) | (ps & Hps & [(e & He & ->) | (Hi & ->)])];
    cbn [fst snd].
  - split; [simpl; tauto | ]. split; [discriminate | ].
    intros e' H. injection H as <-. left. split; [reflexivity | exact He].
  - split; [simpl; tauto | ]. split; [discriminate | ].
    intros e' H. injection H as <-. right.
    exists [], {| MessageService.sql := MessageService.INSERT_MESSAGE;
                  MessageService.params := ps |}.
    split; [reflexivity | split; [exact He | constructor]].
  - destruct (upsertContact_cases db m) as [-> | (q & Hq & ->)]; cbn [fst snd].
    + split; [simpl; tauto | ]. split; [ | discriminate].
      intros i H. injection H as <-.
      split; [reflexivity | split; [discriminate | ]].
      constructor; [exact Hi | constructor].
    + split; [simpl; rewrite Hq; tauto | ].
      destruct (db q) as [[]|e] eqn:Eq; simpl.
      * split; [ | discriminate].
        intros i H. injection H as <-.
        split; [reflexivity | split; [discriminate | ]].
        constructor; [exact Hi | constructor; [exact Eq | constructor]].
      * split; [discriminate | ].
        intros e' H. injection H as <-. right.
        exists [ {| MessageService.sql := MessageService.INSERT_MESSAGE;
                    MessageService.params := ps |} ], q.
        split; [reflexivity | split; [exact Eq | ]].
        constructor; [exact Hi | constructor].
Qed.

Lemma processMessage_cases (db : MessageService.DatabaseClient)
    (m : NormalizedMessage) :
  (exists e, WebhookHandler.processMessage db m = ([], Throw e)) \/
  WebhookHandler.processMessage db m
  = (fst (MessageService.saveMessage db m),
     cmap (fun _ => tt) (snd (MessageService.saveMessage db m))).
Proof.
  unfold WebhookHandler.processMessage.
  destruct (WebhookHandler.preview (text (content m))) as [[]|e].
  - right. rewrite io_bind_Normal.
    destruct (MessageService.saveMessage db m) as [sent [i|e]];
      unfold MessageService.io_bind; simpl; [rewrite app_nil_r | ]; reflexivity.
  - left. exists e. reflexivity.
Qed.

(** X21: the only queries [handleWebhook] sends are those of
    [saveMessage] for the message that normalization produced; a
    request that is not normalized sends none.  When the answer is a
    success, queries were sent and the database resolved every one of
    them. *)
Theorem handleWebhook_storage (registry : AdapterRegistry.t)
    (db : MessageService.DatabaseClient) (context : WebhookHandler.RequestContext) :
  let answer := WebhookHandler.handleWebhook registry db context in
  (fst answer = [] \/
   exists m,
     Spec.succeeds (AdapterRegistry.normalize registry (WebhookHandler.body context)) m /\
     fst answer = fst (MessageService.saveMessage db m)) /\
  (forall response,
     snd answer = Normal response ->
     WebhookHandler.success response = true ->
     fst answer <> [] /\ Forall (fun q => db q = Normal tt) (fst answer)).
Proof.
  cbv zeta. unfold WebhookHandler.handleWebhook. cbv zeta.
  destruct (WebhookHandler.toISOString (WebhookHandler.timestamp context)) as [[]|e0];
    [rewrite io_bind_Normal | rewrite io_bind_Throw; split; [left; reflexivity | discriminate]].
  destruct (WebhookHandler.stringify_length (WebhookHandler.body context)) as [[]|e1];
    [rewrite io_bind_Normal | rewrite io_bind_Throw; split; [left; reflexivity | discriminate]].
  destruct (truthy (WebhookHandler.body context)); cbn [negb].
  2:{ split; [left; reflexivity | ].
      intros response H Hs. injection H as <-. discriminate Hs. }
  destruct (AdapterRegistry.normalize registry (WebhookHandler.body context))
    as [result|e] eqn:En.
  2:{ rewrite io_bind_Throw. unfold MessageService.io_try_catch. simpl.
      split; [left; reflexivity | ].
      intros response H Hs. injection H as <-. discriminate Hs. }
  rewrite io_bind_Normal.
  destruct result as [s mo eo].
  cbn [Types.success Types.message Types.error].
  assert (Hfail : forall text,
    let failure :=
      MessageService.io_try_catch
        (MessageService.io_bind
           (MessageService.io_lift
              (AdapterRegistry.identifyProvider registry (WebhookHandler.body context)))
           (fun identification =>
              MessageService.io_ret
                {| WebhookHandler.success := false;
                   WebhookHandler.messageId := None;
                   WebhookHandler.error := Some (WebhookHandler.Text text);
                   WebhookHandler.provider :=
                     Some (identified identification) |}))
        (fun error =>
           MessageService.io_ret
             {| WebhookHandler.success := false;
                WebhookHandler.messageId := None;
                WebhookHandler.error := Some (WebhookHandler.caught error);
                WebhookHandler.provider := None |}) in
    fst failure = [] /\
    forall response, snd failure = Normal response ->
                     WebhookHandler.success response = false).
  { intros text. cbv zeta.
    destruct (AdapterRegistry.identifyProvider registry (WebhookHandler.body context))
      as [i|e];
      [rewrite io_bind_Normal | rewrite io_bind_Throw];
      (split; [reflexivity | ]);
      intros response H; injection H as <-; reflexivity. }
  destruct s, mo as [m|];
    try (destruct (Hfail (match eo with
                          | Some e =>
                              if (error_message e =? "")%string
                              then "Erro desconhecido na normalização"
                              else error_message e
                          | None => "Erro desconhecido na normalização"
                          end)) as (Hsent & Hresp);
         split; [left; exact Hsent | ];
         intros response H Hs; rewrite (Hresp response H) in Hs; discriminate Hs).
  assert (Hm : Spec.succeeds (Normal {| Types.success := true;
                                        Types.message := Some m;
                                        Types.error := eo |}) m).
  { eexists; split; [reflexivity | split; reflexivity]. }
  destruct (processMessage_cases db m) as [(e & ->) | ->].
  { unfold MessageService.io_bind, MessageService.io_try_catch. simpl.
    split; [left; reflexivity | ].
    intros response H Hs. injection H as <-. discriminate Hs. }
  pose proof (saveMessage_cases db m) as Hcases.
  destruct (MessageService.saveMessage db m) as [sent [i|e]] eqn:Es;
    unfold MessageService.io_bind, MessageService.io_try_catch; simpl;
    rewrite ?app_nil_r.
  - split; [right; exists m; split; [exact Hm | rewrite Es; reflexivity] | ].
    intros response _ _.
    destruct Hcases as [(e & _ & H) | (ps & _ & [(e & _ & H) | (Hi & H)])];
      try discriminate H.
    injection H as Hsent Hout. subst sent.
    split; [discriminate | ].
    constructor; [exact Hi | ].
    destruct (upsertContact_cases db m) as [Eu | (q & _ & Eu)];
      rewrite Eu in *; cbn [fst snd] in *; [constructor | ].
    destruct (db q) as [[]|e] eqn:Eq; [ | discriminate Hout].
    constructor; [exact Eq | constructor].
  - split; [right; exists m; split; [exact Hm | rewrite Es; reflexivity] | ].
    intros response H Hs. injection H as <-. discriminate Hs.
Qed.

Lemma upserts_contact (db : MessageService.DatabaseClient) (m : NormalizedMessage) :
  Facts.upserts db m
    (phoneNumber (match direction m with
                  | inbound => from m
                  | outbound => to m
                  end)).
Proof.
  unfold Facts.upserts, MessageService.upsertContact. cbv zeta.
  do 2 eexists.
  match goal with
  | |- context [(?p =? "")%string] => destruct (p =? "")%string
  end; reflexivity.
Qed.

(** X22: the contact that [upsertContact] writes for a message of a
    built-in adapter is always the other party, never the account's own
    number: the [phone] of a Z-API payload, the [remoteJid] of an
    Evolution payload, the [from] of a Meta message and the
    [recipient_id] of a Meta status update, each normalized; when that
    number is empty no contact is written. *)
Theorem contact_is_other_party (env : Env) (db : MessageService.DatabaseClient)
    (payload : value) (m : NormalizedMessage) :
  (Spec.succeeds (ZApiAdapter.normalize env payload) m ->
   exists number,
     BaseWebhookAdapter.normalizePhoneNumber (member payload "phone")
       = Normal number /\
     Facts.upserts db m number) /\
  (Spec.succeeds (EvolutionAdapter.normalize env payload) m ->
   exists number,
     BaseWebhookAdapter.normalizePhoneNumber
       (member (member (member payload "data") "key") "remoteJid")
       = Normal number /\
     Facts.upserts db m number) /\
  (Spec.succeeds (MetaAdapter.normalize env payload) m ->
   exists number,
     BaseWebhookAdapter.normalizePhoneNumber
       (match direction m with
        | inbound => member (Spec.meta_first payload "messages") "from"
        | outbound => member (Spec.meta_first payload "statuses") "recipient_id"
        end) = Normal number /\
     Facts.upserts db m number).
Proof.
  split; [ | split ].
  - intros H. apply zapi_success_extract in H.
    destruct H as (_ & _ & (r & H & Hs & Hm)).
    unfold ZApiAdapter.extract in H. cbv zeta in H.
    repeat step H; subst r; try discriminate Hs.
    simpl in Hm; injection Hm as <-.
    reads; subst.
    eexists; split; [eassumption | ].
    match goal with
    | |- Facts.upserts _ ?msg _ => pose proof (upserts_contact db msg) as Hu
    end.
    cbn [direction from to phoneNumber] in Hu.
    destruct (strictEq (member payload "fromMe") (Bool true)); exact Hu.
  - intros H. apply evolution_success_extract in H.
    destruct H as (_ & _ & (r & H & Hs & Hm)).
    unfold EvolutionAdapter.extract in H. cbv zeta in H.
    repeat step H; subst r; try discriminate Hs.
    simpl in Hm; injection Hm as <-.
    reads; subst.
    eexists; split; [eassumption | ].
    match goal with
    | |- Facts.upserts _ ?msg _ => pose proof (upserts_contact db msg) as Hu
    end.
    cbn [direction from to phoneNumber] in Hu.
    destruct (truthy (member (member (member payload "data") "key") "fromMe"));
      exact Hu.
  - intros H. apply meta_success_extract in H. destruct H as (r & H & Hs & Hm).
    unfold MetaAdapter.extract in H. cbv zeta in H.
    repeat step H; subst r; try discriminate Hs;
      simpl in Hm; injection Hm as <-;
      reads; subst;
      (eexists; split; [cbn [direction]; eassumption | ]);
      match goal with
      | |- Facts.upserts _ ?msg _ => exact (upserts_contact db msg)
      end.
Qed.

(** ** Detection order and identification *)

Lemma set_new (r : AdapterRegistry.t) (p : WebhookProvider.t)
    (a : WebhookAdapter.t) :
  AdapterRegistry.has r p = false ->
  AdapterRegistry.set r p a = (r ++ [(p, a)])%list.
Proof.
  unfold AdapterRegistry.has.
  induction r as [|[q b] rest IH]; simpl; [reflexivity | ].
  intros H. apply orb_false_iff in H. destruct H as [Hq Hrest].
  rewrite Hq, (IH Hrest). reflexivity.
Qed.

Lemma findAdapter_app (r : AdapterRegistry.t) (p : WebhookProvider.t)
    (a : WebhookAdapter.t) (payload : value) :
  AdapterRegistry.findAdapter (r ++ [(p, a)])%list payload
  = (found <- AdapterRegistry.findAdapter r payload ;;
     match found with
     | Some b => ret (Some b)
     | None =>
         h <- WebhookAdapter.canHandle a payload ;;
         ret (if h then Some a else None)
     end).
Proof.
  induction r as [|[q b] rest IH]; simpl.
  - destruct (WebhookAdapter.canHandle a payload) as [[]|e]; reflexivity.
  - destruct (WebhookAdapter.canHandle b payload) as [[]|e]; simpl;
      [reflexivity | exact IH | reflexivity].
Qed.

(** X23: an adapter registered for a provider that has no entry yet is
    probed last.  [findAdapter] asks it only when every adapter
    registered before has declined, so a payload that an earlier adapter
    handles is normalized exactly as before the registration. *)
Theorem new_adapter_probed_last (r : AdapterRegistry.t)
    (adapter : WebhookAdapter.t) (payload : value)
    (Hnew : AdapterRegistry.has r (WebhookAdapter.provider adapter) = false) :
  AdapterRegistry.findAdapter (AdapterRegistry.register r adapter) payload
  = (found <- AdapterRegistry.findAdapter r payload ;;
     match found with
     | Some earlier => ret (Some earlier)
     | None =>
         h <- WebhookAdapter.canHandle adapter payload ;;
         ret (if h then Some adapter else None)
     end) /\
  (forall earlier,
     AdapterRegistry.findAdapter r payload = Normal (Some earlier) ->
     AdapterRegistry.normalize (AdapterRegistry.register r adapter) payload
     = AdapterRegistry.normalize r payload).
Proof.
  unfold AdapterRegistry.register. rewrite (set_new _ _ _ Hnew).
  split; [apply findAdapter_app | ].
  intros earlier Hfound. unfold AdapterRegistry.normalize.
  rewrite findAdapter_app, Hfound. reflexivity.
Qed.

Lemma new_adapter_probed_last_witness :
  AdapterRegistry.findAdapter
    (AdapterRegistry.register (AdapterRegistry.reset Examples.env0)
       Examples.carelessDetector)
    Examples.zapiPayload
  = Normal (Some (ZApiAdapter.adapter Examples.env0)).
Proof.
  exact (proj1 (new_adapter_probed_last (AdapterRegistry.reset Examples.env0)
                  Examples.carelessDetector Examples.zapiPayload eq_refl)).
Defined.

Lemma identify_of_canHandle (provider : WebhookProvider.t)
    (canHandle : value -> Completion bool) (payload : value) (b : bool) :
  canHandle payload = Normal b ->
  BaseWebhookAdapter.identify provider canHandle payload
  = Normal {| identified := if b then provider else WebhookProvider.unknown;
              confidence := if b then 1 else 0 |}.
Proof.
  intros H. unfold BaseWebhookAdapter.identify. rewrite H. reflexivity.
Qed.

(** X24: identification never throws with the built-in adapters.  Each
    adapter's [identify] names its own provider with confidence 1 when
    the payload carries its markers and [unknown] with confidence 0
    when it does not; the registry's [identifyProvider] gives the answer
    of the first adapter, in the order Meta, Evolution, Z-API, that is
    confident, and [unknown] with confidence 0 when none is. *)
Theorem builtin_identification (env : Env) (payload : value) :
  exists bm be bz,
    (bm = true <-> Spec.meta_markers payload) /\
    (be = true <-> Spec.evolution_markers payload) /\
    (bz = true <-> Spec.zapi_markers payload) /\
    WebhookAdapter.identify (MetaAdapter.adapter env) payload
      = Normal {| identified := if bm then WebhookProvider.meta
                                else WebhookProvider.unknown;
                  confidence := if bm then 1 else 0 |} /\
    WebhookAdapter.identify (EvolutionAdapter.adapter env) payload
      = Normal {| identified := if be then WebhookProvider.evolution
                                else WebhookProvider.unknown;
                  confidence := if be then 1 else 0 |} /\
    WebhookAdapter.identify (ZApiAdapter.adapter env) payload
      = Normal {| identified := if bz then WebhookProvider.z_api
                                else WebhookProvider.unknown;
                  confidence := if bz then 1 else 0 |} /\
    AdapterRegistry.identifyProvider (AdapterRegistry.reset env) payload
      = Normal (if bm then {| identified := WebhookProvider.meta; confidence := 1 |}
                else if be
                then {| identified := WebhookProvider.evolution; confidence := 1 |}
                else if bz
                then {| identified := WebhookProvider.z_api; confidence := 1 |}
                else {| identified := WebhookProvider.unknown; confidence := 0 |}).
Proof.
  destruct (builtin_findAdapter env payload)
    as (bm & be & bz & Hm & He & Hz & Mm & Me & Mz & Hfind).
  exists bm, be, bz.
  split; [exact Mm | split; [exact Me | split; [exact Mz | ]]].
  split; [exact (identify_of_canHandle _ _ _ _ Hm) | ].
  split; [exact (identify_of_canHandle _ _ _ _ He) | ].
  split; [exact (identify_of_canHandle _ _ _ _ Hz) | ].
  unfold AdapterRegistry.identifyProvider. rewrite Hfind.
  destruct bm; [reflexivity | ]. destruct be; [reflexivity | ].
  destruct bz; reflexivity.
Qed.

(** ** The fields of a content *)

Ltac fits :=
  unfold Facts.fields_fit; cbn [type location fileName caption mediaUrl mimeType];
  repeat split; intro;
  repeat match goal with
         | K : _ \/ _ |- _ => destruct K
         end;
  try (exfalso; match goal with
                | K : ?x <> ?x |- _ => apply K; reflexivity
                end);
  try reflexivity; try (simpl; tauto).

Lemma meta_content_fits (msg : value) (c : NormalizedMessageContent) :
  MetaAdapter.extractContent msg = Normal c ->
  Facts.fields_fit c /\ (type c = MessageType.location -> location c <> None).
Proof.
  intros H. unfold MetaAdapter.extractContent in H.
  repeat step H; subst c; (split; [fits | ]);
    cbn [type location]; intros K; first [discriminate K | discriminate].
Qed.

Lemma zapi_content_fits (p : value) (c : NormalizedMessageContent) :
  ZApiAdapter.extractContent p = Normal c ->
  Facts.fields_fit c /\ (type c = MessageType.location -> location c <> None).
Proof.
  intros H. unfold ZApiAdapter.extractContent in H.
  repeat step H; subst c; (split; [fits | ]);
    cbn [type location]; intros K; first [discriminate K | discriminate].
Qed.

Lemma evolution_content_fits (message messageType : value)
    (c : NormalizedMessageContent) :
  EvolutionAdapter.extractContent message messageType = Normal c ->
  Facts.fields_fit c.
Proof.
  intros H. unfold EvolutionAdapter.extractContent in H.
  repeat step H; subst c; fits.
Qed.

(** X25: in every message of a built-in adapter the optional fields of
    the content belong to its kind: location data only on a location, a
    file name only on a document, a caption only on an image, a video
    or a document, a media URL or MIME type only on the four media
    kinds.  For Meta and Z-API a location always has its location data;
    for Evolution it need not: a payload whose [messageType] is
    locationMessage and whose [message] has no [locationMessage] gives
    a location without location data. *)
Theorem content_fields (env : Env) (payload : value) (m : NormalizedMessage) :
  (Spec.succeeds (MetaAdapter.normalize env payload) m \/
   Spec.succeeds (ZApiAdapter.normalize env payload) m ->
   Facts.fields_fit (content m) /\
   (type (content m) = MessageType.location -> location (content m) <> None)) /\
  (Spec.succeeds (EvolutionAdapter.normalize env payload) m ->
   Facts.fields_fit (content m)) /\
  (exists bare m',
     Spec.succeeds (EvolutionAdapter.normalize env bare) m' /\
     type (content m') = MessageType.location /\
     location (content m') = None).
Proof.
  split; [ | split ].
  - intros [H | H].
    + apply meta_success_extract in H. destruct H as (r & H & Hs & Hm).
      unfold MetaAdapter.extract in H. cbv zeta in H.
      repeat step H; subst r; try discriminate Hs;
        simpl in Hm; injection Hm as <-; cbn [content].
      * eapply meta_content_fits; eassumption.
      * split; [fits | intros K; discriminate K].
    + apply zapi_success_extract in H.
      destruct H as (_ & _ & (r & H & Hs & Hm)).
      unfold ZApiAdapter.extract in H. cbv zeta in H.
      repeat step H; subst r; try discriminate Hs.
      simpl in Hm; injection Hm as <-; cbn [content].
      eapply zapi_content_fits; eassumption.
  - intros H. apply evolution_success_extract in H.
    destruct H as (_ & _ & (r & H & Hs & Hm)).
    unfold EvolutionAdapter.extract in H. cbv zeta in H.
    repeat step H; subst r; try discriminate Hs.
    simpl in Hm; injection Hm as <-; cbn [content].
    eapply evolution_content_fits; eassumption.
  - exists (Obj [ ("event", Str "messages.upsert");
                  ("instance", Str "minha-instancia");
                  ("data", Obj [
                     ("key", Obj [ ("remoteJid", Str "5511988888888@s.whatsapp.net");
                                   ("fromMe", Bool false);
                                   ("id", Str "3EB0B430B6F8C1D073A0") ]);
                     ("message", Obj [ ("messageContextInfo", Obj []) ]);
                     ("messageType", Str "locationMessage");
                     ("messageTimestamp", Number (Num 1677234567)) ]) ]).
    eexists. split; [eexists; split; [ | split ]; reflexivity | ].
    split; reflexivity.
Qed.
